(** * Agri-Adapt AI (Inflection-AI-Hackathon): data pipeline and prediction API

    A shallow embedding of the parts of the repository that the
    specification's properties talk about:

    - [scripts/data_processing/collect_openmeteo_data.py]
      (module [CollectOpenMeteo]): the hourly water stress index, the
      irrigation rule and the construction of hourly records;
    - [scripts/data_processing/integrate_all_datasets.py]
      (module [IntegrateDatasets]): monthly aggregation, county assignment of
      soil points, the master-table joins and the composite scores;
    - [scripts/enhance_training_data.py] (module [EnhanceTrainingData]):
      annual aggregation and the yield outlier filters;
    - [src/models/maize_resilience_model.py] (module [MaizeModel]) and
      [src/api/fastapi_app.py] (module [FastApi]): the resilience score and
      the prediction endpoints;
    - the feature vector of a prediction and the saving and loading of a
      model (module [MaizeModelInternals]), the metrics collector of
      [src/api/monitoring.py] (module [Monitoring]) and the prediction
      endpoint of the Flask application [src/api/app.py] (module
      [FlaskApp]).

    Python floats are modelled by exact rationals ([Q]); a Python [None] and a
    dataframe null by the constructor [PNone]. Where rounding decides a
    property, the arithmetic is repeated on binary64 floats (module
    [Binary64]). *)

From Stdlib Require Import QArith Qminmax Qround Lqa Lia ZArith List String Bool.
From Stdlib Require Import Permutation Sorted.
From Stdlib Require PrimFloat Uint63.
Import ListNotations.
Open Scope string_scope.
Open Scope list_scope.
Open Scope Q_scope.

(** * Python values and arithmetic helpers *)

Module Py.

(** Strict comparison [x < y] as a boolean (Python [x < y], [y > x]). *)
Definition Qltb (x y : Q) : bool := negb (Qle_bool y x).

(** Python's two-argument [min(a, b)]: the first argument unless [b < a]. *)
Definition min (a b : Q) : Q := if Qltb b a then b else a.

(** Python's two-argument [max(a, b)]: the first argument unless [b > a]. *)
Definition max (a b : Q) : Q := if Qltb a b then b else a.

(** A dynamically typed cell: [None]/null, a number, or a string. *)
Inductive val : Type :=
| PNone
| PNum (q : Q)
| PStr (s : string).

Definition of_option (o : option Q) : val :=
  match o with
  | Some q => PNum q
  | None => PNone
  end.

(** Rounding of a rational to the nearest integer, ties to the even one. *)
Definition round_half_even (x : Q) : Z :=
  let f := Qfloor x in
  let d := x - inject_Z f in
  if Qltb d (1 # 2) then f
  else if Qltb (1 # 2) d then (f + 1)%Z
  else if Z.even f then f else (f + 1)%Z.

(** Exceptions, and the outcome of a call that may raise. *)
Inductive exn : Type :=
| HTTPException (status_code : Z) (detail : string)
| ValueError (msg : string)
| ColumnNotFoundError (name : string)
| ComputeError (msg : string)
| OtherException (msg : string).

Definition result (A : Type) : Type := (exn + A)%type.

Definition ok {A : Type} (a : A) : result A := inr a.
Definition raise {A : Type} (e : exn) : result A := inl e.

Definition bind {A B : Type} (m : result A) (f : A -> result B) : result B :=
  match m with
  | inl e => inl e
  | inr a => f a
  end.

(** Runs [f] on every element in order; the first exception aborts. *)
Fixpoint mapM {A B : Type} (f : A -> result B) (xs : list A) : result (list B) :=
  match xs with
  | [] => ok []
  | x :: rest =>
      bind (f x) (fun y => bind (mapM f rest) (fun ys => ok (y :: ys)))
  end.

(** [round(x, 1)] and [round(x, 2)]. *)
Definition round1 (x : Q) : Q := inject_Z (round_half_even (x * 10)) / 10.
Definition round2 (x : Q) : Q := inject_Z (round_half_even (x * 100)) / 100.

End Py.

Notation "x <- m ;; k" := (Py.bind m (fun x => k))
  (at level 61, m at next level, right associativity).

(** * collect_openmeteo_data.py *)

Module CollectOpenMeteo.

(** ** [calculate_water_stress_index] *)

(** The local [temp_factor]: 0.06 per degree above 25, at most 0.3. *)
Definition temp_factor (temp : Q) : Q :=
  if Py.Qltb 25 temp then Py.min 0.3 ((temp - 25) * 0.06) else 0.0.

(** The local [evap_factor]: 0.06 per mm above 5, at most 0.3. *)
Definition evap_factor (evap : Q) : Q :=
  if Py.Qltb 5 evap then Py.min 0.3 ((evap - 5) * 0.06) else 0.0.

(** The local [rainfall_factor]: 0.008 per mm below 50 (no [min]). *)
Definition rainfall_factor (rainfall : Q) : Q :=
  if Py.Qltb rainfall 50 then (50 - rainfall) * 0.008 else 0.0.

(** The local [humidity_factor]: 0.002 per percent below 60 (no [min]). *)
Definition humidity_factor (humidity : Q) : Q :=
  if Py.Qltb humidity 60 then (60 - humidity) * 0.002 else 0.0.

Definition base_stress : Q := 0.73.

Definition calculate_water_stress_index (temp evap rainfall humidity : Q) : Q :=
  if Qle_bool rainfall 0 then 0.86
  else
    let total_stress :=
      base_stress + temp_factor temp + evap_factor evap
      + rainfall_factor rainfall + humidity_factor humidity in
    Py.max 0.73 (Py.min 0.86 total_stress).

(** The formula as the specification words it: every one of the four
    contributions is capped at its documented maximum (0.3, 0.3, 0.4 and
    0.1, the ranges given in the source comments) before the sum. *)
Definition spec_water_stress_index (temp evap rainfall humidity : Q) : Q :=
  if Qle_bool rainfall 0 then 0.86
  else
    let total_stress :=
      base_stress + Py.min 0.3 (temp_factor temp) + Py.min 0.3 (evap_factor evap)
      + Py.min 0.4 (rainfall_factor rainfall)
      + Py.min 0.1 (humidity_factor humidity) in
    Py.max 0.73 (Py.min 0.86 total_stress).

(** ** [calculate_irrigation_needs] and [calculate_heat_stress_days] *)

Record IrrigationNeeds : Type := {
  irrigation_needed : string;
  irrigation_volume_liters_ha : Q;
  crop_yield_impact_percent : Q
}.

Definition calculate_irrigation_needs (rainfall water_stress temp : Q)
  : IrrigationNeeds :=
  if Py.Qltb rainfall 10 && Py.Qltb 0.75 water_stress then
    if Py.Qltb 0.80 water_stress then
      {| irrigation_needed := "Yes"; irrigation_volume_liters_ha := 4450;
         crop_yield_impact_percent := 20 |}
    else if Py.Qltb 0.78 water_stress then
      {| irrigation_needed := "Yes"; irrigation_volume_liters_ha := 4300;
         crop_yield_impact_percent := 15 |}
    else
      {| irrigation_needed := "Yes"; irrigation_volume_liters_ha := 3800;
         crop_yield_impact_percent := 10 |}
  else
    {| irrigation_needed := "No"; irrigation_volume_liters_ha := 0;
       crop_yield_impact_percent := 0 |}.

Definition calculate_heat_stress_days (temp threshold : Q) : Q :=
  if Py.Qltb threshold temp then 1 else 0.

(** ** [process_weather_response] *)

(** A parsed timestamp ([datetime]); the emitted ['Date'] and ['Time']
    strings are its [strftime] renderings and are kept as the timestamp. *)
Record DateTime : Type := {
  dt_year : Z;
  dt_month : Z;
  dt_day : Z;
  dt_hour : Z;
  dt_minute : Z;
  dt_second : Z
}.

(** The ['hourly'] object of an Open-Meteo response: parallel arrays whose
    entries are numbers or JSON null. A key that is absent reads as the
    empty array ([hourly.get(key, [])]). *)
Record Hourly : Type := {
  time : list string;
  temperature_2m : list (option Q);
  relative_humidity_2m : list (option Q);
  pressure_msl : list (option Q);
  et0_fao_evapotranspiration : list (option Q);
  precipitation : list (option Q)
}.

(** The response dictionary: each of the two keys may be absent. The
    content of ['daily'] is not read beyond its time array. *)
Record Response : Type := {
  hourly : option Hourly;
  daily : option (list string)
}.

(** One emitted dictionary of [weather_data]. *)
Record HourlyRecord : Type := {
  County : string;
  Timestamp : DateTime;
  Year : Z;
  Month : Z;
  Day : Z;
  Hour : Z;
  Latitude : Q;
  Longitude : Q;
  Temperature_C : Py.val;
  Humidity_Percent : Py.val;
  Pressure_hPa : Py.val;
  Evapotranspiration_mm : Py.val;
  Precipitation_mm : Py.val;
  Water_Stress_Index : Py.val;
  Irrigation_Needed : Py.val;
  Irrigation_Volume_Liters_Ha : Py.val;
  Crop_Yield_Impact_Percent : Py.val;
  Heat_Stress_Days : Py.val
}.

(** [xs[i] if i < len(xs) else None]. *)
Definition value_at (xs : list (option Q)) (i : nat) : option Q :=
  match nth_error xs i with
  | Some v => v
  | None => None
  end.

(** The [water_stress] local of the loop body: computed only when all of
    [temp], [evap_val], [precip] and [hum] are present. *)
Definition water_stress_of (temp evap_val precip hum : option Q) : option Q :=
  match temp, evap_val, precip, hum with
  | Some temp_val, Some evap_val_float, Some precip_val, Some hum_val =>
      Some (calculate_water_stress_index temp_val evap_val_float precip_val hum_val)
  | _, _, _, _ => None
  end.

(** The [irrigation_data] and [heat_stress_days] locals: the empty
    dictionary ([None] here) and 0 unless [precip], [water_stress] and
    [temp] are all present. *)
Definition irrigation_of (precip water_stress temp : option Q)
  : option IrrigationNeeds * Q :=
  match precip, water_stress, temp with
  | Some precip_val, Some ws, Some temp_val =>
      (Some (calculate_irrigation_needs precip_val ws temp_val),
       calculate_heat_stress_days temp_val 30.0)
  | _, _, _ => (None, 0)
  end.

(** The dictionary appended for hour [i], whose timestamp parsed to [dt]. *)
Definition hourly_record (county : string) (lat lon : Q) (h : Hourly)
  (i : nat) (dt : DateTime) : HourlyRecord :=
  let temp := value_at (temperature_2m h) i in
  let hum := value_at (relative_humidity_2m h) i in
  let pres := value_at (pressure_msl h) i in
  let evap_val := value_at (et0_fao_evapotranspiration h) i in
  let precip := value_at (precipitation h) i in
  let water_stress := water_stress_of temp evap_val precip hum in
  let '(irrigation_data, heat_stress_days) :=
    irrigation_of precip water_stress temp in
  {| County := county;
     Timestamp := dt;
     Year := dt_year dt;
     Month := dt_month dt;
     Day := dt_day dt;
     Hour := dt_hour dt;
     Latitude := lat;
     Longitude := lon;
     Temperature_C := Py.of_option temp;
     Humidity_Percent := Py.of_option hum;
     Pressure_hPa := Py.of_option pres;
     Evapotranspiration_mm := Py.of_option evap_val;
     Precipitation_mm := Py.of_option precip;
     Water_Stress_Index := Py.of_option water_stress;
     Irrigation_Needed :=
       match irrigation_data with
       | Some d => Py.PStr (irrigation_needed d)
       | None => Py.PStr "Unknown"
       end;
     Irrigation_Volume_Liters_Ha :=
       match irrigation_data with
       | Some d => Py.PNum (irrigation_volume_liters_ha d)
       | None => Py.PNum 0
       end;
     Crop_Yield_Impact_Percent :=
       match irrigation_data with
       | Some d => Py.PNum (crop_yield_impact_percent d)
       | None => Py.PNum 0
       end;
     Heat_Stress_Days := Py.PNum heat_stress_days |}.

Section ProcessWeatherResponse.

(** [datetime.fromisoformat(time_str.replace('Z', '+00:00'))]; [None] when
    it raises, in which case the loop logs a warning and continues. *)
Variable fromisoformat : string -> option DateTime.

(** The loop [for i, time_str in enumerate(hourly_times)], from index [i]. *)
Fixpoint process_hours (county : string) (lat lon : Q) (h : Hourly)
  (i : nat) (hourly_times : list string) : list HourlyRecord :=
  match hourly_times with
  | [] => []
  | time_str :: rest =>
      match fromisoformat time_str with
      | Some dt =>
          hourly_record county lat lon h i dt
            :: process_hours county lat lon h (S i) rest
      | None => process_hours county lat lon h (S i) rest
      end
  end.

Definition process_weather_response (response_data : Response)
  (county : string) (lat lon : Q) : list HourlyRecord :=
  match hourly response_data, daily response_data with
  | Some h, Some _ => process_hours county lat lon h 0 (time h)
  | _, _ => []
  end.

(** [collect_county_weather_data]: one response per year, [None] for a
    failed request; the records of the years are concatenated. *)
Definition collect_county_weather_data (county : string) (lat lon : Q)
  (responses : list (option Response)) : list HourlyRecord :=
  flat_map (fun weather_response =>
              match weather_response with
              | Some response_data =>
                  process_weather_response response_data county lat lon
              | None => []
              end) responses.

End ProcessWeatherResponse.

(** ** Properties of emitted records that the statements below use *)

(** The stress and irrigation columns of an emitted record are all null. *)
Definition stress_fields_null (r : HourlyRecord) : Prop :=
  Water_Stress_Index r = Py.PNone
  /\ Irrigation_Needed r = Py.PNone
  /\ Irrigation_Volume_Liters_Ha r = Py.PNone
  /\ Crop_Yield_Impact_Percent r = Py.PNone.

(** Some input of the stress formula is missing at hour [i]. *)
Definition input_missing (h : Hourly) (i : nat) : Prop :=
  value_at (temperature_2m h) i = None
  \/ value_at (et0_fao_evapotranspiration h) i = None
  \/ value_at (precipitation h) i = None
  \/ value_at (relative_humidity_2m h) i = None.

End CollectOpenMeteo.

(** * integrate_all_datasets.py *)

Module IntegrateDatasets.

(** ** Data frames

    A frame keyed by (County, Year, Month). A row carries its key and its
    remaining cells by column name, in column order; [columns] is the
    schema of the non-key columns. *)

Record Key : Type := {
  k_county : string;
  k_year : Z;
  k_month : Z
}.

Definition key_eqb (a b : Key) : bool :=
  String.eqb (k_county a) (k_county b)
  && Z.eqb (k_year a) (k_year b)
  && Z.eqb (k_month a) (k_month b).

Record Row : Type := {
  key : Key;
  cells : list (string * Py.val)
}.

(** [keyed] tells whether the frame has the three key columns at all: a
    frame built from an empty list of records has no column whatsoever. *)
Record DataFrame : Type := {
  keyed : bool;
  columns : list string;
  rows : list Row
}.

Definition is_empty (df : DataFrame) : bool :=
  match rows df with
  | [] => true
  | _ :: _ => false
  end.

(** The cell of the first column called [name]. *)
Fixpoint lookup (name : string) (cs : list (string * Py.val)) : option Py.val :=
  match cs with
  | [] => None
  | (c, v) :: rest => if String.eqb c name then Some v else lookup name rest
  end.

Definition get (name : string) (r : Row) : option Py.val :=
  lookup name (cells r).

Definition has_column (name : string) (df : DataFrame) : bool :=
  existsb (String.eqb name) (columns df).

(** ** Aggregation expressions: nulls are skipped *)

Fixpoint numbers (vs : list Py.val) : list Q :=
  match vs with
  | [] => []
  | Py.PNum q :: rest => q :: numbers rest
  | _ :: rest => numbers rest
  end.

Definition total (qs : list Q) : Q := fold_right Qplus 0 qs.

(** [pl.col(c).sum()]: 0 on a group without values. *)
Definition col_sum (vs : list Py.val) : Py.val := Py.PNum (total (numbers vs)).

(** [pl.col(c).mean()]: null on a group without values. The quotient is
    the exact one; the [Float64] mean of the program can differ from it
    in the last places ([Binary64.mean]). *)
Definition col_mean (vs : list Py.val) : Py.val :=
  match numbers vs with
  | [] => Py.PNone
  | qs => Py.PNum (total qs / inject_Z (Z.of_nat (List.length qs)))
  end.

(** ** [aggregate_weather_data_monthly] *)

Definition weather_columns : list string :=
  [ "Monthly_Temperature_C"; "Monthly_Humidity_Percent"; "Monthly_Pressure_hPa";
    "Monthly_Evapotranspiration_mm"; "Monthly_Precipitation_mm";
    "Monthly_Water_Stress_Index"; "Monthly_Irrigation_Volume_Liters_Ha";
    "Monthly_Crop_Yield_Impact_Percent"; "Monthly_Heat_Stress_Days" ].

Definition same_month (ym : Z * Z) (r : CollectOpenMeteo.HourlyRecord) : bool :=
  Z.eqb (CollectOpenMeteo.Year r) (fst ym)
  && Z.eqb (CollectOpenMeteo.Month r) (snd ym).

(** The (Year, Month) groups of a file. The order in which [group_by]
    yields them is not fixed by the library; they are listed here in order
    of first appearance. *)
Fixpoint months_of (df : list CollectOpenMeteo.HourlyRecord) : list (Z * Z) :=
  match df with
  | [] => []
  | r :: rest =>
      let ym := (CollectOpenMeteo.Year r, CollectOpenMeteo.Month r) in
      ym :: filter (fun ym' => negb (Z.eqb (fst ym') (fst ym)
                                     && Z.eqb (snd ym') (snd ym)))
                   (months_of rest)
  end.

(** The [agg] of one group, with the county name added. *)
Definition monthly_row (county_name : string)
  (df : list CollectOpenMeteo.HourlyRecord) (ym : Z * Z) : Row :=
  let g := filter (same_month ym) df in
  {| key := {| k_county := county_name; k_year := fst ym; k_month := snd ym |};
     cells :=
       [ ("Monthly_Temperature_C", col_mean (map CollectOpenMeteo.Temperature_C g));
         ("Monthly_Humidity_Percent", col_mean (map CollectOpenMeteo.Humidity_Percent g));
         ("Monthly_Pressure_hPa", col_mean (map CollectOpenMeteo.Pressure_hPa g));
         ("Monthly_Evapotranspiration_mm",
           col_sum (map CollectOpenMeteo.Evapotranspiration_mm g));
         ("Monthly_Precipitation_mm", col_sum (map CollectOpenMeteo.Precipitation_mm g));
         ("Monthly_Water_Stress_Index",
           col_mean (map CollectOpenMeteo.Water_Stress_Index g));
         ("Monthly_Irrigation_Volume_Liters_Ha",
           col_sum (map CollectOpenMeteo.Irrigation_Volume_Liters_Ha g));
         ("Monthly_Crop_Yield_Impact_Percent",
           col_mean (map CollectOpenMeteo.Crop_Yield_Impact_Percent g));
         ("Monthly_Heat_Stress_Days", col_sum (map CollectOpenMeteo.Heat_Stress_Days g)) ] |}.

Definition monthly_agg (county_name : string)
  (df : list CollectOpenMeteo.HourlyRecord) : list Row :=
  map (monthly_row county_name df) (months_of df).

(** One entry per file [weather_data_*.csv]: the county name read off the
    file name and the hourly rows, or [None] when reading or parsing the
    file raises (the error is logged and the file skipped). *)
Definition WeatherFile : Type :=
  (string * option (list CollectOpenMeteo.HourlyRecord))%type.

(** The files that [collect_all_counties_weather_data] leaves behind, one
    per county of [stations] (name, latitude, longitude and the yearly
    responses). Writing a county's records to its CSV file and reading
    them back, and recovering the county name from the file name, are
    taken to be the identity; a county without any record leaves an empty
    file, which cannot be read back. *)
Definition collected_weather_files
  (fromisoformat : string -> option CollectOpenMeteo.DateTime)
  (stations : list (string * Q * Q * list (option CollectOpenMeteo.Response)))
  : list WeatherFile :=
  map (fun station =>
         match station with
         | (county, lat, lon, responses) =>
             match CollectOpenMeteo.collect_county_weather_data fromisoformat
                     county lat lon responses with
             | [] => (county, None)
             | county_data => (county, Some county_data)
             end
         end) stations.

Fixpoint all_monthly_data (weather_files : list WeatherFile) : list (list Row) :=
  match weather_files with
  | [] => []
  | (county_name, Some df) :: rest =>
      monthly_agg county_name df :: all_monthly_data rest
  | (_, None) :: rest => all_monthly_data rest
  end.

Definition aggregate_weather_data_monthly (weather_files : list WeatherFile)
  : option DataFrame :=
  match all_monthly_data weather_files with
  | [] => None
  | frames =>
      Some {| keyed := true; columns := weather_columns;
              rows := List.concat frames |}
  end.

(** ** [integrate_maize_data] *)

Record MaizeRow : Type := {
  mz_County : string;
  mz_Year : Z;
  Area_Ha : Py.val;
  Production_Tons : Py.val;
  Yield_tonnes_ha : Py.val
}.

Definition maize_columns : list string :=
  [ "Maize_Area_Ha"; "Maize_Production_Tons"; "Maize_Yield_tonnes_ha" ].

(** [range(1, 13)]. *)
Definition months : list Z := [1; 2; 3; 4; 5; 6; 7; 8; 9; 10; 11; 12]%Z.

Definition monthly_maize (maize_data : list MaizeRow) : list Row :=
  flat_map (fun row =>
    map (fun month =>
      {| key := {| k_county := mz_County row; k_year := mz_Year row;
                   k_month := month |};
         cells := [ ("Maize_Area_Ha", Area_Ha row);
                    ("Maize_Production_Tons", Production_Tons row);
                    ("Maize_Yield_tonnes_ha", Yield_tonnes_ha row) ] |})
      months) maize_data.

(** [None] stands for a missing yields file on input and for the returned
    [None] on output. A frame built from no record has no column. *)
Definition integrate_maize_data (maize_file : option (list MaizeRow))
  : option DataFrame :=
  match maize_file with
  | Some maize_data =>
      let recs := monthly_maize maize_data in
      Some {| keyed := match recs with [] => false | _ => true end;
              columns := match recs with [] => [] | _ => maize_columns end;
              rows := recs |}
  | None => None
  end.

(** ** [aggregate_soil_data_by_county] and its local [assign_county] *)

Definition assign_county (lat lon : Q) : string :=
  if Qle_bool (-4.5) lat && Qle_bool lat (-3.5) && Qle_bool 39.0 lon && Qle_bool lon 40.5
  then "Mombasa"
  else if Qle_bool (-4.5) lat && Qle_bool lat (-3.5) && Qle_bool 38.0 lon && Qle_bool lon 39.5
  then "Kwale"
  else if Qle_bool (-3.8) lat && Qle_bool lat (-2.8) && Qle_bool 39.5 lon && Qle_bool lon 40.5
  then "Kilifi"
  else if Qle_bool (-1.8) lat && Qle_bool lat (-0.8) && Qle_bool 39.5 lon && Qle_bool lon 40.5
  then "Tana River"
  else if Qle_bool (-2.5) lat && Qle_bool lat (-1.5) && Qle_bool 40.5 lon && Qle_bool lon 41.5
  then "Lamu"
  else if Qle_bool (-3.8) lat && Qle_bool lat (-2.8) && Qle_bool 38.0 lon && Qle_bool lon 39.0
  then "Taita Taveta"
  else if Qle_bool (-0.8) lat && Qle_bool lat 0.2 && Qle_bool 39.0 lon && Qle_bool lon 40.5
  then "Garissa"
  else if Qle_bool 1.0 lat && Qle_bool lat 2.0 && Qle_bool 39.5 lon && Qle_bool lon 40.5
  then "Wajir"
  else if Qle_bool 3.0 lat && Qle_bool lat 4.0 && Qle_bool 41.0 lon && Qle_bool lon 42.0
  then "Mandera"
  else if Qle_bool 2.0 lat && Qle_bool lat 3.0 && Qle_bool 37.5 lon && Qle_bool lon 38.5
  then "Marsabit"
  else if Qle_bool 0.0 lat && Qle_bool lat 1.0 && Qle_bool 37.0 lon && Qle_bool lon 38.0
  then "Isiolo"
  else if Qle_bool 0.0 lat && Qle_bool lat 1.0 && Qle_bool 37.5 lon && Qle_bool lon 38.5
  then "Meru"
  else if Qle_bool (-0.5) lat && Qle_bool lat 0.5 && Qle_bool 37.5 lon && Qle_bool lon 38.5
  then "Tharaka Nithi"
  else if Qle_bool (-0.8) lat && Qle_bool lat 0.2 && Qle_bool 37.0 lon && Qle_bool lon 38.0
  then "Embu"
  else if Qle_bool (-1.8) lat && Qle_bool lat (-0.8) && Qle_bool 37.5 lon && Qle_bool lon 38.5
  then "Kitui"
  else if Qle_bool (-2.0) lat && Qle_bool lat (-1.0) && Qle_bool 37.0 lon && Qle_bool lon 38.0
  then "Machakos"
  else if Qle_bool (-2.5) lat && Qle_bool lat (-1.5) && Qle_bool 37.5 lon && Qle_bool lon 38.5
  then "Makueni"
  else if Qle_bool (-0.8) lat && Qle_bool lat 0.2 && Qle_bool 36.0 lon && Qle_bool lon 37.0
  then "Nyandarua"
  else if Qle_bool (-0.8) lat && Qle_bool lat 0.2 && Qle_bool 36.5 lon && Qle_bool lon 37.5
  then "Nyeri"
  else if Qle_bool (-1.0) lat && Qle_bool lat 0.0 && Qle_bool 37.0 lon && Qle_bool lon 38.0
  then "Kirinyaga"
  else if Qle_bool (-1.0) lat && Qle_bool lat 0.0 && Qle_bool 37.0 lon && Qle_bool lon 38.0
  then "Murang'a"
  else if Qle_bool (-1.5) lat && Qle_bool lat (-0.5) && Qle_bool 36.5 lon && Qle_bool lon 37.5
  then "Kiambu"
  else if Qle_bool 3.0 lat && Qle_bool lat 4.0 && Qle_bool 35.0 lon && Qle_bool lon 36.0
  then "Turkana"
  else if Qle_bool 1.0 lat && Qle_bool lat 2.0 && Qle_bool 34.5 lon && Qle_bool lon 35.5
  then "West Pokot"
  else if Qle_bool 1.0 lat && Qle_bool lat 2.0 && Qle_bool 36.5 lon && Qle_bool lon 37.5
  then "Samburu"
  else if Qle_bool 1.0 lat && Qle_bool lat 2.0 && Qle_bool 34.5 lon && Qle_bool lon 35.5
  then "Trans Nzoia"
  else if Qle_bool 0.0 lat && Qle_bool lat 1.0 && Qle_bool 35.0 lon && Qle_bool lon 36.0
  then "Uasin Gishu"
  else if Qle_bool 0.0 lat && Qle_bool lat 1.0 && Qle_bool 35.0 lon && Qle_bool lon 36.0
  then "Elgeyo Marakwet"
  else if Qle_bool 0.0 lat && Qle_bool lat 1.0 && Qle_bool 34.5 lon && Qle_bool lon 35.5
  then "Nandi"
  else if Qle_bool 0.0 lat && Qle_bool lat 1.0 && Qle_bool 36.0 lon && Qle_bool lon 37.0
  then "Baringo"
  else if Qle_bool 0.0 lat && Qle_bool lat 1.0 && Qle_bool 36.0 lon && Qle_bool lon 37.0
  then "Laikipia"
  else if Qle_bool (-0.8) lat && Qle_bool lat 0.2 && Qle_bool 35.5 lon && Qle_bool lon 36.5
  then "Nakuru"
  else if Qle_bool (-1.5) lat && Qle_bool lat (-0.5) && Qle_bool 35.5 lon && Qle_bool lon 36.5
  then "Narok"
  else if Qle_bool (-2.0) lat && Qle_bool lat (-1.0) && Qle_bool 36.5 lon && Qle_bool lon 37.5
  then "Kajiado"
  else if Qle_bool (-0.8) lat && Qle_bool lat 0.2 && Qle_bool 35.0 lon && Qle_bool lon 36.0
  then "Kericho"
  else if Qle_bool (-1.0) lat && Qle_bool lat 0.0 && Qle_bool 35.0 lon && Qle_bool lon 36.0
  then "Bomet"
  else if Qle_bool 0.0 lat && Qle_bool lat 1.0 && Qle_bool 34.0 lon && Qle_bool lon 35.0
  then "Kakamega"
  else if Qle_bool 0.0 lat && Qle_bool lat 1.0 && Qle_bool 34.0 lon && Qle_bool lon 35.0
  then "Vihiga"
  else if Qle_bool 0.0 lat && Qle_bool lat 1.0 && Qle_bool 34.0 lon && Qle_bool lon 35.0
  then "Bungoma"
  else if Qle_bool 0.0 lat && Qle_bool lat 1.0 && Qle_bool 34.0 lon && Qle_bool lon 35.0
  then "Busia"
  else if Qle_bool 0.0 lat && Qle_bool lat 1.0 && Qle_bool 34.0 lon && Qle_bool lon 35.0
  then "Siaya"
  else if Qle_bool (-0.5) lat && Qle_bool lat 0.5 && Qle_bool 34.0 lon && Qle_bool lon 35.0
  then "Kisumu"
  else if Qle_bool (-1.0) lat && Qle_bool lat 0.0 && Qle_bool 34.0 lon && Qle_bool lon 35.0
  then "Homa Bay"
  else if Qle_bool (-1.5) lat && Qle_bool lat (-0.5) && Qle_bool 34.0 lon && Qle_bool lon 35.0
  then "Migori"
  else if Qle_bool (-1.0) lat && Qle_bool lat 0.0 && Qle_bool 34.5 lon && Qle_bool lon 35.5
  then "Kisii"
  else if Qle_bool (-1.0) lat && Qle_bool lat 0.0 && Qle_bool 34.5 lon && Qle_bool lon 35.5
  then "Nyamira"
  else if Qle_bool (-1.5) lat && Qle_bool lat (-0.5) && Qle_bool 36.5 lon && Qle_bool lon 37.5
  then "Nairobi"
  else "Unknown".

Record Rectangle : Type := mk_rect {
  rect_county : string;
  lat_min : Q;
  lat_max : Q;
  lon_min : Q;
  lon_max : Q
}.

Definition contains (r : Rectangle) (lat lon : Q) : bool :=
  Qle_bool (lat_min r) lat && Qle_bool lat (lat_max r)
  && Qle_bool (lon_min r) lon && Qle_bool lon (lon_max r).

(** The rectangles of the [if]/[elif] chain of [assign_county], in the
    order of the chain. *)
Definition county_rectangles : list Rectangle :=
  [ mk_rect "Mombasa" (-4.5) (-3.5) 39.0 40.5
  ; mk_rect "Kwale" (-4.5) (-3.5) 38.0 39.5
  ; mk_rect "Kilifi" (-3.8) (-2.8) 39.5 40.5
  ; mk_rect "Tana River" (-1.8) (-0.8) 39.5 40.5
  ; mk_rect "Lamu" (-2.5) (-1.5) 40.5 41.5
  ; mk_rect "Taita Taveta" (-3.8) (-2.8) 38.0 39.0
  ; mk_rect "Garissa" (-0.8) 0.2 39.0 40.5
  ; mk_rect "Wajir" 1.0 2.0 39.5 40.5
  ; mk_rect "Mandera" 3.0 4.0 41.0 42.0
  ; mk_rect "Marsabit" 2.0 3.0 37.5 38.5
  ; mk_rect "Isiolo" 0.0 1.0 37.0 38.0
  ; mk_rect "Meru" 0.0 1.0 37.5 38.5
  ; mk_rect "Tharaka Nithi" (-0.5) 0.5 37.5 38.5
  ; mk_rect "Embu" (-0.8) 0.2 37.0 38.0
  ; mk_rect "Kitui" (-1.8) (-0.8) 37.5 38.5
  ; mk_rect "Machakos" (-2.0) (-1.0) 37.0 38.0
  ; mk_rect "Makueni" (-2.5) (-1.5) 37.5 38.5
  ; mk_rect "Nyandarua" (-0.8) 0.2 36.0 37.0
  ; mk_rect "Nyeri" (-0.8) 0.2 36.5 37.5
  ; mk_rect "Kirinyaga" (-1.0) 0.0 37.0 38.0
  ; mk_rect "Murang'a" (-1.0) 0.0 37.0 38.0
  ; mk_rect "Kiambu" (-1.5) (-0.5) 36.5 37.5
  ; mk_rect "Turkana" 3.0 4.0 35.0 36.0
  ; mk_rect "West Pokot" 1.0 2.0 34.5 35.5
  ; mk_rect "Samburu" 1.0 2.0 36.5 37.5
  ; mk_rect "Trans Nzoia" 1.0 2.0 34.5 35.5
  ; mk_rect "Uasin Gishu" 0.0 1.0 35.0 36.0
  ; mk_rect "Elgeyo Marakwet" 0.0 1.0 35.0 36.0
  ; mk_rect "Nandi" 0.0 1.0 34.5 35.5
  ; mk_rect "Baringo" 0.0 1.0 36.0 37.0
  ; mk_rect "Laikipia" 0.0 1.0 36.0 37.0
  ; mk_rect "Nakuru" (-0.8) 0.2 35.5 36.5
  ; mk_rect "Narok" (-1.5) (-0.5) 35.5 36.5
  ; mk_rect "Kajiado" (-2.0) (-1.0) 36.5 37.5
  ; mk_rect "Kericho" (-0.8) 0.2 35.0 36.0
  ; mk_rect "Bomet" (-1.0) 0.0 35.0 36.0
  ; mk_rect "Kakamega" 0.0 1.0 34.0 35.0
  ; mk_rect "Vihiga" 0.0 1.0 34.0 35.0
  ; mk_rect "Bungoma" 0.0 1.0 34.0 35.0
  ; mk_rect "Busia" 0.0 1.0 34.0 35.0
  ; mk_rect "Siaya" 0.0 1.0 34.0 35.0
  ; mk_rect "Kisumu" (-0.5) 0.5 34.0 35.0
  ; mk_rect "Homa Bay" (-1.0) 0.0 34.0 35.0
  ; mk_rect "Migori" (-1.5) (-0.5) 34.0 35.0
  ; mk_rect "Kisii" (-1.0) 0.0 34.5 35.5
  ; mk_rect "Nyamira" (-1.0) 0.0 34.5 35.5
  ; mk_rect "Nairobi" (-1.5) (-0.5) 36.5 37.5
  ].

(** The label of the first rectangle of [rs] that contains the point. *)
Fixpoint first_match (rs : list Rectangle) (lat lon : Q) : string :=
  match rs with
  | [] => "Unknown"
  | r :: rest =>
      if contains r lat lon then rect_county r else first_match rest lat lon
  end.

Record SoilPoint : Type := {
  Country : string;
  sp_Latitude : Q;
  sp_Longitude : Q;
  pH_H2O : Py.val;
  Organic_Carbon : Py.val;
  Clay : Py.val;
  Sand : Py.val;
  Silt : Py.val;
  CEC : Py.val;
  CaCO3 : Py.val;
  Total_Nitrogen : Py.val;
  Bulk_Density : Py.val
}.

Definition soil_columns : list string :=
  [ "Soil_Latitude"; "Soil_Longitude"; "Soil_pH_H2O"; "Soil_Organic_Carbon";
    "Soil_Clay"; "Soil_Sand"; "Soil_Silt"; "Soil_CEC"; "Soil_CaCO3";
    "Soil_Total_Nitrogen"; "Soil_Bulk_Density" ].

(** The points of Kenya with their assigned county, unknown ones dropped:
    the frame [soil_data] after the two [filter] calls. *)
Definition labelled_soil_points (soil_data : list SoilPoint)
  : list (string * SoilPoint) :=
  filter (fun cp => negb (String.eqb (fst cp) "Unknown"))
    (map (fun p => (assign_county (sp_Latitude p) (sp_Longitude p), p))
       (filter (fun p => String.eqb (Country p) "KE") soil_data)).

(** The counties of the labelled points, in order of first appearance. *)
Fixpoint counties_of (pts : list (string * SoilPoint)) : list string :=
  match pts with
  | [] => []
  | (c, _) :: rest =>
      c :: filter (fun c' => negb (String.eqb c' c)) (counties_of rest)
  end.

(** One row of [county_soil]: the means over the county's points. *)
Definition county_soil_cells (pts : list (string * SoilPoint)) (county : string)
  : list (string * Py.val) :=
  let g := map snd (filter (fun cp => String.eqb (fst cp) county) pts) in
  [ ("Soil_Latitude", col_mean (map (fun p => Py.PNum (sp_Latitude p)) g));
    ("Soil_Longitude", col_mean (map (fun p => Py.PNum (sp_Longitude p)) g));
    ("Soil_pH_H2O", col_mean (map pH_H2O g));
    ("Soil_Organic_Carbon", col_mean (map Organic_Carbon g));
    ("Soil_Clay", col_mean (map Clay g));
    ("Soil_Sand", col_mean (map Sand g));
    ("Soil_Silt", col_mean (map Silt g));
    ("Soil_CEC", col_mean (map CEC g));
    ("Soil_CaCO3", col_mean (map CaCO3 g));
    ("Soil_Total_Nitrogen", col_mean (map Total_Nitrogen g));
    ("Soil_Bulk_Density", col_mean (map Bulk_Density g)) ].

(** [range(2019, 2024)]. *)
Definition soil_years : list Z := [2019; 2020; 2021; 2022; 2023]%Z.

(** The 5 x 12 records of every county of [county_soil]. *)
Definition monthly_soil (pts : list (string * SoilPoint)) : list Row :=
  flat_map (fun county =>
    flat_map (fun year =>
      map (fun month =>
        {| key := {| k_county := county; k_year := year; k_month := month |};
           cells := county_soil_cells pts county |})
        months) soil_years) (counties_of pts).

(** [None] on input stands for a missing soil file. The file is taken to
    have all the numeric columns of [numeric_columns]. *)
Definition aggregate_soil_data_by_county (soil_file : option (list SoilPoint))
  : option DataFrame :=
  match soil_file with
  | Some soil_data =>
      let recs := monthly_soil (labelled_soil_points soil_data) in
      Some {| keyed := match recs with [] => false | _ => true end;
              columns := match recs with [] => [] | _ => soil_columns end;
              rows := recs |}
  | None => None
  end.

(** ** Left joins on (County, Year, Month) *)

(** The name a right-hand column gets in the joined frame. *)
Definition rename (left_columns : list string) (suffix c : string) : string :=
  if existsb (String.eqb c) left_columns then String.append c suffix else c.

Definition matches (other : DataFrame) (l : Row) : list Row :=
  filter (fun r => key_eqb (key r) (key l)) (rows other).

(** The cells a left row gains from one matching right row, and from no
    match at all (nulls in every right-hand column). *)
Definition joined_cells (left_columns : list string) (suffix : string)
  (r : Row) : list (string * Py.val) :=
  map (fun cv => (rename left_columns suffix (fst cv), snd cv)) (cells r).

Definition null_cells (left_columns : list string) (suffix : string)
  (other : DataFrame) : list (string * Py.val) :=
  map (fun c => (rename left_columns suffix c, Py.PNone)) (columns other).

Definition join_row (self other : DataFrame) (suffix : string) (l : Row)
  : list Row :=
  match matches other l with
  | [] =>
      [ {| key := key l;
           cells := cells l ++ null_cells (columns self) suffix other |} ]
  | ms =>
      map (fun r =>
             {| key := key l;
                cells := cells l ++ joined_cells (columns self) suffix r |}) ms
  end.

(** [left.join(right, on=["County", "Year", "Month"], how="left",
    suffix=suffix)]: raises when a side lacks the key columns. *)
Definition join_left (self other : DataFrame) (suffix : string)
  : Py.result DataFrame :=
  if keyed self && keyed other then
    Py.ok {| keyed := true;
             columns := columns self
                        ++ map (rename (columns self) suffix) (columns other);
             rows := flat_map (join_row self other suffix) (rows self) |}
  else Py.raise (Py.ColumnNotFoundError "County").

(** A join that is made only when the source is not [None]. *)
Definition join_optional (master_data : DataFrame) (source : option DataFrame)
  (suffix : string) : Py.result DataFrame :=
  match source with
  | Some other => join_left master_data other suffix
  | None => Py.ok master_data
  end.

(** ** [calculate_composite_metrics] *)

(** [pl.col(name)] evaluated on a row of [df]. *)
Definition col (name : string) (df : DataFrame) (r : Row) : Py.result Py.val :=
  if has_column name df then
    match get name r with
    | Some v => Py.ok v
    | None => Py.raise (Py.ColumnNotFoundError name)
    end
  else Py.raise (Py.ColumnNotFoundError name).

(** Sets the first cell called [name], or appends one. *)
Fixpoint upsert (name : string) (v : Py.val) (cs : list (string * Py.val))
  : list (string * Py.val) :=
  match cs with
  | [] => [(name, v)]
  | (c, x) :: rest =>
      if String.eqb c name then (c, v) :: rest else (c, x) :: upsert name v rest
  end.

(** The row with its cell [name] set to [v]. *)
Definition set_cell (name : string) (v : Py.val) (r : Row) : Row :=
  {| key := key r; cells := upsert name v (cells r) |}.

(** [df.with_columns([expr.alias(name)])]: an existing column of that name
    is replaced, otherwise the column is appended. An empty frame still
    checks the columns that [expr] names ([needs]). *)
Definition with_column (name : string) (needs : string)
  (expr : DataFrame -> Row -> Py.result Py.val) (df : DataFrame)
  : Py.result DataFrame :=
  if has_column needs df then
    rows' <- Py.mapM (fun r =>
               v <- expr df r ;;
               Py.ok (set_cell name v r))
             (rows df) ;;
    Py.ok {| keyed := keyed df;
             columns := if has_column name df then columns df
                        else columns df ++ [name];
             rows := rows' |}
  else Py.raise (Py.ColumnNotFoundError needs).

Definition water_scarcity_score (df : DataFrame) (r : Row) : Py.result Py.val :=
  v <- col "Monthly_Water_Stress_Index" df r ;;
  match v with
  | Py.PNone => Py.ok (Py.PNum 50)
  | Py.PNum x => Py.ok (Py.PNum (x * 100))
  | Py.PStr _ => Py.raise (Py.ComputeError "mul on a string column")
  end.

Definition agricultural_risk_index (df : DataFrame) (r : Row) : Py.result Py.val :=
  v <- col "Monthly_Crop_Yield_Impact_Percent" df r ;;
  match v with
  | Py.PNone => Py.ok (Py.PNum 25)
  | Py.PNum x => Py.ok (Py.PNum x)
  | Py.PStr _ => Py.raise (Py.ComputeError "no common type for a literal and a string column")
  end.

Definition irrigation_priority_score (df : DataFrame) (r : Row) : Py.result Py.val :=
  v <- col "Monthly_Irrigation_Needed_Real" df r ;;
  match v with
  | Py.PNone => Py.ok (Py.PNum 50)
  | Py.PStr s => Py.ok (Py.PNum (if String.eqb s "Yes" then 75 else 25))
  | Py.PNum _ => Py.raise (Py.ComputeError "comparison of a numeric column with a string")
  end.

Definition calculate_composite_metrics (df : DataFrame) : Py.result DataFrame :=
  df <- with_column "Water_Scarcity_Score" "Monthly_Water_Stress_Index"
          water_scarcity_score df ;;
  df <- with_column "Agricultural_Risk_Index" "Monthly_Crop_Yield_Impact_Percent"
          agricultural_risk_index df ;;
  with_column "Irrigation_Priority_Score" "Monthly_Irrigation_Needed_Real"
    irrigation_priority_score df.

(** ** [create_master_dataset] *)

(** The local [master_data] after the four joins. *)
Definition join_sources (weather_data dashboard_data : DataFrame)
  (maize_data soil_data rainfall_data : option DataFrame)
  : Py.result DataFrame :=
  master_data <- join_left weather_data dashboard_data "_dashboard" ;;
  master_data <- join_optional master_data maize_data "_maize" ;;
  master_data <- join_optional master_data soil_data "_soil" ;;
  join_optional master_data rainfall_data "_rainfall".

(** The arguments are the values returned by the five loaders that the
    function calls first. The result is [None] (after logging an error)
    when a critical dataset is missing or empty. *)
Definition create_master_dataset
  (weather_data dashboard_data maize_data soil_data rainfall_data
     : option DataFrame) : Py.result (option DataFrame) :=
  match weather_data, dashboard_data with
  | Some w, Some d =>
      if negb (is_empty w) && negb (is_empty d) then
        master_data <- join_sources w d maize_data soil_data rainfall_data ;;
        master_data <- calculate_composite_metrics master_data ;;
        Py.ok (Some master_data)
      else Py.ok None
  | _, _ => Py.ok None
  end.

(** ** Conditions on the sources that the statements below use *)

Definition numeric_or_null (v : Py.val) : bool :=
  match v with
  | Py.PStr _ => false
  | _ => true
  end.

Definition text_or_null (v : Py.val) : bool :=
  match v with
  | Py.PNum _ => false
  | _ => true
  end.

(** The frame has the column [name] and every row holds a cell of that
    name that passes [p]. *)
Definition column_is (p : Py.val -> bool) (name : string) (df : DataFrame) : bool :=
  has_column name df
  && forallb (fun r => match get name r with
                       | Some v => p v
                       | None => false
                       end) (rows df).

(** An optional source, when present, has the key columns. *)
Definition source_keyed (source : option DataFrame) : bool :=
  match source with
  | Some df => keyed df
  | None => true
  end.

(** No row of the source has the key [k] (an absent source has none). *)
Definition unmatched (source : option DataFrame) (k : Key) : Prop :=
  match source with
  | Some df => forall r, In r (rows df) -> key r <> k
  | None => True
  end.

Definition all_null (cs : list (string * Py.val)) : Prop :=
  Forall (fun cv => snd cv = Py.PNone) cs.

(** The cells of a master row: the joined cells with the three composite
    scores set. *)
Definition with_scores (v1 v2 v3 : Py.val) (cs : list (string * Py.val))
  : list (string * Py.val) :=
  upsert "Irrigation_Priority_Score" v3
    (upsert "Agricultural_Risk_Index" v2
       (upsert "Water_Scarcity_Score" v1 cs)).

(** A joined row on which the three composite scores can be computed. *)
Definition scores_computable (r : Row) : Prop :=
  exists a b c,
    get "Monthly_Water_Stress_Index" r = Some a /\ numeric_or_null a = true
    /\ get "Monthly_Crop_Yield_Impact_Percent" r = Some b
    /\ numeric_or_null b = true
    /\ get "Monthly_Irrigation_Needed_Real" r = Some c /\ text_or_null c = true.

(** ** [merge_water_scarcity_dashboard_data] *)

(** The rows a left row yields in an inner join: one per matching row. *)
Definition inner_row (self other : DataFrame) (suffix : string) (l : Row)
  : list Row :=
  map (fun r =>
         {| key := key l;
            cells := cells l ++ joined_cells (columns self) suffix r |})
    (matches other l).

(** [left.join(right, on=["County", "Year", "Month"], how="inner",
    suffix=suffix)]. *)
Definition join_inner (self other : DataFrame) (suffix : string)
  : Py.result DataFrame :=
  if keyed self && keyed other then
    Py.ok {| keyed := true;
             columns := columns self
                        ++ map (rename (columns self) suffix) (columns other);
             rows := flat_map (inner_row self other suffix) (rows self) |}
  else Py.raise (Py.ColumnNotFoundError "County").

(** The arguments are the three frames read from the dashboard files. *)
Definition merge_water_scarcity_dashboard_data
  (temperature_data irrigation_data water_stress_data : DataFrame)
  : Py.result DataFrame :=
  merged <- join_inner temperature_data irrigation_data "_irrigation" ;;
  join_inner merged water_stress_data "_water_stress".

(** ** Further conditions and tables that the statements below use *)

(** A source, when present, has at most one row per key. *)
Definition keys_unique (source : option DataFrame) : Prop :=
  match source with
  | Some df => NoDup (map key (rows df))
  | None => True
  end.

Definition has_key (df : DataFrame) (k : Key) : Prop :=
  exists r, In r (rows df) /\ key r = k.

(** One point for every county that [assign_county] can return. *)
Definition sample_points : list (string * Q * Q) :=
  [ ("Mombasa", (-4.5), 39.0)
  ; ("Kwale", (-4.5), 38.0)
  ; ("Kilifi", (-3.15), 39.5)
  ; ("Tana River", (-1.8), 39.5)
  ; ("Lamu", (-2.5), 40.5)
  ; ("Taita Taveta", (-3.15), 38.0)
  ; ("Garissa", (-0.8), 39.0)
  ; ("Wajir", 1.0, 39.5)
  ; ("Mandera", 3.0, 41.0)
  ; ("Marsabit", 2.0, 37.5)
  ; ("Isiolo", 0.0, 37.0)
  ; ("Meru", 0.0, 38.25)
  ; ("Tharaka Nithi", (-0.5), 37.5)
  ; ("Embu", (-0.8), 37.0)
  ; ("Kitui", (-1.8), 37.5)
  ; ("Machakos", (-2.0), 37.0)
  ; ("Makueni", (-2.5), 37.5)
  ; ("Nyandarua", (-0.8), 36.0)
  ; ("Kirinyaga", (-0.9), 37.0)
  ; ("Kiambu", (-1.5), 36.5)
  ; ("Turkana", 3.0, 35.0)
  ; ("West Pokot", 1.0, 34.5)
  ; ("Samburu", 1.0, 36.5)
  ; ("Uasin Gishu", 0.0, 35.0)
  ; ("Nandi", 0.0, 34.5)
  ; ("Baringo", 0.35, 36.25)
  ; ("Nakuru", (-0.8), 35.5)
  ; ("Narok", (-1.5), 35.5)
  ; ("Kajiado", (-2.0), 36.5)
  ; ("Kericho", (-0.8), 35.0)
  ; ("Bomet", (-1.0), 35.0)
  ; ("Kakamega", 0.0, 34.0)
  ; ("Kisumu", (-0.5), 34.0)
  ; ("Homa Bay", (-1.0), 34.0)
  ; ("Migori", (-1.5), 34.0)
  ].

Definition assignable_counties : list string :=
  map (fun p => fst (fst p)) sample_points.

(** The counties whose branch of [assign_county] is never reached. *)
Definition unassignable_counties : list string :=
  [ "Nyeri"; "Murang'a"; "Trans Nzoia"; "Elgeyo Marakwet"; "Laikipia";
    "Vihiga"; "Bungoma"; "Busia"; "Siaya"; "Kisii"; "Nyamira"; "Nairobi" ].

End IntegrateDatasets.

(** * The monthly stress index and its score on binary64 floats

    The hourly index of [collect_openmeteo_data.py], the monthly mean of
    [aggregate_weather_data_monthly] and the score of
    [calculate_composite_metrics], with the arithmetic of Python floats
    and of a [Float64] column. *)

Module Binary64.
Import PrimFloat.
Local Open Scope float_scope.

(** Python's [min(a, b)] and [max(a, b)]: the first argument unless the
    second is strictly smaller, or strictly greater. *)
Definition py_min (a b : float) : float := if ltb b a then b else a.

Definition py_max (a b : float) : float := if ltb a b then b else a.

#[warnings="-inexact-float"]
Definition calculate_water_stress_index (temp evap rainfall humidity : float)
  : float :=
  if leb rainfall 0 then 0.86
  else
    let temp_factor :=
      if ltb 25 temp then py_min 0.3 ((temp - 25) * 0.06) else 0.0 in
    let evap_factor :=
      if ltb 5 evap then py_min 0.3 ((evap - 5) * 0.06) else 0.0 in
    let rainfall_factor :=
      if ltb rainfall 50 then (50 - rainfall) * 0.008 else 0.0 in
    let humidity_factor :=
      if ltb humidity 60 then (60 - humidity) * 0.002 else 0.0 in
    let base_stress := 0.73 in
    let total_stress :=
      base_stress + temp_factor + evap_factor + rainfall_factor
      + humidity_factor in
    py_max 0.73 (py_min 0.86 total_stress).

(** The sum of a column, adding from the first value to the last. *)
Definition sum_left (xs : list float) : float := fold_left add xs 0.

(** The sum of a column by halves: each half is summed on its own, down
    to [depth] halvings, and the two sums are added. *)
Fixpoint sum_pairwise (depth : nat) (xs : list float) : float :=
  match depth with
  | O => sum_left xs
  | S d =>
      let half := (List.length xs / 2)%nat in
      sum_pairwise d (firstn half xs) + sum_pairwise d (skipn half xs)
  end.

(** [pl.col(c).mean()] of a group without nulls: the sum of the values,
    in the order that [sum] adds them, over their number. *)
Definition mean (sum : list float -> float) (xs : list float) : float :=
  sum xs / of_uint63 (Uint63.of_Z (Z.of_nat (List.length xs))).

(** [pl.col("Monthly_Water_Stress_Index") * 100]. *)
Definition water_scarcity_score (index : float) : float := index * 100.

(** The score of a month of [hours] hourly records that all have the
    same weather. *)
Definition constant_month_score (sum : list float -> float)
  (temp evap rainfall humidity : float) (hours : nat) : float :=
  water_scarcity_score
    (mean sum
       (repeat (calculate_water_stress_index temp evap rainfall humidity)
          hours)).

End Binary64.

(** * enhance_training_data.py *)

Module EnhanceTrainingData.

(** A row of the master data set as [pd.read_csv] gives it: the columns
    that [create_enhanced_dataset] reads. A missing value (NaN) is [None]. *)
Record MasterRecord : Type := {
  County : string;
  Year : Z;
  Monthly_Precipitation_mm : option Q;
  Monthly_Temperature_C : option Q;
  Monthly_Humidity_Percent : option Q;
  Soil_pH_H2O : option Q;
  Soil_Organic_Carbon_in : option Q;
  Soil_Clay : option Q;
  Maize_Yield_in : option Q
}.

(** A row of [annual_data], with the flattened column names. *)
Record AnnualRecord : Type := {
  a_County : string;
  a_Year : Z;
  Annual_Rainfall_mm : Q;
  Avg_Rainfall_mm : option Q;
  Rainfall_Std_mm : option Q;
  Avg_Temperature_C : option Q;
  Temperature_Std_C : option Q;
  Avg_Humidity_Percent : option Q;
  Humidity_Std_Percent : option Q;
  Soil_pH : option Q;
  Soil_Organic_Carbon : option Q;
  Soil_Clay_Content : option Q;
  Maize_Yield_tonnes_ha : option Q;
  Growing_Season_Months : Q;
  Water_Stress_Index : option Q;
  Soil_Quality_Score : option Q;
  Climate_Variability : option Q
}.

(** ** NaN-skipping reductions of pandas *)

Fixpoint values (xs : list (option Q)) : list Q :=
  match xs with
  | [] => []
  | Some x :: rest => x :: values rest
  | None :: rest => values rest
  end.

Definition total (qs : list Q) : Q := fold_right Qplus 0 qs.

Definition count (qs : list Q) : Q := inject_Z (Z.of_nat (List.length qs)).

(** ['sum']: 0 when every value is missing. *)
Definition nansum (xs : list (option Q)) : Q := total (values xs).

(** ['mean']: NaN when every value is missing. The quotient is the
    exact one; the float64 mean of the program can differ from it in the
    last places, so that the mean times the count need not give the sum
    back. *)
Definition nanmean (xs : list (option Q)) : option Q :=
  match values xs with
  | [] => None
  | qs => Some (total qs / count qs)
  end.

(** Element-wise arithmetic on columns: NaN propagates. *)
Definition lift2 (f : Q -> Q -> Q) (a b : option Q) : option Q :=
  match a, b with
  | Some x, Some y => Some (f x y)
  | _, _ => None
  end.

(** ** Ordering of the group keys and of the yields *)

Definition key_leb (a b : string * Z) : bool :=
  if String.eqb (fst a) (fst b) then Z.leb (snd a) (snd b)
  else String.leb (fst a) (fst b).

Definition key_eqb (a b : string * Z) : bool :=
  String.eqb (fst a) (fst b) && Z.eqb (snd a) (snd b).

Section Sorting.

Variable A : Type.
Variable leb : A -> A -> bool.

Fixpoint insert (x : A) (l : list A) : list A :=
  match l with
  | [] => [x]
  | y :: rest => if leb x y then x :: l else y :: insert x rest
  end.

Fixpoint sort (l : list A) : list A :=
  match l with
  | [] => []
  | x :: rest => insert x (sort rest)
  end.

End Sorting.

Arguments insert {A}.
Arguments sort {A}.

(** The distinct keys of [l]. *)
Fixpoint distinct (l : list (string * Z)) : list (string * Z) :=
  match l with
  | [] => []
  | k :: rest => k :: filter (fun k' => negb (key_eqb k' k)) (distinct rest)
  end.

(** The groups of [df.groupby(['County', 'Year'])], in sorted key order. *)
Definition group_keys (df : list MasterRecord) : list (string * Z) :=
  sort key_leb (distinct (map (fun r => (County r, Year r)) df)).

Definition in_group (k : string * Z) (r : MasterRecord) : bool :=
  key_eqb (County r, Year r) k.

(** ** Step 1 and 2: annual aggregation and derived features *)

Section CreateEnhancedDataset.

(** The square root taken by the ['std'] aggregation. *)
Variable sqrt : Q -> Q.

(** ['std']: the sample standard deviation, NaN on fewer than two values. *)
Definition nanstd (xs : list (option Q)) : option Q :=
  match values xs with
  | [] => None
  | [_] => None
  | qs =>
      let m := total qs / count qs in
      Some (sqrt (total (map (fun x => (x - m) * (x - m)) qs) / (count qs - 1)))
  end.

(** The nested [np.where] that fills ['Growing_Season_Months']. *)
Definition growing_season_months (annual_rainfall : Q) : Q :=
  if Py.Qltb 600 annual_rainfall then
    if Py.Qltb 400 annual_rainfall then
      if Py.Qltb 200 annual_rainfall then 2 else 1
    else 3
  else 0.

(** A zero denominator, which pandas turns into an infinity or NaN, is
    rendered as a missing value. *)
Definition divide (a b : option Q) : option Q :=
  match a, b with
  | Some x, Some y => if Qeq_bool y 0 then None else Some (x / y)
  | _, _ => None
  end.

Definition annual_row (df : list MasterRecord) (k : string * Z) : AnnualRecord :=
  let g := filter (in_group k) df in
  let annual_rainfall := nansum (map Monthly_Precipitation_mm g) in
  let rainfall_std := nanstd (map Monthly_Precipitation_mm g) in
  let avg_temperature := nanmean (map Monthly_Temperature_C g) in
  let temperature_std := nanstd (map Monthly_Temperature_C g) in
  let humidity_std := nanstd (map Monthly_Humidity_Percent g) in
  let soil_ph := nanmean (map Soil_pH_H2O g) in
  let soil_organic_carbon := nanmean (map Soil_Organic_Carbon_in g) in
  let soil_clay_content := nanmean (map Soil_Clay g) in
  {| a_County := fst k;
     a_Year := snd k;
     Annual_Rainfall_mm := annual_rainfall;
     Avg_Rainfall_mm := nanmean (map Monthly_Precipitation_mm g);
     Rainfall_Std_mm := rainfall_std;
     Avg_Temperature_C := avg_temperature;
     Temperature_Std_C := temperature_std;
     Avg_Humidity_Percent := nanmean (map Monthly_Humidity_Percent g);
     Humidity_Std_Percent := humidity_std;
     Soil_pH := soil_ph;
     Soil_Organic_Carbon := soil_organic_carbon;
     Soil_Clay_Content := soil_clay_content;
     Maize_Yield_tonnes_ha := nanmean (map Maize_Yield_in g);
     Growing_Season_Months := growing_season_months annual_rainfall;
     Water_Stress_Index :=
       divide (Some annual_rainfall) (lift2 Qplus avg_temperature (Some 1));
     Soil_Quality_Score :=
       lift2 Qplus
         (lift2 Qplus (lift2 Qmult soil_ph (Some 0.3))
                      (lift2 Qmult soil_organic_carbon (Some 0.4)))
         (lift2 Qmult soil_clay_content (Some 0.3));
     Climate_Variability :=
       lift2 Qplus (lift2 Qplus rainfall_std temperature_std) humidity_std |}.

(** [annual_data] after steps 1 and 2. *)
Definition annual_data (df : list MasterRecord) : list AnnualRecord :=
  map (annual_row df) (group_keys df).

(** ** Step 3: the two yield filters *)

(** [Series.quantile(q)] with linear interpolation; NaN on no value. *)
Definition quantile (xs : list (option Q)) (q : Q) : option Q :=
  let sorted := sort Qle_bool (values xs) in
  match sorted with
  | [] => None
  | first :: _ =>
      let pos := (count sorted - 1) * q in
      let lo := Z.to_nat (Qfloor pos) in
      let frac := pos - inject_Z (Qfloor pos) in
      let a := nth lo sorted first in
      let b := nth (S lo) sorted a in
      Some (a + (b - a) * frac)
  end.

Definition domain_lower : Q := 0.8.
Definition domain_upper : Q := 5.0.

(** The locals [lower_bound] and [upper_bound]. *)
Definition iqr_bounds (annual : list AnnualRecord) : option (Q * Q) :=
  match quantile (map Maize_Yield_tonnes_ha annual) 0.25,
        quantile (map Maize_Yield_tonnes_ha annual) 0.75 with
  | Some q1, Some q3 =>
      let iqr := q3 - q1 in
      Some (q1 - 1.5 * iqr, q3 + 1.5 * iqr)
  | _, _ => None
  end.

(** The boolean mask of the filter; a comparison with NaN is false. *)
Definition keep (bounds : option (Q * Q)) (r : AnnualRecord) : bool :=
  match Maize_Yield_tonnes_ha r, bounds with
  | Some y, Some (lower_bound, upper_bound) =>
      Qle_bool domain_lower y && Qle_bool y domain_upper
      && Qle_bool lower_bound y && Qle_bool y upper_bound
  | _, _ => false
  end.

Definition clean_unrealistic_yields (annual : list AnnualRecord)
  : list AnnualRecord :=
  filter (keep (iqr_bounds annual)) annual.

(** [annual_data] after step 3 of [create_enhanced_dataset]. *)
Definition cleaned_annual_data (df : list MasterRecord) : list AnnualRecord :=
  clean_unrealistic_yields (annual_data df).

End CreateEnhancedDataset.

(** ** The quartiles as the specification means them *)

(** [v] is the value at fraction [q] of the ascending values [s]: the
    linear interpolation between the two neighbours of position
    [(n - 1) q], the upper neighbour being the last value when the
    position is the last one. *)
Definition interpolates (s : list Q) (q v : Q) : Prop :=
  let pos := (inject_Z (Z.of_nat (List.length s)) - 1) * q in
  let lo := Z.to_nat (Qfloor pos) in
  exists a b,
    nth_error s lo = Some a
    /\ (nth_error s (S lo) = Some b \/ (nth_error s (S lo) = None /\ b = a))
    /\ v = a + (b - a) * (pos - inject_Z (Qfloor pos)).

(** [v] is the [q]-quantile of the yields that are present, a missing
    yield being skipped: the interpolated value of any ascending
    arrangement of them. *)
Definition is_quantile (yields : list (option Q)) (q v : Q) : Prop :=
  exists s,
    Permutation (map Some s)
      (filter (fun y => match y with Some _ => true | None => false end)
         yields)
    /\ StronglySorted Qle s /\ interpolates s q v.

(** The numbers of values below [x], and up to [x]. *)
Definition count_below (x : Q) (l : list Q) : nat :=
  List.length (filter (fun y => Py.Qltb y x) l).

Definition count_upto (x : Q) (l : list Q) : nat :=
  List.length (filter (fun y => Qle_bool y x) l).

End EnhanceTrainingData.

(** * src/models/maize_resilience_model.py and config/settings.py *)

Module MaizeModel.

(** [config.settings.BENCHMARK_YIELD]. *)
Definition BENCHMARK_YIELD : Q := 2.5.

(** The state of a [MaizeResilienceModel] that predictions read. The
    fitted estimator with its encoder, scaler and county statistics is a
    black box: [predict_yield] stands for the lines from the county lookup
    to [self.model.predict(X_scaled)[0]], which may raise. The county
    statistics that a call loads into [self.county_data] when they are
    missing are inside that black box and not a field of this record,
    which says nothing about them. *)
Record MaizeResilienceModel : Type := {
  is_trained : bool;
  algorithm : string;
  feature_names : option (list string);
  feature_importances_ : list Q;
  predict_yield : Q -> Q -> Q -> option string -> Py.result Q
}.

(** The dictionary returned by [predict_resilience_score]. *)
Record Prediction : Type := {
  resilience_score : Q;
  predicted_yield : Q;
  feature_importance : list (string * Q);
  benchmark_yield : Q;
  county : option string
}.

(** [dict(zip(self.feature_names, self.model.feature_importances_))]. *)
Definition zip_feature_importance (m : MaizeResilienceModel)
  : Py.result (list (string * Q)) :=
  match feature_names m with
  | Some names => Py.ok (combine names (feature_importances_ m))
  | None => Py.raise (Py.OtherException "'NoneType' object is not iterable")
  end.

Definition predict_resilience_score (self : MaizeResilienceModel)
  (rainfall soil_ph organic_carbon : Q) (county : option string)
  : Py.result Prediction :=
  if negb (is_trained self) then
    Py.raise (Py.ValueError "Model must be trained before making predictions")
  else
    predicted_yield <- predict_yield self rainfall soil_ph organic_carbon county ;;
    let raw_score := (predicted_yield / BENCHMARK_YIELD) * 100 in
    let resilience_score := Py.max 0 (Py.min 100 raw_score) in
    feature_importance <- zip_feature_importance self ;;
    Py.ok {| resilience_score := Py.round1 resilience_score;
             predicted_yield := Py.round2 predicted_yield;
             feature_importance := feature_importance;
             benchmark_yield := BENCHMARK_YIELD;
             county := county |}.

End MaizeModel.

(** * src/api/fastapi_app.py *)

Module FastApi.

(** [schemas.PredictionRequest], after validation. *)
Record PredictionRequest : Type := {
  rainfall : Q;
  soil_ph : Q;
  organic_carbon : Q;
  county : option string
}.

Record PredictionResult : Type := {
  resilience_score : Q;
  yield_prediction : Q;
  confidence_score : Q;
  risk_level : string;
  recommendations : list string
}.

Record ModelInfo : Type := {
  algorithm : string;
  features : option (list string);
  feature_importance : list (string * Q);
  version : string
}.

(** [schemas.PredictionResponse] without its timestamp. *)
Record PredictionResponse : Type := {
  prediction : PredictionResult;
  input_parameters : PredictionRequest;
  model_info : ModelInfo
}.

Record BatchPredictionResult : Type := {
  input : PredictionRequest;
  batch_prediction : option PredictionResult;
  status : string;
  error : option string
}.

Record BatchPredictionResponse : Type := {
  results : list BatchPredictionResult;
  total_processed : Z;
  successful_count : Z;
  failed_count : Z
}.

(** One call of [MetricsCollector.record_prediction]. *)
Record PredictionMetric : Type := {
  m_rainfall : Q;
  m_soil_ph : Q;
  m_organic_carbon : Q;
  m_resilience_score : Q;
  m_processing_time : Q;
  m_success : bool
}.

(** A task handed to [background_tasks.add_task]. *)
Inductive Task : Type :=
| store_prediction (request : PredictionRequest)
    (resilience_score yield_prediction processing_time : Q)
| store_batch_predictions (successful : list BatchPredictionResult)
    (processing_time : Q).

(** The module globals [model] and [metrics_collector], and the tasks
    queued so far. *)
Record App : Type := {
  model : option MaizeModel.MaizeResilienceModel;
  metrics_collector : option (list PredictionMetric);
  background_tasks : list Task
}.

Definition record_prediction (app : App) (m : PredictionMetric) : App :=
  match metrics_collector app with
  | Some recorded =>
      {| model := model app;
         metrics_collector := Some (recorded ++ [m]);
         background_tasks := background_tasks app |}
  | None => app
  end.

Definition add_task (app : App) (t : Task) : App :=
  {| model := model app;
     metrics_collector := metrics_collector app;
     background_tasks := background_tasks app ++ [t] |}.

(** [str(e)]. *)
Definition exn_message (e : Py.exn) : string :=
  match e with
  | Py.HTTPException _ detail => detail
  | Py.ValueError msg => msg
  | Py.ColumnNotFoundError name => name
  | Py.ComputeError msg => msg
  | Py.OtherException msg => msg
  end.

Definition risk_level_of (score : Q) : string :=
  if Py.Qltb 70 score then "Low"
  else if Py.Qltb 50 score then "Medium" else "High".

Definition first_recommendation (score : Q) : string :=
  if Py.Qltb 70 score then "Maintain current soil management practices"
  else "Consider soil improvement strategies".

(** [if not model or not model.is_trained: raise HTTPException(503, ...)]. *)
Definition require_trained_model (app : App)
  : Py.result MaizeModel.MaizeResilienceModel :=
  match model app with
  | Some m =>
      if MaizeModel.is_trained m then Py.ok m
      else Py.raise (Py.HTTPException 503
                       "Model not trained. Please train the model first.")
  | None =>
      Py.raise (Py.HTTPException 503
                  "Model not trained. Please train the model first.")
  end.

(** ** [predict_resilience] *)

(** The statements of the [try] block up to the construction of
    [response]; it yields the model's dictionary too, for the metrics. *)
Definition predict_resilience_try (app : App) (request : PredictionRequest)
  : Py.result (MaizeModel.Prediction * PredictionResponse) :=
  m <- require_trained_model app ;;
  prediction_result <-
    MaizeModel.predict_resilience_score m (rainfall request) (soil_ph request)
      (organic_carbon request) (county request) ;;
  let score := MaizeModel.resilience_score prediction_result in
  Py.ok (prediction_result,
    {| prediction :=
         {| resilience_score := score;
            yield_prediction := MaizeModel.predicted_yield prediction_result;
            confidence_score := 0.85;
            risk_level := risk_level_of score;
            recommendations :=
              [ first_recommendation score; "Monitor rainfall patterns";
                "Consider crop rotation"; "Optimize irrigation if available" ] |};
       input_parameters := request;
       model_info :=
         {| algorithm := MaizeModel.algorithm m;
            features := MaizeModel.feature_names m;
            feature_importance := MaizeModel.feature_importance prediction_result;
            version := "2.0.0" |} |}).

(** The handler of POST /api/predict; [processing_time] is the elapsed
    time that the two [time.time()] readings give. The [except Exception]
    clause catches whatever the [try] block raised. *)
Definition predict_resilience (app : App) (request : PredictionRequest)
  (processing_time : Q) : Py.result PredictionResponse * App :=
  match predict_resilience_try app request with
  | inr (prediction_result, response) =>
      let score := MaizeModel.resilience_score prediction_result in
      let app := record_prediction app
        {| m_rainfall := rainfall request; m_soil_ph := soil_ph request;
           m_organic_carbon := organic_carbon request;
           m_resilience_score := score;
           m_processing_time := processing_time; m_success := true |} in
      let app := add_task app
        (store_prediction request score
           (MaizeModel.predicted_yield prediction_result) processing_time) in
      (Py.ok response, app)
  | inl e =>
      let app := record_prediction app
        {| m_rainfall := rainfall request; m_soil_ph := soil_ph request;
           m_organic_carbon := organic_carbon request;
           m_resilience_score := 0.0;
           m_processing_time := processing_time; m_success := false |} in
      (Py.raise (Py.HTTPException 500 "Internal server error during prediction"),
       app)
  end.

(** ** [batch_predict] *)

(** The body of the loop over [batch_request.predictions], with its own
    [try]/[except]. *)
Definition batch_item (m : MaizeModel.MaizeResilienceModel)
  (pred_request : PredictionRequest) : BatchPredictionResult :=
  match MaizeModel.predict_resilience_score m (rainfall pred_request)
          (soil_ph pred_request) (organic_carbon pred_request)
          (county pred_request) with
  | inr prediction_result =>
      let score := MaizeModel.resilience_score prediction_result in
      {| input := pred_request;
         batch_prediction := Some
           {| resilience_score := score;
              yield_prediction := MaizeModel.predicted_yield prediction_result;
              confidence_score := 0.85;
              risk_level := risk_level_of score;
              recommendations :=
                [ first_recommendation score; "Monitor rainfall patterns";
                  "Consider crop rotation" ] |};
         status := "success";
         error := None |}
  | inl e =>
      {| input := pred_request; batch_prediction := None;
         status := "error"; error := Some (exn_message e) |}
  end.

Definition is_success (r : BatchPredictionResult) : bool :=
  String.eqb (status r) "success".

Definition batch_predict_try (app : App) (predictions : list PredictionRequest)
  : Py.result (list BatchPredictionResult) :=
  m <- require_trained_model app ;;
  Py.ok (map (batch_item m) predictions).

(** One metric per successful result, each with an equal share of the
    total time. *)
Definition record_batch (app : App) (results : list BatchPredictionResult)
  (total_processing_time : Q) : App :=
  fold_left (fun app r =>
    if is_success r then
      match batch_prediction r with
      | Some p =>
          record_prediction app
            {| m_rainfall := rainfall (input r); m_soil_ph := soil_ph (input r);
               m_organic_carbon := organic_carbon (input r);
               m_resilience_score := resilience_score p;
               m_processing_time :=
                 total_processing_time
                 / inject_Z (Z.of_nat (List.length results));
               m_success := true |}
      | None => app
      end
    else app) results app.

(** The handler of POST /api/predict/batch. *)
Definition batch_predict (app : App) (predictions : list PredictionRequest)
  (total_processing_time : Q) : Py.result BatchPredictionResponse * App :=
  match batch_predict_try app predictions with
  | inr results =>
      let app := record_batch app results total_processing_time in
      let successful_predictions := filter is_success results in
      let app :=
        match successful_predictions with
        | [] => app
        | _ => add_task app
                 (store_batch_predictions successful_predictions
                    (total_processing_time
                     / inject_Z (Z.of_nat (List.length results))))
        end in
      (Py.ok {| results := results;
                total_processed := Z.of_nat (List.length results);
                successful_count :=
                  Z.of_nat (List.length (filter is_success results));
                failed_count :=
                  Z.of_nat (List.length
                              (filter (fun r => negb (is_success r)) results)) |},
       app)
  | inl e =>
      (Py.raise (Py.HTTPException 500
                   "Internal server error during batch prediction"), app)
  end.

(** ** The exception handlers *)

(** The status code of the HTTP response: 200 for a returned model,
    [exc.status_code] through [http_exception_handler], and 500 through
    [general_exception_handler]. *)
Definition status_code {A : Type} (r : Py.result A) : Z :=
  match r with
  | inr _ => 200%Z
  | inl (Py.HTTPException code _) => code
  | inl _ => 500%Z
  end.

End FastApi.

(** * src/models/maize_resilience_model.py: features and persistence *)

Module MaizeModelInternals.

(** ** The feature vector of [predict_resilience_score] *)

(** One row of [self.county_data], the per-county statistics of
    [load_county_data]; a NaN is [None]. *)
Record CountyStats : Type := {
  Monthly_Temperature_C_mean : option Q;
  Monthly_Temperature_C_std : option Q;
  Monthly_Humidity_Percent_mean : option Q;
  Monthly_Humidity_Percent_std : option Q;
  Soil_Clay_mean : option Q;
  Monthly_Precipitation_mm_mean : option Q;
  Monthly_Precipitation_mm_std : option Q;
  Climate_Variability : option Q;
  Soil_Quality_Score : option Q
}.

(** The nine locals that the county lookup sets. *)
Record CountyFeatures : Type := {
  avg_temperature : Q;
  temp_std : Q;
  avg_humidity : Q;
  humidity_std : Q;
  avg_clay_content : Q;
  avg_precipitation : Q;
  precip_std : Q;
  climate_variability : Q;
  soil_quality_score : Q
}.

(** [self.county_data.loc[county]] on the index of county names. *)
Fixpoint loc (index : list (string * CountyStats)) (county : string)
  : option CountyStats :=
  match index with
  | [] => None
  | (name, county_stats) :: rest =>
      if String.eqb name county then Some county_stats else loc rest county
  end.

(** [if pd.isna(a) or pd.isna(b): a, b = da, db]. *)
Definition unless_nan2 (a b : option Q) (da db : Q) : Q * Q :=
  match a, b with
  | Some x, Some y => (x, y)
  | _, _ => (da, db)
  end.

(** [if pd.isna(a): a = da]. *)
Definition unless_nan (a : option Q) (da : Q) : Q :=
  match a with
  | Some x => x
  | None => da
  end.

(** The [else] branch: a county that is not in the loaded data. *)
Definition fallback_features (rainfall soil_ph organic_carbon : Q)
  : CountyFeatures :=
  {| avg_temperature := 25.0;
     temp_std := 5.0;
     avg_humidity := 70.0;
     humidity_std := 10.0;
     avg_clay_content := 20.0;
     avg_precipitation := rainfall;
     precip_std := 50.0;
     climate_variability := 65.0;
     soil_quality_score := soil_ph * 0.3 + organic_carbon * 0.4 + 20.0 * 0.3 |}.

(** [county_data] is [self.county_data] after the attempt to load it:
    [None] when loading failed. *)
Definition county_features (county_data : option (list (string * CountyStats)))
  (rainfall soil_ph organic_carbon : Q) (county : option string)
  : CountyFeatures :=
  match county_data, county with
  | Some index, Some name =>
      match loc index name with
      | Some county_stats =>
          let '(avg_temperature, temp_std) :=
            unless_nan2 (Monthly_Temperature_C_mean county_stats)
              (Monthly_Temperature_C_std county_stats) 25.0 5.0 in
          let '(avg_humidity, humidity_std) :=
            unless_nan2 (Monthly_Humidity_Percent_mean county_stats)
              (Monthly_Humidity_Percent_std county_stats) 70.0 10.0 in
          let avg_clay_content := unless_nan (Soil_Clay_mean county_stats) 20.0 in
          let '(avg_precipitation, precip_std) :=
            unless_nan2 (Monthly_Precipitation_mm_mean county_stats)
              (Monthly_Precipitation_mm_std county_stats) rainfall 50.0 in
          let climate_variability :=
            unless_nan (Climate_Variability county_stats) 65.0 in
          let soil_quality_score :=
            unless_nan (Soil_Quality_Score county_stats)
              (soil_ph * 0.3 + organic_carbon * 0.4 + 20.0 * 0.3) in
          {| avg_temperature := avg_temperature;
             temp_std := temp_std;
             avg_humidity := avg_humidity;
             humidity_std := humidity_std;
             avg_clay_content := avg_clay_content;
             avg_precipitation := avg_precipitation;
             precip_std := precip_std;
             climate_variability := climate_variability;
             soil_quality_score := soil_quality_score |}
      | None => fallback_features rainfall soil_ph organic_carbon
      end
  | _, _ => fallback_features rainfall soil_ph organic_carbon
  end.

(** The row of [X_numerical]. A division by zero, which numpy turns into
    an infinity or NaN, is rendered as a missing entry. *)
Definition X_numerical (model_type : string)
  (county_data : option (list (string * CountyStats)))
  (rainfall soil_ph organic_carbon : Q) (county : option string)
  : list (option Q) :=
  let f := county_features county_data rainfall soil_ph organic_carbon county in
  if String.eqb model_type "enhanced_county_specific" then
    [ Some rainfall;
      Some (avg_precipitation f);
      Some (precip_std f);
      Some (avg_temperature f);
      Some (temp_std f);
      Some (avg_humidity f);
      Some (humidity_std f);
      Some soil_ph;
      Some organic_carbon;
      Some (avg_clay_content f);
      Some 3;
      (if Qeq_bool (avg_temperature f + 1) 0 then None
       else Some (rainfall / (avg_temperature f + 1)));
      Some (soil_quality_score f);
      Some (climate_variability f) ]
  else [ Some rainfall; Some soil_ph; Some organic_carbon ].

(** ** [save_model], [load_model] and the steps behind [predict_yield] *)

Section Persistence.

(** The fitted objects of scikit-learn, which [joblib] stores as they are. *)
Variables Estimator Scaler Encoder : Type.

(** [self.encoder.transform([[county]])], the same call on the first
    known category, [self.scaler.transform] and [self.model.predict];
    each may raise. *)
Variable transform : Encoder -> option string -> Py.result (list Q).
Variable transform_first_category : Encoder -> Py.result (list Q).
Variable scale : Scaler -> list (option Q) -> Py.result (list Q).
Variable predict : Estimator -> list Q -> Py.result Q.

(** [hasattr(self.model, 'feature_importances_')]. *)
Variable has_feature_importances : Estimator -> bool.

(** The attributes of a [MaizeResilienceModel] that saving, loading and
    predicting touch. *)
Record ModelState : Type := {
  s_model : option Estimator;
  s_scaler : Scaler;
  s_encoder : option Encoder;
  s_feature_names : option (list string);
  s_is_trained : bool;
  s_model_type : string;
  s_county_data : option (list (string * CountyStats))
}.

(** The dictionary in a model file. The keys ['encoder'], ['model_type']
    and ['is_trained'] may be absent (outer [None]); older files lack
    them. *)
Record ModelData : Type := {
  d_model : option Estimator;
  d_scaler : Scaler;
  d_encoder : option (option Encoder);
  d_feature_names : option (list string);
  d_is_trained : option bool;
  d_model_type : option string
}.

Definition save_model (self : ModelState) : Py.result ModelData :=
  if negb (s_is_trained self) then
    Py.raise (Py.ValueError "Model must be trained before saving")
  else
    Py.ok {| d_model := s_model self;
             d_scaler := s_scaler self;
             d_encoder := Some (s_encoder self);
             d_feature_names := s_feature_names self;
             d_is_trained := Some (s_is_trained self);
             d_model_type := Some (s_model_type self) |}.

(** The object [self] after [load_model] read [model_data]. *)
Definition load_model (self : ModelState) (model_data : ModelData)
  : ModelState :=
  {| s_model := d_model model_data;
     s_scaler := d_scaler model_data;
     s_encoder :=
       match d_encoder model_data with
       | Some encoder => encoder
       | None => None
       end;
     s_feature_names := d_feature_names model_data;
     s_is_trained :=
       match d_is_trained model_data with
       | Some is_trained => is_trained
       | None =>
           match d_model model_data, d_feature_names model_data with
           | Some model, Some _ => has_feature_importances model
           | _, _ => false
           end
       end;
     s_model_type :=
       match d_encoder model_data with
       | Some _ =>
           match d_model_type model_data with
           | Some model_type => model_type
           | None => "legacy"
           end
       | None => "legacy"
       end;
     s_county_data := s_county_data self |}.

(** The [try]/[except] around the county encoding. Without an encoder
    both attempts end in an [AttributeError]. *)
Definition encode_county (self : ModelState) (county : option string)
  : Py.result (list Q) :=
  match s_encoder self with
  | Some encoder =>
      match transform encoder county with
      | inr X_county_encoded => Py.ok X_county_encoded
      | inl _ => transform_first_category encoder
      end
  | None =>
      Py.raise (Py.OtherException
                  "'NoneType' object has no attribute 'categories_'")
  end.

(** The lines of [predict_resilience_score] from the county lookup to
    [self.model.predict(X_scaled)[0]]. *)
Definition predict_yield (self : ModelState)
  (rainfall soil_ph organic_carbon : Q) (county : option string)
  : Py.result Q :=
  let X_numerical :=
    X_numerical (s_model_type self) (s_county_data self) rainfall soil_ph
      organic_carbon county in
  X_county_encoded <- encode_county self county ;;
  X_scaled <- scale (s_scaler self)
                (X_numerical ++ map Some X_county_encoded) ;;
  match s_model self with
  | Some model => predict model X_scaled
  | None =>
      Py.raise (Py.OtherException
                  "'NoneType' object has no attribute 'predict'")
  end.

End Persistence.

Arguments s_model {Estimator Scaler Encoder}.
Arguments s_scaler {Estimator Scaler Encoder}.
Arguments s_encoder {Estimator Scaler Encoder}.
Arguments s_feature_names {Estimator Scaler Encoder}.
Arguments s_is_trained {Estimator Scaler Encoder}.
Arguments s_model_type {Estimator Scaler Encoder}.
Arguments s_county_data {Estimator Scaler Encoder}.
Arguments d_model {Estimator Scaler Encoder}.
Arguments d_scaler {Estimator Scaler Encoder}.
Arguments d_encoder {Estimator Scaler Encoder}.
Arguments d_feature_names {Estimator Scaler Encoder}.
Arguments d_is_trained {Estimator Scaler Encoder}.
Arguments d_model_type {Estimator Scaler Encoder}.
Arguments save_model {Estimator Scaler Encoder}.
Arguments load_model {Estimator Scaler Encoder}.
Arguments encode_county {Estimator Scaler Encoder}.
Arguments predict_yield {Estimator Scaler Encoder}.

End MaizeModelInternals.

(** * src/api/monitoring.py *)

Module Monitoring.

(** ** [PredictionMetrics] *)

(** [min_processing_time] starts at [float('inf')], here [None]. *)
Record PredictionMetrics : Type := {
  total_requests : Z;
  successful_requests : Z;
  failed_requests : Z;
  total_processing_time : Q;
  average_processing_time : Q;
  min_processing_time : option Q;
  max_processing_time : Q
}.

(** [PredictionMetrics()]. *)
Definition new_prediction_metrics : PredictionMetrics :=
  {| total_requests := 0;
     successful_requests := 0;
     failed_requests := 0;
     total_processing_time := 0.0;
     average_processing_time := 0.0;
     min_processing_time := None;
     max_processing_time := 0.0 |}.

(** [PredictionMetrics.update]. The sum and the quotient are the
    operations of the source, carried out exactly; on floats the average
    times the number of requests need not give the total back. *)
Definition update (self : PredictionMetrics) (processing_time : Q)
  (success : bool) : PredictionMetrics :=
  let total_requests := (total_requests self + 1)%Z in
  let total_processing_time := total_processing_time self + processing_time in
  {| total_requests := total_requests;
     successful_requests :=
       if success then (successful_requests self + 1)%Z
       else successful_requests self;
     failed_requests :=
       if success then failed_requests self
       else (failed_requests self + 1)%Z;
     total_processing_time := total_processing_time;
     average_processing_time :=
       total_processing_time / inject_Z total_requests;
     min_processing_time :=
       match min_processing_time self with
       | Some m => if Py.Qltb processing_time m then Some processing_time
                   else Some m
       | None => Some processing_time
       end;
     max_processing_time :=
       if Py.Qltb (max_processing_time self) processing_time
       then processing_time else max_processing_time self |}.

(** ** [FeatureMetrics] *)

(** A dictionary of counters, in insertion order. *)
Fixpoint increment (key : string) (d : list (string * Z)) : list (string * Z) :=
  match d with
  | [] => [(key, 1%Z)]
  | (k, n) :: rest =>
      if String.eqb k key then (k, (n + 1)%Z) :: rest
      else (k, n) :: increment key rest
  end.

(** The dictionary of one numerical feature once it has been filled. *)
Record Stats : Type := {
  st_count : Z;
  st_sum : Q;
  st_min : Q;
  st_max : Q;
  st_mean : Q
}.

(** [_update_numerical_stats]; [None] is the empty dictionary, which is
    first filled with count 0, sum 0, minimum [inf] and maximum [-inf]. *)
Definition update_numerical_stats (stats : option Stats) (value : Q)
  : option Stats :=
  match stats with
  | None =>
      Some {| st_count := (0 + 1)%Z;
              st_sum := 0.0 + value;
              st_min := value;
              st_max := value;
              st_mean := (0.0 + value) / inject_Z (0 + 1)%Z |}
  | Some s =>
      Some {| st_count := (st_count s + 1)%Z;
              st_sum := st_sum s + value;
              st_min := Py.min (st_min s) value;
              st_max := Py.max (st_max s) value;
              st_mean := (st_sum s + value) / inject_Z (st_count s + 1)%Z |}
  end.

Record FeatureMetrics : Type := {
  rainfall_stats : option Stats;
  soil_ph_stats : option Stats;
  organic_carbon_stats : option Stats;
  county_distribution : list (string * Z)
}.

Definition new_feature_metrics : FeatureMetrics :=
  {| rainfall_stats := None;
     soil_ph_stats := None;
     organic_carbon_stats := None;
     county_distribution := [] |}.

(** [FeatureMetrics.update]. *)
Definition update_features (self : FeatureMetrics)
  (rainfall soil_ph organic_carbon : Q) (county : string) : FeatureMetrics :=
  {| rainfall_stats := update_numerical_stats (rainfall_stats self) rainfall;
     soil_ph_stats := update_numerical_stats (soil_ph_stats self) soil_ph;
     organic_carbon_stats :=
       update_numerical_stats (organic_carbon_stats self) organic_carbon;
     county_distribution := increment county (county_distribution self) |}.

(** ** [MetricsCollector] *)

(** The state that [record_prediction] and [get_metrics] use; the
    Prometheus counters are left out. *)
Record MetricsCollector : Type := {
  max_history_size : nat;
  prediction_metrics : PredictionMetrics;
  feature_metrics : FeatureMetrics;
  response_times : list Q;
  error_counts : list (string * Z);
  endpoint_usage : list (string * Z)
}.

(** [MetricsCollector(max_history_size)]. *)
Definition new_collector (max_history_size : nat) : MetricsCollector :=
  {| max_history_size := max_history_size;
     prediction_metrics := new_prediction_metrics;
     feature_metrics := new_feature_metrics;
     response_times := [];
     error_counts := [];
     endpoint_usage := [] |}.

(** [deque.append] on a deque with [maxlen]: the oldest entries leave. *)
Definition deque_append (maxlen : nat) (d : list Q) (x : Q) : list Q :=
  let d' := d ++ [x] in
  skipn (List.length d' - maxlen) d'.

(** [record_prediction]; the county handed on is the constant
    ["Unknown"]. *)
Definition record_prediction (self : MetricsCollector)
  (rainfall soil_ph organic_carbon resilience_score processing_time : Q)
  (success : bool) (endpoint : string) : MetricsCollector :=
  {| max_history_size := max_history_size self;
     prediction_metrics := update (prediction_metrics self) processing_time success;
     feature_metrics :=
       update_features (feature_metrics self) rainfall soil_ph organic_carbon
         "Unknown";
     response_times :=
       deque_append (max_history_size self) (response_times self)
         processing_time;
     error_counts :=
       if success then error_counts self
       else increment endpoint (error_counts self);
     endpoint_usage := increment endpoint (endpoint_usage self) |}.

(** The collector after the calls that the prediction handlers made, each
    with the default endpoint. *)
Definition replay (self : MetricsCollector)
  (calls : list FastApi.PredictionMetric) : MetricsCollector :=
  fold_left (fun c m =>
    record_prediction c (FastApi.m_rainfall m) (FastApi.m_soil_ph m)
      (FastApi.m_organic_carbon m) (FastApi.m_resilience_score m)
      (FastApi.m_processing_time m) (FastApi.m_success m) "/api/predict")
    calls self.

(** The processing times of the recorded calls, oldest first. *)
Definition times (calls : list FastApi.PredictionMetric) : list Q :=
  map FastApi.m_processing_time calls.

(** The dictionary that counted [n] times under the one key [key]. *)
Definition counted (key : string) (n : nat) : list (string * Z) :=
  match n with
  | O => []
  | S _ => [(key, Z.of_nat n)]
  end.

(** ** [get_metrics] *)

(** The local [error_rate]; [max(total_requests, 1)] keeps its first
    argument unless it is below 1. *)
Definition error_rate (self : MetricsCollector) : Q :=
  let p := prediction_metrics self in
  inject_Z (failed_requests p)
  / inject_Z (if Z.ltb (total_requests p) 1 then 1 else total_requests p)
  * 100.

(** [int(len(sorted_times) * q)]. *)
Definition percentile_index (n : nat) (q : Q) : nat :=
  Z.to_nat (Qfloor (inject_Z (Z.of_nat n) * q)).

(** The locals [p50], [p95] and [p99]; [None] stands for the
    [IndexError] of an index out of range. *)
Definition percentiles (self : MetricsCollector) : option (Q * Q * Q) :=
  let sorted_times := EnhanceTrainingData.sort Qle_bool (response_times self) in
  match sorted_times with
  | [] => Some (0.0, 0.0, 0.0)
  | _ =>
      let n := List.length sorted_times in
      match nth_error sorted_times (n / 2)%nat,
            nth_error sorted_times (percentile_index n 0.95),
            nth_error sorted_times (percentile_index n 0.99) with
      | Some p50, Some p95, Some p99 => Some (p50, p95, p99)
      | _, _, _ => None
      end
  end.

End Monitoring.

(** * src/api/app.py *)

Module FlaskApp.

(** One of the three required fields of the JSON payload: absent, or
    present with the outcome of [float(data[field])], a finite number or
    the exception that [float] raises ([ValueError] for text that is not
    a number, [TypeError] for a null, a list or an object). *)
Inductive Field : Type :=
| Missing
| Present (value : Py.result Q).

Record Payload : Type := {
  p_rainfall : Field;
  p_soil_ph : Field;
  p_organic_carbon : Field
}.

Definition is_missing (f : Field) : bool :=
  match f with
  | Missing => true
  | Present _ => false
  end.

(** [float(data[field])]; a missing field has been ruled out before. *)
Definition float_of (f : Field) : Py.result Q :=
  match f with
  | Present value => value
  | Missing => Py.raise (Py.OtherException "KeyError")
  end.

(** What the [try] block does: it returns a status code, or raises. The
    module's [model] is used through its [is_trained] flag only, because
    the call [model.predict_resilience_score(rainfall, soil_ph,
    organic_carbon)] lacks the required argument [county] and raises a
    [TypeError] before the method body runs. *)
Definition predict_resilience_try (is_trained : bool) (data : Payload)
  : Py.result Z :=
  if is_missing (p_rainfall data) || is_missing (p_soil_ph data)
     || is_missing (p_organic_carbon data)
  then Py.ok 400%Z
  else
    rainfall <- float_of (p_rainfall data) ;;
    soil_ph <- float_of (p_soil_ph data) ;;
    organic_carbon <- float_of (p_organic_carbon data) ;;
    if Py.Qltb rainfall 0 || Py.Qltb 3000 rainfall then Py.ok 400%Z
    else if Py.Qltb soil_ph 4.0 || Py.Qltb 10.0 soil_ph then Py.ok 400%Z
    else if Py.Qltb organic_carbon 0.1 || Py.Qltb 10.0 organic_carbon
    then Py.ok 400%Z
    else if negb is_trained then Py.ok 503%Z
    else
      Py.raise (Py.OtherException
        "predict_resilience_score() missing 1 required positional argument: 'county'").

(** The status code of POST /api/predict: [except ValueError] answers
    400, [except Exception] answers 500. *)
Definition predict_resilience (is_trained : bool) (data : Payload) : Z :=
  match predict_resilience_try is_trained data with
  | inr code => code
  | inl (Py.ValueError _) => 400%Z
  | inl _ => 500%Z
  end.

(** The payload passes the presence and range checks. *)
Definition valid (data : Payload) : Prop :=
  exists rainfall soil_ph organic_carbon,
    p_rainfall data = Present (inr rainfall)
    /\ p_soil_ph data = Present (inr soil_ph)
    /\ p_organic_carbon data = Present (inr organic_carbon)
    /\ 0 <= rainfall /\ rainfall <= 3000
    /\ 4.0 <= soil_ph /\ soil_ph <= 10.0
    /\ 0.1 <= organic_carbon /\ organic_carbon <= 10.0.

End FlaskApp.

(** * Scenarios used to exercise the statements *)

Module Scenarios.

Definition noon : CollectOpenMeteo.DateTime :=
  {| CollectOpenMeteo.dt_year := 2021; CollectOpenMeteo.dt_month := 3;
     CollectOpenMeteo.dt_day := 14; CollectOpenMeteo.dt_hour := 12;
     CollectOpenMeteo.dt_minute := 0; CollectOpenMeteo.dt_second := 0 |}.

(** A parser that accepts the one time stamp of the scenarios. *)
Definition parse_noon (time_str : string) : option CollectOpenMeteo.DateTime :=
  if String.eqb time_str "2021-03-14T12:00" then Some noon else None.

(** One hour whose evapotranspiration is null, the other inputs present. *)
Definition no_evap_hour : CollectOpenMeteo.Hourly :=
  {| CollectOpenMeteo.time := ["2021-03-14T12:00"];
     CollectOpenMeteo.temperature_2m := [Some 31.5];
     CollectOpenMeteo.relative_humidity_2m := [Some 40];
     CollectOpenMeteo.pressure_msl := [Some 1013];
     CollectOpenMeteo.et0_fao_evapotranspiration := [None];
     CollectOpenMeteo.precipitation := [Some 0.0] |}.

Definition no_evap_response : CollectOpenMeteo.Response :=
  {| CollectOpenMeteo.hourly := Some no_evap_hour;
     CollectOpenMeteo.daily := Some ["2021-03-14"] |}.

(** Soil points: one inside the rectangles of both Mombasa and Kwale, one
    outside every rectangle, one outside Kenya. *)
Definition soil_point (country : string) (lat lon : Q) : IntegrateDatasets.SoilPoint :=
  {| IntegrateDatasets.Country := country;
     IntegrateDatasets.sp_Latitude := lat;
     IntegrateDatasets.sp_Longitude := lon;
     IntegrateDatasets.pH_H2O := Py.PNum 6.2;
     IntegrateDatasets.Organic_Carbon := Py.PNum 1.8;
     IntegrateDatasets.Clay := Py.PNum 30;
     IntegrateDatasets.Sand := Py.PNum 40;
     IntegrateDatasets.Silt := Py.PNum 30;
     IntegrateDatasets.CEC := Py.PNone;
     IntegrateDatasets.CaCO3 := Py.PNone;
     IntegrateDatasets.Total_Nitrogen := Py.PNum 0.15;
     IntegrateDatasets.Bulk_Density := Py.PNum 1.3 |}.

Definition coast_point : IntegrateDatasets.SoilPoint := soil_point "KE" (-4) 39.2.
Definition lake_point : IntegrateDatasets.SoilPoint := soil_point "KE" 3.5 33.0.
Definition soil_points : list IntegrateDatasets.SoilPoint :=
  [ coast_point; lake_point; soil_point "TZ" (-4) 39.2 ].

(** Three hours of one day in Nakuru: no rain and heat, then moderate
    rain, then heavy rain. *)
Definition parse_any (time_str : string) : option CollectOpenMeteo.DateTime :=
  Some noon.

Definition three_hours : CollectOpenMeteo.Hourly :=
  {| CollectOpenMeteo.time :=
       ["2021-03-14T12:00"; "2021-03-14T13:00"; "2021-03-14T14:00"];
     CollectOpenMeteo.temperature_2m := [Some 35; Some 25; Some 20];
     CollectOpenMeteo.relative_humidity_2m := [Some 50; Some 70; Some 80];
     CollectOpenMeteo.pressure_msl := [Some 1012; Some 1013; None];
     CollectOpenMeteo.et0_fao_evapotranspiration := [Some 8; Some 4; Some 2];
     CollectOpenMeteo.precipitation := [Some 0; Some 20; Some 80] |}.

Definition stations
  : list (string * Q * Q * list (option CollectOpenMeteo.Response)) :=
  [ ("Nakuru", -0.3, 36.0667,
     [ Some {| CollectOpenMeteo.hourly := Some three_hours;
               CollectOpenMeteo.daily := Some ["2021-03-14"] |};
       None ]) ].

Definition weather_files : list IntegrateDatasets.WeatherFile :=
  IntegrateDatasets.collected_weather_files parse_any stations.

(** The weather aggregate of the scenario: one row, Nakuru, March 2021. *)
Definition weather : IntegrateDatasets.DataFrame :=
  {| IntegrateDatasets.keyed := true;
     IntegrateDatasets.columns := IntegrateDatasets.weather_columns;
     IntegrateDatasets.rows :=
       List.concat (IntegrateDatasets.all_monthly_data weather_files) |}.

Definition nakuru_march : IntegrateDatasets.Key :=
  {| IntegrateDatasets.k_county := "Nakuru";
     IntegrateDatasets.k_year := 2021;
     IntegrateDatasets.k_month := 3 |}.

Definition base_row : IntegrateDatasets.Row :=
  IntegrateDatasets.monthly_row "Nakuru"
    (CollectOpenMeteo.collect_county_weather_data parse_any "Nakuru" (-0.3)
       36.0667
       [ Some {| CollectOpenMeteo.hourly := Some three_hours;
                 CollectOpenMeteo.daily := Some ["2021-03-14"] |};
         None ])
    (2021%Z, 3%Z).

(** Dashboard data for another month only, and the same without any row. *)
Definition dashboard : IntegrateDatasets.DataFrame :=
  {| IntegrateDatasets.keyed := true;
     IntegrateDatasets.columns :=
       ["Monthly_Temperature_C"; "Monthly_Irrigation_Needed_Real"];
     IntegrateDatasets.rows :=
       [ {| IntegrateDatasets.key :=
              {| IntegrateDatasets.k_county := "Nakuru";
                 IntegrateDatasets.k_year := 2021;
                 IntegrateDatasets.k_month := 4 |};
            IntegrateDatasets.cells :=
              [ ("Monthly_Temperature_C", Py.PNum 24.5);
                ("Monthly_Irrigation_Needed_Real", Py.PStr "Yes") ] |} ] |}.

Definition empty_dashboard : IntegrateDatasets.DataFrame :=
  {| IntegrateDatasets.keyed := true;
     IntegrateDatasets.columns :=
       ["Monthly_Temperature_C"; "Monthly_Irrigation_Needed_Real"];
     IntegrateDatasets.rows := [] |}.

Definition maize : option IntegrateDatasets.DataFrame :=
  IntegrateDatasets.integrate_maize_data
    (Some [ {| IntegrateDatasets.mz_County := "Nakuru";
               IntegrateDatasets.mz_Year := 2021;
               IntegrateDatasets.Area_Ha := Py.PNum 1000;
               IntegrateDatasets.Production_Tons := Py.PNum 2100;
               IntegrateDatasets.Yield_tonnes_ha := Py.PNum 2.1 |} ]).

Definition soil : option IntegrateDatasets.DataFrame :=
  IntegrateDatasets.aggregate_soil_data_by_county (Some soil_points).

(** The master table of the scenario and its only row. *)
Definition master : IntegrateDatasets.DataFrame :=
  match IntegrateDatasets.create_master_dataset (Some weather) (Some dashboard)
          maize soil None with
  | inr (Some df) => df
  | _ => {| IntegrateDatasets.keyed := false;
            IntegrateDatasets.columns := [];
            IntegrateDatasets.rows := [] |}
  end.

Definition master_row : IntegrateDatasets.Row :=
  hd base_row (IntegrateDatasets.rows master).

(** Master rows of six counties for 2021, two months each; the annual
    yields are 0.8, 0.79, 1.5, 2.0, 2.5 and 4.9 tonnes per hectare. *)
Definition master_record (county : string) (month_rain yield : Q)
  : EnhanceTrainingData.MasterRecord :=
  {| EnhanceTrainingData.County := county;
     EnhanceTrainingData.Year := 2021;
     EnhanceTrainingData.Monthly_Precipitation_mm := Some month_rain;
     EnhanceTrainingData.Monthly_Temperature_C := Some 21;
     EnhanceTrainingData.Monthly_Humidity_Percent := Some 65;
     EnhanceTrainingData.Soil_pH_H2O := Some 6.1;
     EnhanceTrainingData.Soil_Organic_Carbon_in := Some 1.9;
     EnhanceTrainingData.Soil_Clay := None;
     EnhanceTrainingData.Maize_Yield_in := Some yield |}.

Definition master_records : list EnhanceTrainingData.MasterRecord :=
  [ master_record "Nakuru" 60 0.8; master_record "Nakuru" 90 0.8;
    master_record "Kilifi" 20 0.79; master_record "Kilifi" 35 0.79;
    master_record "Meru" 70 1.5; master_record "Meru" 110 1.5;
    master_record "Kisii" 120 2.0; master_record "Kisii" 140 2.0;
    master_record "Bungoma" 130 2.5; master_record "Bungoma" 150 2.5;
    master_record "Narok" 50 4.9; master_record "Narok" 55 4.9 ].

(** A stand-in for the square root; the yield filters do not read it. *)
Definition no_sqrt (x : Q) : Q := 0.

Definition annual_records : list EnhanceTrainingData.AnnualRecord :=
  EnhanceTrainingData.annual_data no_sqrt master_records.

Definition nakuru_annual : EnhanceTrainingData.AnnualRecord :=
  EnhanceTrainingData.annual_row no_sqrt master_records ("Nakuru", 2021%Z).

Definition kilifi_annual : EnhanceTrainingData.AnnualRecord :=
  EnhanceTrainingData.annual_row no_sqrt master_records ("Kilifi", 2021%Z).

(** A fitted model whose estimator predicts 1.234 t/ha, and a model that
    was never trained. *)
Definition fitted_model : MaizeModel.MaizeResilienceModel :=
  {| MaizeModel.is_trained := true;
     MaizeModel.algorithm := "RandomForestRegressor";
     MaizeModel.feature_names :=
       Some ["Annual_Rainfall_mm"; "Soil_pH"; "Soil_Organic_Carbon";
             "County_Nakuru"];
     MaizeModel.feature_importances_ := [0.5; 0.2; 0.2; 0.1];
     MaizeModel.predict_yield := fun _ _ _ _ => Py.ok 1.234 |}.

Definition untrained_model : MaizeModel.MaizeResilienceModel :=
  {| MaizeModel.is_trained := false;
     MaizeModel.algorithm := "RandomForestRegressor";
     MaizeModel.feature_names := None;
     MaizeModel.feature_importances_ := [];
     MaizeModel.predict_yield :=
       fun _ _ _ _ => Py.raise (Py.OtherException "not fitted") |}.

Definition nakuru_request : FastApi.PredictionRequest :=
  {| FastApi.rainfall := 800; FastApi.soil_ph := 6.5;
     FastApi.organic_carbon := 2.1; FastApi.county := Some "Nakuru" |}.

(** The application right after start-up without any model file, and the
    application whose global [model] is still [None]. *)
Definition untrained_app : FastApi.App :=
  {| FastApi.model := Some untrained_model;
     FastApi.metrics_collector := Some [];
     FastApi.background_tasks := [] |}.

Definition no_model_app : FastApi.App :=
  {| FastApi.model := None;
     FastApi.metrics_collector := Some [];
     FastApi.background_tasks := [] |}.

(** Three small dashboard files of one county and year. *)
Definition dashboard_file (column : string) (entries : list (Z * Py.val))
  : IntegrateDatasets.DataFrame :=
  {| IntegrateDatasets.keyed := true;
     IntegrateDatasets.columns := [column];
     IntegrateDatasets.rows :=
       map (fun e =>
              {| IntegrateDatasets.key :=
                   {| IntegrateDatasets.k_county := "Nakuru";
                      IntegrateDatasets.k_year := 2021;
                      IntegrateDatasets.k_month := fst e |};
                 IntegrateDatasets.cells := [(column, snd e)] |}) entries |}.

Definition temperature_data : IntegrateDatasets.DataFrame :=
  dashboard_file "Monthly_Temperature_C"
    [(3, Py.PNum 24.5); (4, Py.PNum 23.0); (5, Py.PNum 22.1)]%Z.

Definition irrigation_data : IntegrateDatasets.DataFrame :=
  dashboard_file "Monthly_Irrigation_Needed_Real"
    [(3, Py.PStr "Yes"); (4, Py.PStr "No")]%Z.

Definition water_stress_data : IntegrateDatasets.DataFrame :=
  dashboard_file "Monthly_Water_Stress_Index_Real"
    [(4, Py.PNum 0); (5, Py.PNum 0.4)]%Z.

(** The application with the fitted model of the scenario. *)
Definition trained_app : FastApi.App :=
  {| FastApi.model := Some Scenarios.fitted_model;
     FastApi.metrics_collector := Some [];
     FastApi.background_tasks := [] |}.

End Scenarios.

(** * Facts about the Python helpers *)

Module PyFacts.
Import Py.

Lemma Qltb_lt (x y : Q) : Qltb x y = true <-> x < y.
Proof.
  unfold Qltb. rewrite negb_true_iff. split.
  - intros H. apply Qnot_le_lt. intros Hle.
    apply Qle_bool_iff in Hle. congruence.
  - intros H. destruct (Qle_bool y x) eqn:E; trivial.
    apply Qle_bool_iff in E. lra.
Qed.

Lemma Qltb_ge (x y : Q) : Qltb x y = false <-> y <= x.
Proof.
  unfold Qltb. rewrite negb_false_iff. apply Qle_bool_iff.
Qed.

Lemma Qle_bool_false (x y : Q) : Qle_bool x y = false <-> y < x.
Proof.
  split.
  - intros H. apply Qnot_le_lt. intros Hle.
    apply Qle_bool_iff in Hle. congruence.
  - intros H. destruct (Qle_bool x y) eqn:E; trivial.
    apply Qle_bool_iff in E. lra.
Qed.

Lemma min_spec (a b : Q) :
  (b < a /\ min a b = b) \/ (a <= b /\ min a b = a).
Proof.
  unfold min. destruct (Qltb b a) eqn:E.
  - left. apply Qltb_lt in E. auto.
  - right. apply Qltb_ge in E. auto.
Qed.

Lemma max_spec (a b : Q) :
  (a < b /\ max a b = b) \/ (b <= a /\ max a b = a).
Proof.
  unfold max. destruct (Qltb a b) eqn:E.
  - left. apply Qltb_lt in E. auto.
  - right. apply Qltb_ge in E. auto.
Qed.

(** Clamping with [max lo (min hi x)] lands in [[lo, hi]] when [lo <= hi]. *)
Lemma clamp_bounds (lo hi x : Q) :
  lo <= hi -> lo <= max lo (min hi x) /\ max lo (min hi x) <= hi.
Proof.
  intros Hlh.
  destruct (min_spec hi x) as [[H1 ->] | [H1 ->]];
    [destruct (max_spec lo x) as [[H2 ->] | [H2 ->]]
    | destruct (max_spec lo hi) as [[H2 ->] | [H2 ->]]]; lra.
Qed.

End PyFacts.

(** Destructs the Python-style comparisons that occur in a goal and
    moves their meaning into the context. *)
Ltac cmp_cases :=
  repeat match goal with
  | |- context [Py.Qltb ?a ?b] =>
      let E := fresh "E" in
      destruct (Py.Qltb a b) eqn:E;
      [apply PyFacts.Qltb_lt in E | apply PyFacts.Qltb_ge in E]
  | |- context [Qle_bool ?a ?b] =>
      let E := fresh "E" in
      destruct (Qle_bool a b) eqn:E;
      [apply Qle_bool_iff in E | apply PyFacts.Qle_bool_false in E]
  end.

(** Splits on every Python [min] and [max] of the goal and of the
    context, replacing each by the argument it returns. *)
Ltac minmax_cases :=
  repeat match goal with
  | |- context [Py.min ?a ?b] =>
      let H := fresh "Hmin" in
      let E := fresh "Emin" in
      destruct (PyFacts.min_spec a b) as [[H E] | [H E]];
      rewrite E in *; clear E
  | |- context [Py.max ?a ?b] =>
      let H := fresh "Hmax" in
      let E := fresh "Emax" in
      destruct (PyFacts.max_spec a b) as [[H E] | [H E]];
      rewrite E in *; clear E
  | _ : context [Py.min ?a ?b] |- _ =>
      let H := fresh "Hmin" in
      let E := fresh "Emin" in
      destruct (PyFacts.min_spec a b) as [[H E] | [H E]];
      rewrite E in *; clear E
  | _ : context [Py.max ?a ?b] |- _ =>
      let H := fresh "Hmax" in
      let E := fresh "Emax" in
      destruct (PyFacts.max_spec a b) as [[H E] | [H E]];
      rewrite E in *; clear E
  end.

(** * Facts about collect_openmeteo_data.py *)

Module CollectOpenMeteoFacts.
Import CollectOpenMeteo.

(** ** The water stress index *)

(** C3: an hour without precipitation (precipitation at most 0) gets the
    maximum-stress constant 0.86, whatever the temperature, the
    evapotranspiration and the humidity are. *)
Theorem water_stress_without_rain (temp evap rainfall humidity : Q) :
  rainfall <= 0 ->
  calculate_water_stress_index temp evap rainfall humidity = 0.86.
Proof.
  intros Hdry. unfold calculate_water_stress_index.
  apply Qle_bool_iff in Hdry. now rewrite Hdry.
Qed.

Lemma water_stress_without_rain_witness :
  0.0 <= 0 /\ calculate_water_stress_index 35 8 0.0 50 = 0.86.
Proof.
  split.
  - lra.
  - apply (water_stress_without_rain 35 8 0.0 50). lra.
Defined.

(** Both return statements of the function stay within the range (the
    form in which later proofs use the bound). *)
Lemma stress_index_clamped (temp evap rainfall humidity : Q) :
  0.73 <= calculate_water_stress_index temp evap rainfall humidity
  /\ calculate_water_stress_index temp evap rainfall humidity <= 0.86.
Proof.
  unfold calculate_water_stress_index.
  destruct (Qle_bool rainfall 0).
  - split; lra.
  - apply PyFacts.clamp_bounds. lra.
Qed.

(** C4: the water stress index lies in the closed interval from 0.73 to
    0.86 for all inputs, however large or small. *)
Theorem water_stress_index_range (temp evap rainfall humidity : Q) :
  0.73 <= calculate_water_stress_index temp evap rainfall humidity
  /\ calculate_water_stress_index temp evap rainfall humidity <= 0.86.
Proof.
  unfold calculate_water_stress_index.
  destruct (Qle_bool rainfall 0) eqn:Hdry.
  - (* no rain: the constant 0.86 *)
    split; lra.
  - (* rain: the clamped total *)
    destruct (PyFacts.max_spec 0.73
                (Py.min 0.86
                   (base_stress + temp_factor temp + evap_factor evap
                    + rainfall_factor rainfall + humidity_factor humidity)))
      as [[Hlt ->] | [Hge ->]].
    + destruct (PyFacts.min_spec 0.86
                  (base_stress + temp_factor temp + evap_factor evap
                   + rainfall_factor rainfall + humidity_factor humidity))
        as [[Hlt' Emin] | [Hge' Emin]]; rewrite Emin in *; split; lra.
    + split; lra.
Qed.

(** At a temperature of 100 degrees the index is clamped to the maximum. *)
Example water_stress_at_extreme_temperature :
  calculate_water_stress_index 100 3 20 50 == 0.86.
Proof. vm_compute. reflexivity. Qed.

(** The temperature and evapotranspiration contributions never exceed
    their cap of 0.3, and with positive rainfall the rainfall contribution
    stays below 0.4 without a cap. *)
Lemma temp_factor_range (temp : Q) : 0 <= temp_factor temp <= 0.3.
Proof.
  unfold temp_factor. destruct (Py.Qltb 25 temp) eqn:E; [|lra].
  apply PyFacts.Qltb_lt in E.
  destruct (PyFacts.min_spec 0.3 ((temp - 25) * 0.06)) as [[H ->] | [H ->]]; lra.
Qed.

Lemma evap_factor_range (evap : Q) : 0 <= evap_factor evap <= 0.3.
Proof.
  unfold evap_factor. destruct (Py.Qltb 5 evap) eqn:E; [|lra].
  apply PyFacts.Qltb_lt in E.
  destruct (PyFacts.min_spec 0.3 ((evap - 5) * 0.06)) as [[H ->] | [H ->]]; lra.
Qed.

Lemma rainfall_factor_range (rainfall : Q) :
  0 < rainfall -> 0 <= rainfall_factor rainfall < 0.4.
Proof.
  intros Hpos. unfold rainfall_factor.
  destruct (Py.Qltb rainfall 50) eqn:E; [|lra].
  apply PyFacts.Qltb_lt in E. lra.
Qed.

(** The humidity contribution has no cap: it passes any bound. *)
Lemma humidity_factor_unbounded (bound : Q) :
  exists humidity, bound < humidity_factor humidity.
Proof.
  exists (Qmin 0 (60 - 500 * bound - 500)).
  unfold humidity_factor.
  assert (Hle := Q.le_min_l 0 (60 - 500 * bound - 500)).
  assert (Hle' := Q.le_min_r 0 (60 - 500 * bound - 500)).
  destruct (Py.Qltb (Qmin 0 (60 - 500 * bound - 500)) 60) eqn:E.
  - lra.
  - apply PyFacts.Qltb_ge in E. lra.
Qed.

(** From 10 percent of humidity upwards the humidity contribution stays
    within 0.1, and the function agrees with the capped formula. *)
Lemma agrees_with_capped_formula (temp evap rainfall humidity : Q) :
  10 <= humidity ->
  calculate_water_stress_index temp evap rainfall humidity
  == spec_water_stress_index temp evap rainfall humidity.
Proof.
  intros Hhum.
  unfold calculate_water_stress_index, spec_water_stress_index.
  destruct (Qle_bool rainfall 0) eqn:Hdry; [reflexivity|].
  apply PyFacts.Qle_bool_false in Hdry.
  pose proof (temp_factor_range temp) as Ht.
  pose proof (evap_factor_range evap) as He.
  pose proof (rainfall_factor_range rainfall Hdry) as Hr.
  assert (Hh : 0 <= humidity_factor humidity <= 0.1).
  { unfold humidity_factor. cmp_cases; lra. }
  unfold base_stress. cbv zeta. minmax_cases; lra.
Qed.

(** C5: at 20 degrees, 3 mm of evapotranspiration, 60 mm of rain and 5
    percent of humidity the humidity contribution is 0.11, above the 0.1
    that the source documents as its maximum; the index is 0.84, where
    the formula with every contribution capped gives 0.83. *)
Theorem humidity_contribution_exceeds_cap :
  humidity_factor 5 == 0.11
  /\ 0.1 < humidity_factor 5
  /\ calculate_water_stress_index 20 3 60 5 == 0.84
  /\ spec_water_stress_index 20 3 60 5 == 0.83.
Proof.
  repeat split; vm_compute; reflexivity.
Qed.

(** ** Hourly records with a missing input *)

Lemma water_stress_of_missing (temp evap_val precip hum : option Q) :
  temp = None \/ evap_val = None \/ precip = None \/ hum = None ->
  water_stress_of temp evap_val precip hum = None.
Proof.
  destruct temp, evap_val, precip, hum; simpl;
    intros [H | [H | [H | H]]]; try discriminate; reflexivity.
Qed.

Lemma irrigation_of_no_stress (precip temp : option Q) :
  irrigation_of precip None temp = (None, 0).
Proof. destruct precip; reflexivity. Qed.

(** Every hour whose time stamp parses is emitted, whatever its values. *)
Lemma process_hours_emits (fromisoformat : string -> option DateTime)
  (county : string) (lat lon : Q) (h : Hourly) (hourly_times : list string) :
  forall (k j : nat) (time_str : string) (dt : DateTime),
    nth_error hourly_times j = Some time_str ->
    fromisoformat time_str = Some dt ->
    In (hourly_record county lat lon h (k + j) dt)
       (process_hours fromisoformat county lat lon h k hourly_times).
Proof.
  induction hourly_times as [|t rest IH]; intros k j time_str dt Hnth Hparse.
  - destruct j; discriminate.
  - destruct j as [|j]; simpl in Hnth.
    + injection Hnth as ->. simpl. rewrite Hparse, Nat.add_0_r. now left.
    + simpl. replace (k + S j)%nat with (S k + j)%nat by lia.
      destruct (fromisoformat t); [right|]; eapply IH; eassumption.
Qed.

(** C6 (amended): an hour with a missing stress input is still emitted,
    without an error; its water stress index is null, and its irrigation
    and heat-stress columns hold the placeholders "Unknown", 0, 0 and 0. *)
Theorem missing_input_record_placeholders
  (fromisoformat : string -> option DateTime) (response_data : Response)
  (county : string) (lat lon : Q) (h : Hourly) (i : nat)
  (time_str : string) (dt : DateTime) :
  hourly response_data = Some h ->
  daily response_data <> None ->
  nth_error (time h) i = Some time_str ->
  fromisoformat time_str = Some dt ->
  input_missing h i ->
  exists r,
    In r (process_weather_response fromisoformat response_data county lat lon)
    /\ r = hourly_record county lat lon h i dt
    /\ Water_Stress_Index r = Py.PNone
    /\ Irrigation_Needed r = Py.PStr "Unknown"
    /\ Irrigation_Volume_Liters_Ha r = Py.PNum 0
    /\ Crop_Yield_Impact_Percent r = Py.PNum 0
    /\ Heat_Stress_Days r = Py.PNum 0.
Proof.
  intros Hh Hd Hnth Hparse Hmiss.
  exists (hourly_record county lat lon h i dt). split.
  - unfold process_weather_response. rewrite Hh.
    destruct (daily response_data); [|congruence].
    apply (process_hours_emits fromisoformat county lat lon h (time h) 0 i
             time_str dt Hnth Hparse).
  - split; [reflexivity|].
    unfold hourly_record.
    rewrite (water_stress_of_missing _ _ _ _ Hmiss), irrigation_of_no_stress.
    simpl. repeat split; reflexivity.
Qed.

Lemma missing_input_record_placeholders_witness :
  exists r,
    In r (process_weather_response Scenarios.parse_noon
            Scenarios.no_evap_response "Nakuru" (-0.3) 36.0667)
    /\ r = hourly_record "Nakuru" (-0.3) 36.0667 Scenarios.no_evap_hour 0
             Scenarios.noon
    /\ Water_Stress_Index r = Py.PNone
    /\ Irrigation_Needed r = Py.PStr "Unknown"
    /\ Irrigation_Volume_Liters_Ha r = Py.PNum 0
    /\ Crop_Yield_Impact_Percent r = Py.PNum 0
    /\ Heat_Stress_Days r = Py.PNum 0.
Proof.
  apply (missing_input_record_placeholders Scenarios.parse_noon
           Scenarios.no_evap_response "Nakuru" (-0.3) 36.0667
           Scenarios.no_evap_hour 0 "2021-03-14T12:00" Scenarios.noon).
  - reflexivity.
  - discriminate.
  - reflexivity.
  - reflexivity.
  - right. left. reflexivity.
Defined.

(** C6, as stated, fails: the hour of [no_evap_response] has no
    evapotranspiration, yet its record is emitted with the non-null
    placeholder "Unknown" in the irrigation column. *)
Lemma null_stress_fields_counterexample :
  ~ (forall r,
       In r (process_weather_response Scenarios.parse_noon
               Scenarios.no_evap_response "Nakuru" (-0.3) 36.0667) ->
       Evapotranspiration_mm r = Py.PNone ->
       stress_fields_null r).
Proof.
  intros Hclaim.
  destruct (Hclaim (hourly_record "Nakuru" (-0.3) 36.0667
                      Scenarios.no_evap_hour 0 Scenarios.noon))
    as (_ & Hneeded & _).
  - simpl. left. reflexivity.
  - reflexivity.
  - discriminate Hneeded.
Qed.

(** An emitted record without precipitation whose four inputs are present
    carries the constant 0.86. *)
Lemma dry_hour_record (county : string) (lat lon : Q) (h : Hourly) (i : nat)
  (dt : DateTime) (temp evap precip hum : Q) :
  value_at (temperature_2m h) i = Some temp ->
  value_at (et0_fao_evapotranspiration h) i = Some evap ->
  value_at (precipitation h) i = Some precip ->
  value_at (relative_humidity_2m h) i = Some hum ->
  precip <= 0 ->
  Water_Stress_Index (hourly_record county lat lon h i dt) = Py.PNum 0.86.
Proof.
  intros Ht He Hp Hh Hdry. unfold hourly_record.
  rewrite Ht, He, Hp, Hh. simpl.
  unfold calculate_water_stress_index.
  apply Qle_bool_iff in Hdry. rewrite Hdry. reflexivity.
Qed.

(** ** The stress index of collected records *)

Lemma process_hours_records (fromisoformat : string -> option DateTime)
  (county : string) (lat lon : Q) (h : Hourly) (hourly_times : list string)
  (k : nat) (r : HourlyRecord) :
  In r (process_hours fromisoformat county lat lon h k hourly_times) ->
  exists i dt, r = hourly_record county lat lon h i dt.
Proof.
  revert k. induction hourly_times as [|t rest IH]; intros k; simpl.
  - intros [].
  - destruct (fromisoformat t) as [dt|].
    + intros [<- | Hin]; [exists k, dt; reflexivity|exact (IH _ Hin)].
    + exact (IH _).
Qed.

(** The stress index of a collected record is null or a value of
    [calculate_water_stress_index]. *)
Lemma collected_record_stress (fromisoformat : string -> option DateTime)
  (county : string) (lat lon : Q) (responses : list (option Response))
  (r : HourlyRecord) :
  In r (collect_county_weather_data fromisoformat county lat lon responses) ->
  Water_Stress_Index r = Py.PNone
  \/ exists temp evap rainfall humidity,
       Water_Stress_Index r
       = Py.PNum (calculate_water_stress_index temp evap rainfall humidity).
Proof.
  unfold collect_county_weather_data. intros Hin.
  apply in_flat_map in Hin. destruct Hin as ([response_data|] & _ & Hin);
    [|destruct Hin].
  unfold process_weather_response in Hin.
  destruct (hourly response_data) as [h|]; [|destruct Hin].
  destruct (daily response_data); [|destruct Hin].
  apply process_hours_records in Hin. destruct Hin as (i & dt & ->).
  unfold hourly_record.
  destruct (irrigation_of _ _ _) as [irrigation_data heat_stress_days].
  simpl. unfold water_stress_of.
  destruct (value_at (temperature_2m h) i) as [t|]; [|now left].
  destruct (value_at (et0_fao_evapotranspiration h) i) as [e|]; [|now left].
  destruct (value_at (precipitation h) i) as [p|]; [|now left].
  destruct (value_at (relative_humidity_2m h) i) as [u|]; [|now left].
  right. exists t, e, p, u. reflexivity.
Qed.

End CollectOpenMeteoFacts.

(** * Facts about integrate_all_datasets.py *)

Module IntegrateDatasetsFacts.
Import IntegrateDatasets.

(** ** County assignment of soil points *)

(** The [if]/[elif] chain is a first-match search through the table. *)
Lemma assign_county_first_match (lat lon : Q) :
  assign_county lat lon = first_match county_rectangles lat lon.
Proof. reflexivity. Qed.

Lemma first_match_unknown (rs : list Rectangle) (lat lon : Q) :
  (forall r, In r rs -> rect_county r <> "Unknown") ->
  first_match rs lat lon = "Unknown"
  <-> (forall r, In r rs -> contains r lat lon = false).
Proof.
  induction rs as [|r rs IH]; intros Hlabels; simpl.
  - split; [intros _ r []|reflexivity].
  - assert (Hrest : forall r', In r' rs -> rect_county r' <> "Unknown")
      by (intros r' Hin; apply Hlabels; now right).
    specialize (IH Hrest).
    destruct (contains r lat lon) eqn:E.
    + split.
      * intros Heq. exfalso. apply (Hlabels r); [now left|assumption].
      * intros Hnone. specialize (Hnone r (or_introl eq_refl)). congruence.
    + rewrite IH. split.
      * intros Hnone r' [<- | Hin]; [assumption|now apply Hnone].
      * intros Hnone r' Hin. apply Hnone. now right.
Qed.

Lemma county_rectangles_labels (r : Rectangle) :
  In r county_rectangles -> rect_county r <> "Unknown".
Proof.
  assert (H : forallb (fun r => negb (String.eqb (rect_county r) "Unknown"))
                county_rectangles = true) by (vm_compute; reflexivity).
  rewrite forallb_forall in H. intros Hin Heq.
  specialize (H r Hin). rewrite Heq in H. discriminate.
Qed.

Lemma counties_of_incl (pts : list (string * SoilPoint)) (c : string) :
  In c (counties_of pts) -> exists p, In (c, p) pts.
Proof.
  induction pts as [|[c' p'] pts IH]; simpl; [intros []|].
  intros [<- | Hin].
  - exists p'. now left.
  - apply filter_In in Hin. destruct Hin as [Hin _].
    destruct (IH Hin) as [p Hp]. exists p. now right.
Qed.

Lemma monthly_soil_county (pts : list (string * SoilPoint)) (row : Row) :
  In row (monthly_soil pts) -> In (k_county (key row)) (counties_of pts).
Proof.
  unfold monthly_soil. intros Hin.
  apply in_flat_map in Hin. destruct Hin as (c & Hc & Hin).
  apply in_flat_map in Hin. destruct Hin as (y & _ & Hin).
  apply in_map_iff in Hin. destruct Hin as (m & <- & _). exact Hc.
Qed.

Lemma labelled_soil_points_spec (soil_data : list SoilPoint) (c : string)
  (p : SoilPoint) :
  In (c, p) (labelled_soil_points soil_data)
  <-> (In p soil_data /\ Country p = "KE"
       /\ c = assign_county (sp_Latitude p) (sp_Longitude p)
       /\ c <> "Unknown").
Proof.
  unfold labelled_soil_points. rewrite filter_In, in_map_iff. simpl.
  rewrite negb_true_iff, String.eqb_neq. split.
  - intros [(q & Heq & Hq) Hne]. injection Heq as <- <-.
    apply filter_In in Hq. destruct Hq as [Hq Hke].
    apply String.eqb_eq in Hke. auto.
  - intros (Hin & Hke & -> & Hne). split; [|assumption].
    exists p. split; [reflexivity|]. apply filter_In. split; [assumption|].
    now apply String.eqb_eq.
Qed.

(** C9 (amended): a Kenyan soil point gets the label of the first
    rectangle, in the order of the fixed list, that contains it, hence
    exactly one label; it gets "Unknown" exactly when no rectangle
    contains it, and then it is dropped before the county aggregation,
    whose rows never carry the county "Unknown". *)
Theorem soil_point_first_rectangle (soil_data : list SoilPoint) (p : SoilPoint) :
  In p soil_data ->
  Country p = "KE" ->
  let c := assign_county (sp_Latitude p) (sp_Longitude p) in
  c = first_match county_rectangles (sp_Latitude p) (sp_Longitude p)
  /\ (c = "Unknown"
      <-> forall r, In r county_rectangles ->
            contains r (sp_Latitude p) (sp_Longitude p) = false)
  /\ (c = "Unknown" -> forall c', ~ In (c', p) (labelled_soil_points soil_data))
  /\ (c <> "Unknown" -> In (c, p) (labelled_soil_points soil_data))
  /\ (forall df row,
        aggregate_soil_data_by_county (Some soil_data) = Some df ->
        In row (rows df) ->
        k_county (key row) <> "Unknown"
        /\ exists p', In p' soil_data /\ Country p' = "KE"
             /\ assign_county (sp_Latitude p') (sp_Longitude p')
                = k_county (key row)).
Proof.
  intros Hin Hke c. subst c. repeat split.
  - rewrite assign_county_first_match.
    apply first_match_unknown. exact county_rectangles_labels.
  - rewrite assign_county_first_match.
    apply first_match_unknown. exact county_rectangles_labels.
  - intros Hunknown c' Hlab.
    apply labelled_soil_points_spec in Hlab.
    destruct Hlab as (_ & _ & -> & Hne). contradiction.
  - intros Hne. apply labelled_soil_points_spec. auto.
  - injection H as <-. simpl in H0.
    apply monthly_soil_county, counties_of_incl in H0.
    destruct H0 as [p' Hp']. apply labelled_soil_points_spec in Hp'. tauto.
  - injection H as <-. simpl in H0.
    apply monthly_soil_county, counties_of_incl in H0.
    destruct H0 as [p' Hp']. apply labelled_soil_points_spec in Hp'.
    exists p'. destruct Hp' as (? & ? & ? & ?). auto.
Qed.

Lemma soil_point_first_rectangle_witness :
  assign_county (-4) 39.2 = "Mombasa"
  /\ In ("Mombasa", Scenarios.coast_point)
       (labelled_soil_points Scenarios.soil_points).
Proof.
  destruct (soil_point_first_rectangle Scenarios.soil_points
              Scenarios.coast_point) as (_ & _ & _ & Hkept & _).
  - simpl. left. reflexivity.
  - reflexivity.
  - split.
    + vm_compute. reflexivity.
    + apply Hkept. vm_compute. discriminate.
Defined.

(** The point outside every rectangle is labelled "Unknown" and dropped. *)
Example lake_point_discarded :
  assign_county 3.5 33.0 = "Unknown"
  /\ map fst (labelled_soil_points Scenarios.soil_points) = ["Mombasa"].
Proof. split; vm_compute; reflexivity. Qed.

(** C9, as stated, fails: the rectangles are not disjoint. The point at
    latitude -4 and longitude 39.2 lies in the rectangle of Mombasa and in
    the rectangle of Kwale. *)
Lemma rectangles_overlap_counterexample :
  ~ (forall lat lon r1 r2,
       In r1 county_rectangles -> In r2 county_rectangles ->
       contains r1 lat lon = true -> contains r2 lat lon = true ->
       rect_county r1 = rect_county r2).
Proof.
  intros Hclaim.
  specialize (Hclaim (-4) 39.2
                (mk_rect "Mombasa" (-4.5) (-3.5) 39.0 40.5)
                (mk_rect "Kwale" (-4.5) (-3.5) 38.0 39.5)).
  simpl in Hclaim.
  assert (Habs : "Mombasa" = "Kwale").
  { apply Hclaim.
    - left. reflexivity.
    - right. left. reflexivity.
    - vm_compute. reflexivity.
    - vm_compute. reflexivity. }
  discriminate Habs.
Qed.

(** ** Cells, look-ups and the outcome of [mapM] *)

Lemma key_eqb_eq (a b : Key) : key_eqb a b = true <-> a = b.
Proof.
  destruct a as [ca ya ma], b as [cb yb mb]. unfold key_eqb. simpl.
  rewrite !andb_true_iff, String.eqb_eq, !Z.eqb_eq. split.
  - intros [[-> ->] ->]. reflexivity.
  - intros H. injection H as -> -> ->. auto.
Qed.

Lemma lookup_app (name : string) (a b : list (string * Py.val)) :
  lookup name (a ++ b)
  = match lookup name a with
    | Some v => Some v
    | None => lookup name b
    end.
Proof.
  induction a as [|[c v] a IH]; simpl; [reflexivity|].
  destruct (String.eqb c name); [reflexivity|exact IH].
Qed.

Lemma lookup_upsert_same (name : string) (v : Py.val)
  (cs : list (string * Py.val)) :
  lookup name (upsert name v cs) = Some v.
Proof.
  induction cs as [|[c x] cs IH]; simpl.
  - now rewrite String.eqb_refl.
  - destruct (String.eqb c name) eqn:E; simpl; rewrite E; [reflexivity|exact IH].
Qed.

Lemma lookup_upsert_other (name name' : string) (v : Py.val)
  (cs : list (string * Py.val)) :
  name <> name' -> lookup name' (upsert name v cs) = lookup name' cs.
Proof.
  intros Hne. induction cs as [|[c x] cs IH]; simpl.
  - apply String.eqb_neq in Hne. now rewrite Hne.
  - destruct (String.eqb c name) eqn:E; simpl.
    + apply String.eqb_eq in E. subst c.
      apply String.eqb_neq in Hne. now rewrite Hne.
    + destruct (String.eqb c name'); [reflexivity|exact IH].
Qed.

Lemma mapM_forward {A B : Type} (f : A -> Py.result B) (xs : list A)
  (ys : list B) :
  Py.mapM f xs = inr ys ->
  forall x, In x xs -> exists y, In y ys /\ f x = inr y.
Proof.
  revert ys. induction xs as [|a xs IH]; intros ys Hm x Hin; [destruct Hin|].
  simpl in Hm. destruct (f a) as [e|y] eqn:Ea; [discriminate|]. simpl in Hm.
  destruct (Py.mapM f xs) as [e|ys'] eqn:Em; [discriminate|]. simpl in Hm.
  injection Hm as <-. destruct Hin as [<- | Hin].
  - exists y. split; [now left|assumption].
  - destruct (IH ys' eq_refl x Hin) as (y' & Hy' & Hf).
    exists y'. split; [now right|assumption].
Qed.

Lemma mapM_backward {A B : Type} (f : A -> Py.result B) (xs : list A)
  (ys : list B) :
  Py.mapM f xs = inr ys ->
  forall y, In y ys -> exists x, In x xs /\ f x = inr y.
Proof.
  revert ys. induction xs as [|a xs IH]; intros ys Hm y Hin.
  - injection Hm as <-. destruct Hin.
  - simpl in Hm. destruct (f a) as [e|y0] eqn:Ea; [discriminate|]. simpl in Hm.
    destruct (Py.mapM f xs) as [e|ys'] eqn:Em; [discriminate|]. simpl in Hm.
    injection Hm as <-. destruct Hin as [<- | Hin].
    + exists a. split; [now left|assumption].
    + destruct (IH ys' eq_refl y Hin) as (x & Hx & Hf).
      exists x. split; [now right|assumption].
Qed.

Lemma mapM_total {A B : Type} (f : A -> Py.result B) (xs : list A) :
  (forall x, In x xs -> exists y, f x = inr y) ->
  exists ys, Py.mapM f xs = inr ys.
Proof.
  induction xs as [|a xs IH]; intros Hall.
  - exists []. reflexivity.
  - destruct (Hall a (or_introl eq_refl)) as [y Hy].
    destruct IH as [ys Hys]; [intros x Hx; apply Hall; now right|].
    exists (y :: ys). simpl. rewrite Hy. simpl. rewrite Hys. reflexivity.
Qed.

(** ** [with_column] and the composite scores *)

Lemma has_column_app (c : string) (cols extra : list string) :
  existsb (String.eqb c) cols = true ->
  existsb (String.eqb c) (cols ++ extra) = true.
Proof. intros H. rewrite existsb_app, H. reflexivity. Qed.

Lemma with_column_inv (name needs : string)
  (expr : DataFrame -> Row -> Py.result Py.val) (df df' : DataFrame) :
  with_column name needs expr df = inr df' ->
  keyed df' = keyed df
  /\ (forall c, has_column c df = true -> has_column c df' = true)
  /\ (forall r, In r (rows df) ->
        exists v, expr df r = inr v /\ In (set_cell name v r) (rows df'))
  /\ (forall o, In o (rows df') ->
        exists r v, In r (rows df) /\ expr df r = inr v /\ o = set_cell name v r).
Proof.
  unfold with_column. destruct (has_column needs df); [|discriminate].
  destruct (Py.mapM _ (rows df)) as [e|rows'] eqn:Em; [discriminate|].
  simpl. intros H. injection H as <-. simpl. repeat split.
  - intros c Hc. unfold has_column in *. simpl.
    destruct (existsb (String.eqb name) (columns df)); [assumption|].
    now apply has_column_app.
  - intros r Hr. destruct (mapM_forward _ _ _ Em r Hr) as (o & Ho & Hf).
    destruct (expr df r) as [e|v]; [discriminate|].
    exists v. split; [reflexivity|]. simpl in Hf. injection Hf as <-. exact Ho.
  - intros o Ho. destruct (mapM_backward _ _ _ Em o Ho) as (r & Hr & Hf).
    destruct (expr df r) as [e|v] eqn:Ee; [discriminate|].
    exists r, v. simpl in Hf. injection Hf as <-. auto.
Qed.

Lemma with_column_total (name needs : string)
  (expr : DataFrame -> Row -> Py.result Py.val) (df : DataFrame) :
  has_column needs df = true ->
  (forall r, In r (rows df) -> exists v, expr df r = inr v) ->
  exists df', with_column name needs expr df = inr df'.
Proof.
  intros Hneeds Hall. unfold with_column. rewrite Hneeds.
  destruct (mapM_total
              (fun r => v <- expr df r ;; Py.ok (set_cell name v r))
              (rows df)) as [rows' Hrows].
  - intros r Hr. destruct (Hall r Hr) as [v Hv]. rewrite Hv.
    eexists. reflexivity.
  - rewrite Hrows. eexists. reflexivity.
Qed.

Lemma col_inr (name : string) (df : DataFrame) (r : Row) (v : Py.val) :
  col name df r = inr v <-> has_column name df = true /\ get name r = Some v.
Proof.
  unfold col. destruct (has_column name df).
  - destruct (get name r) as [x|]; split.
    + intros H. injection H as ->. auto.
    + intros [_ H]. injection H as ->. reflexivity.
    + discriminate.
    + intros [_ H]. discriminate.
  - split; [discriminate|]. intros [H _]. discriminate.
Qed.

Lemma col_ok (name : string) (df : DataFrame) (r : Row) (v : Py.val) :
  has_column name df = true -> get name r = Some v -> col name df r = inr v.
Proof. intros H1 H2. apply col_inr. auto. Qed.

(** What a computed water scarcity score says about the stress index. *)
Lemma water_scarcity_score_inv (df : DataFrame) (r : Row) (v1 : Py.val) :
  water_scarcity_score df r = inr v1 ->
  (get "Monthly_Water_Stress_Index" r = Some Py.PNone /\ v1 = Py.PNum 50)
  \/ (exists x, get "Monthly_Water_Stress_Index" r = Some (Py.PNum x)
                /\ v1 = Py.PNum (x * 100)).
Proof.
  unfold water_scarcity_score.
  destruct (col "Monthly_Water_Stress_Index" df r) as [e|v] eqn:Ec;
    [discriminate|].
  apply col_inr in Ec. destruct Ec as [_ Hget]. simpl.
  destruct v as [|x|t]; intros H; try discriminate; injection H as <-.
  - left. auto.
  - right. exists x. auto.
Qed.

Lemma get_set_cell_other (name name' : string) (v : Py.val) (r : Row) :
  name <> name' -> get name' (set_cell name v r) = get name' r.
Proof. intros Hne. unfold get, set_cell. simpl. now apply lookup_upsert_other. Qed.

Lemma get_set_cell_same (name : string) (v : Py.val) (r : Row) :
  get name (set_cell name v r) = Some v.
Proof. unfold get, set_cell. simpl. apply lookup_upsert_same. Qed.

(** Every row of the scored frame is a joined row with its three scores
    set, the first of them being its water scarcity score. *)
Lemma calculate_composite_metrics_inv (df master : DataFrame) :
  calculate_composite_metrics df = inr master ->
  keyed master = keyed df
  /\ forall o, In o (rows master) ->
       exists j v1 v2 v3,
         In j (rows df) /\ water_scarcity_score df j = inr v1
         /\ key o = key j /\ cells o = with_scores v1 v2 v3 (cells j).
Proof.
  unfold calculate_composite_metrics.
  destruct (with_column "Water_Scarcity_Score" _ _ df) as [e|df1] eqn:E1;
    [discriminate|].
  simpl.
  destruct (with_column "Agricultural_Risk_Index" _ _ df1) as [e|df2] eqn:E2;
    [discriminate|].
  simpl. intros E3.
  apply with_column_inv in E1. destruct E1 as (K1 & _ & _ & B1).
  apply with_column_inv in E2. destruct E2 as (K2 & _ & _ & B2).
  apply with_column_inv in E3. destruct E3 as (K3 & _ & _ & B3).
  split; [congruence|].
  intros o Ho.
  destruct (B3 o Ho) as (r2 & v3 & Hr2 & _ & ->).
  destruct (B2 r2 Hr2) as (r1 & v2 & Hr1 & _ & ->).
  destruct (B1 r1 Hr1) as (j & v1 & Hj & Hv1 & ->).
  exists j, v1, v2, v3. auto.
Qed.

(** The scores are computed, without an exception, on a frame that has
    the three input columns with cells of the right kind. *)
Lemma calculate_composite_metrics_total (df : DataFrame) :
  has_column "Monthly_Water_Stress_Index" df = true ->
  has_column "Monthly_Crop_Yield_Impact_Percent" df = true ->
  has_column "Monthly_Irrigation_Needed_Real" df = true ->
  (forall j, In j (rows df) -> scores_computable j) ->
  exists master,
    calculate_composite_metrics df = inr master
    /\ forall j, In j (rows df) ->
         exists o v1 v2 v3,
           In o (rows master) /\ key o = key j
           /\ cells o = with_scores v1 v2 v3 (cells j).
Proof.
  intros C1 C2 C3 Hrows. unfold calculate_composite_metrics.
  destruct (with_column_total "Water_Scarcity_Score"
              "Monthly_Water_Stress_Index" water_scarcity_score df C1)
    as [df1 E1].
  { intros j Hj. destruct (Hrows j Hj) as (a & b & c & Ha & Ka & _).
    unfold water_scarcity_score. rewrite (col_ok _ _ _ _ C1 Ha). simpl.
    destruct a; try discriminate; eexists; reflexivity. }
  rewrite E1. simpl.
  apply with_column_inv in E1. destruct E1 as (_ & P1 & F1 & B1).
  destruct (with_column_total "Agricultural_Risk_Index"
              "Monthly_Crop_Yield_Impact_Percent" agricultural_risk_index df1
              (P1 _ C2)) as [df2 E2].
  { intros r1 Hr1. destruct (B1 r1 Hr1) as (j & v1 & Hj & _ & ->).
    destruct (Hrows j Hj) as (a & b & c & _ & _ & Hb & Kb & _).
    unfold agricultural_risk_index.
    rewrite (col_ok _ _ (set_cell "Water_Scarcity_Score" v1 j) b (P1 _ C2)).
    - simpl. destruct b; try discriminate; eexists; reflexivity.
    - rewrite get_set_cell_other; [assumption|discriminate]. }
  rewrite E2. simpl.
  apply with_column_inv in E2. destruct E2 as (_ & P2 & F2 & B2).
  destruct (with_column_total "Irrigation_Priority_Score"
              "Monthly_Irrigation_Needed_Real" irrigation_priority_score df2
              (P2 _ (P1 _ C3))) as [df3 E3].
  { intros r2 Hr2. destruct (B2 r2 Hr2) as (r1 & v2 & Hr1 & _ & ->).
    destruct (B1 r1 Hr1) as (j & v1 & Hj & _ & ->).
    destruct (Hrows j Hj) as (a & b & c & _ & _ & _ & _ & Hc & Kc).
    unfold irrigation_priority_score.
    rewrite (col_ok _ _ (set_cell "Agricultural_Risk_Index" v2
                           (set_cell "Water_Scarcity_Score" v1 j)) c
               (P2 _ (P1 _ C3))).
    - simpl. destruct c; try discriminate; eexists; reflexivity.
    - rewrite !get_set_cell_other; [assumption|discriminate|discriminate]. }
  exists df3. split; [exact E3|].
  apply with_column_inv in E3. destruct E3 as (_ & _ & F3 & _).
  intros j Hj.
  destruct (F1 j Hj) as (v1 & _ & H1).
  destruct (F2 _ H1) as (v2 & _ & H2).
  destruct (F3 _ H2) as (v3 & _ & H3).
  eexists _, v1, v2, v3. split; [exact H3|]. split; reflexivity.
Qed.

(** ** Left joins *)

Lemma all_null_null_cells (left_columns : list string) (suffix : string)
  (other : DataFrame) :
  all_null (null_cells left_columns suffix other).
Proof.
  unfold all_null, null_cells. apply Forall_forall. intros cv Hin.
  apply in_map_iff in Hin. destruct Hin as (c & <- & _). reflexivity.
Qed.

(** A left row always survives the join, with nulls when nothing matches. *)
Lemma join_row_forward (self other : DataFrame) (suffix : string) (l : Row) :
  exists o extra,
    In o (join_row self other suffix l)
    /\ key o = key l /\ cells o = cells l ++ extra
    /\ ((forall r, In r (rows other) -> key r <> key l) -> all_null extra).
Proof.
  unfold join_row. destruct (matches other l) as [|r0 ms] eqn:E.
  - eexists _, _. split; [left; reflexivity|]. simpl. repeat split.
    intros _. apply all_null_null_cells.
  - eexists _, _. split; [left; reflexivity|]. simpl. repeat split.
    intros Hnone. exfalso.
    assert (Hin : In r0 (matches other l)) by (rewrite E; now left).
    unfold matches in Hin. apply filter_In in Hin. destruct Hin as [Hin Hk].
    apply key_eqb_eq in Hk. exact (Hnone r0 Hin Hk).
Qed.

(** Every joined row stems from a left row, extended by the nulls or by
    the cells of a right row. *)
Lemma join_row_backward (self other : DataFrame) (suffix : string) (l o : Row) :
  In o (join_row self other suffix l) ->
  key o = key l
  /\ exists extra,
       cells o = cells l ++ extra
       /\ (extra = null_cells (columns self) suffix other
           \/ exists r, In r (rows other)
                /\ extra = joined_cells (columns self) suffix r).
Proof.
  unfold join_row. destruct (matches other l) as [|r0 ms] eqn:E.
  - intros [<- | []]. simpl. split; [reflexivity|].
    eexists. split; [reflexivity|]. now left.
  - intros Hin. apply in_map_iff in Hin. destruct Hin as (r & <- & Hr).
    simpl. split; [reflexivity|]. eexists. split; [reflexivity|].
    right. exists r. split; [|reflexivity].
    rewrite <- E in Hr. unfold matches in Hr. now apply filter_In in Hr.
Qed.

Lemma join_left_inv (self other : DataFrame) (suffix : string) (j : DataFrame) :
  join_left self other suffix = inr j ->
  keyed self = true /\ keyed other = true /\ keyed j = true
  /\ columns j = columns self ++ map (rename (columns self) suffix) (columns other)
  /\ rows j = flat_map (join_row self other suffix) (rows self).
Proof.
  unfold join_left. destruct (keyed self), (keyed other); try discriminate.
  simpl. intros H. injection H as <-. simpl. auto.
Qed.

Lemma join_optional_total (master_data : DataFrame) (source : option DataFrame)
  (suffix : string) :
  keyed master_data = true -> source_keyed source = true ->
  exists j, join_optional master_data source suffix = inr j.
Proof.
  intros Hk Hs. destruct source as [other|]; simpl in *.
  - unfold join_left. rewrite Hk, Hs. eexists. reflexivity.
  - eexists. reflexivity.
Qed.

Lemma join_optional_inv (master_data : DataFrame) (source : option DataFrame)
  (suffix : string) (j : DataFrame) :
  join_optional master_data source suffix = inr j ->
  (keyed master_data = true -> keyed j = true)
  /\ (forall c, has_column c master_data = true -> has_column c j = true)
  /\ (forall l, In l (rows master_data) ->
        exists o extra,
          In o (rows j) /\ key o = key l /\ cells o = cells l ++ extra
          /\ (unmatched source (key l) -> all_null extra))
  /\ (forall o, In o (rows j) ->
        exists l extra,
          In l (rows master_data) /\ key o = key l
          /\ cells o = cells l ++ extra).
Proof.
  destruct source as [other|]; simpl.
  - intros Hj. apply join_left_inv in Hj.
    destruct Hj as (_ & _ & Kj & Cj & Rj). repeat split.
    + auto.
    + intros c Hc. unfold has_column in *. rewrite Cj.
      now apply has_column_app.
    + intros l Hl.
      destruct (join_row_forward master_data other suffix l)
        as (o & extra & Ho & Hk & Hc & Hn).
      exists o, extra. repeat split; try assumption.
      rewrite Rj. apply in_flat_map. exists l. auto.
    + intros o Ho. rewrite Rj in Ho. apply in_flat_map in Ho.
      destruct Ho as (l & Hl & Ho).
      apply join_row_backward in Ho. destruct Ho as (Hk & extra & Hc & _).
      exists l, extra. auto.
  - intros H. injection H as <-. repeat split.
    + auto.
    + auto.
    + intros l Hl. exists l, []. rewrite app_nil_r. repeat split.
      * assumption.
      * intros _. constructor.
    + intros o Ho. exists o, []. rewrite app_nil_r. auto.
Qed.

(** ** The four joins of [create_master_dataset] *)

Lemma join_sources_total (w d : DataFrame) (m s r : option DataFrame) :
  keyed w = true -> keyed d = true ->
  source_keyed m = true -> source_keyed s = true -> source_keyed r = true ->
  exists j, join_sources w d m s r = inr j.
Proof.
  intros Kw Kd Km Ks Kr. unfold join_sources.
  destruct (join_optional_total w (Some d) "_dashboard" Kw Kd) as [j1 E1].
  simpl in E1. rewrite E1. simpl.
  pose proof (join_optional_inv w (Some d) _ _ E1) as (K1 & _).
  destruct (join_optional_total j1 m "_maize" (K1 Kw) Km) as [j2 E2].
  rewrite E2. simpl.
  pose proof (join_optional_inv _ _ _ _ E2) as (K2 & _).
  destruct (join_optional_total j2 s "_soil" (K2 (K1 Kw)) Ks) as [j3 E3].
  rewrite E3. simpl.
  pose proof (join_optional_inv _ _ _ _ E3) as (K3 & _).
  exact (join_optional_total j3 r "_rainfall" (K3 (K2 (K1 Kw))) Kr).
Qed.

(** The joined frame keeps every base row, extended by the cells of the
    four sources in turn. *)
Lemma join_sources_forward (w d : DataFrame) (m s r : option DataFrame)
  (j : DataFrame) (b : Row) :
  join_sources w d m s r = inr j ->
  In b (rows w) ->
  exists o dc mc sc rc,
    In o (rows j) /\ key o = key b
    /\ cells o = cells b ++ dc ++ mc ++ sc ++ rc
    /\ (unmatched (Some d) (key b) -> all_null dc)
    /\ (unmatched m (key b) -> all_null mc)
    /\ (unmatched s (key b) -> all_null sc)
    /\ (unmatched r (key b) -> all_null rc).
Proof.
  unfold join_sources. intros Hj Hb.
  destruct (join_left w d "_dashboard") as [e|j1] eqn:E1; [discriminate|].
  simpl in Hj.
  destruct (join_optional j1 m "_maize") as [e|j2] eqn:E2; [discriminate|].
  simpl in Hj.
  destruct (join_optional j2 s "_soil") as [e|j3] eqn:E3; [discriminate|].
  simpl in Hj.
  pose proof (join_optional_inv w (Some d) _ _ E1) as (_ & _ & F1 & _).
  pose proof (join_optional_inv _ _ _ _ E2) as (_ & _ & F2 & _).
  pose proof (join_optional_inv _ _ _ _ E3) as (_ & _ & F3 & _).
  pose proof (join_optional_inv _ _ _ _ Hj) as (_ & _ & F4 & _).
  destruct (F1 b Hb) as (o1 & dc & H1 & K1 & C1 & N1).
  destruct (F2 o1 H1) as (o2 & mc & H2 & K2 & C2 & N2).
  destruct (F3 o2 H2) as (o3 & sc & H3 & K3 & C3 & N3).
  destruct (F4 o3 H3) as (o4 & rc & H4 & K4 & C4 & N4).
  exists o4, dc, mc, sc, rc. repeat split.
  - exact H4.
  - congruence.
  - rewrite C4, C3, C2, C1, <- !app_assoc. reflexivity.
  - exact N1.
  - rewrite K1 in N2. exact N2.
  - rewrite K2, K1 in N3. exact N3.
  - rewrite K3, K2, K1 in N4. exact N4.
Qed.

(** Every joined row stems from a base row; its first extension is made
    of dashboard cells or of the dashboard's nulls. *)
Lemma join_sources_backward (w d : DataFrame) (m s r : option DataFrame)
  (j : DataFrame) (o : Row) :
  join_sources w d m s r = inr j ->
  In o (rows j) ->
  exists b dc rest,
    In b (rows w) /\ key o = key b /\ cells o = cells b ++ dc ++ rest
    /\ (dc = null_cells (columns w) "_dashboard" d
        \/ exists x, In x (rows d)
             /\ dc = joined_cells (columns w) "_dashboard" x).
Proof.
  unfold join_sources. intros Hj Ho.
  destruct (join_left w d "_dashboard") as [e|j1] eqn:E1; [discriminate|].
  simpl in Hj.
  destruct (join_optional j1 m "_maize") as [e|j2] eqn:E2; [discriminate|].
  simpl in Hj.
  destruct (join_optional j2 s "_soil") as [e|j3] eqn:E3; [discriminate|].
  simpl in Hj.
  apply join_left_inv in E1. destruct E1 as (_ & _ & _ & _ & R1).
  pose proof (join_optional_inv _ _ _ _ E2) as (_ & _ & _ & B2).
  pose proof (join_optional_inv _ _ _ _ E3) as (_ & _ & _ & B3).
  pose proof (join_optional_inv _ _ _ _ Hj) as (_ & _ & _ & B4).
  destruct (B4 o Ho) as (o3 & rc & H3 & K4 & C4).
  destruct (B3 o3 H3) as (o2 & sc & H2 & K3 & C3).
  destruct (B2 o2 H2) as (o1 & mc & H1 & K2 & C2).
  rewrite R1 in H1. apply in_flat_map in H1. destruct H1 as (b & Hb & H1).
  apply join_row_backward in H1. destruct H1 as (K1 & dc & C1 & Hdc).
  exists b, dc, (mc ++ sc ++ rc). repeat split.
  - exact Hb.
  - congruence.
  - rewrite C4, C3, C2, C1, <- !app_assoc. reflexivity.
  - exact Hdc.
Qed.

Lemma join_sources_columns (w d : DataFrame) (m s r : option DataFrame)
  (j : DataFrame) (c : string) :
  join_sources w d m s r = inr j ->
  existsb (String.eqb c)
    (columns w ++ map (rename (columns w) "_dashboard") (columns d)) = true ->
  keyed j = true /\ has_column c j = true.
Proof.
  unfold join_sources. intros Hj Hc.
  destruct (join_left w d "_dashboard") as [e|j1] eqn:E1; [discriminate|].
  simpl in Hj.
  destruct (join_optional j1 m "_maize") as [e|j2] eqn:E2; [discriminate|].
  simpl in Hj.
  destruct (join_optional j2 s "_soil") as [e|j3] eqn:E3; [discriminate|].
  simpl in Hj.
  apply join_left_inv in E1. destruct E1 as (_ & _ & K1 & C1 & _).
  pose proof (join_optional_inv _ _ _ _ E2) as (K2 & P2 & _).
  pose proof (join_optional_inv _ _ _ _ E3) as (K3 & P3 & _).
  pose proof (join_optional_inv _ _ _ _ Hj) as (K4 & P4 & _).
  split; [auto|].
  apply P4, P3, P2. unfold has_column. rewrite C1. exact Hc.
Qed.

(** ** The weather aggregate as join base *)

Lemma all_monthly_data_rows (weather_files : list WeatherFile) (b : Row) :
  In b (List.concat (all_monthly_data weather_files)) ->
  exists county df ym,
    In (county, Some df) weather_files /\ b = monthly_row county df ym.
Proof.
  induction weather_files as [|[county [df|]] files IH]; simpl.
  - intros [].
  - intros Hin. apply in_app_or in Hin. destruct Hin as [Hin | Hin].
    + unfold monthly_agg in Hin. apply in_map_iff in Hin.
      destruct Hin as (ym & <- & _). exists county, df, ym. auto.
    + destruct (IH Hin) as (c & f & ym & Hf & ->). exists c, f, ym. auto.
  - intros Hin. destruct (IH Hin) as (c & f & ym & Hf & ->).
    exists c, f, ym. auto.
Qed.

Lemma aggregate_weather_inv (weather_files : list WeatherFile) (w : DataFrame) :
  aggregate_weather_data_monthly weather_files = Some w ->
  keyed w = true /\ columns w = weather_columns
  /\ forall b, In b (rows w) ->
       exists county df ym,
         In (county, Some df) weather_files /\ b = monthly_row county df ym.
Proof.
  unfold aggregate_weather_data_monthly.
  destruct (all_monthly_data weather_files) as [|f fs] eqn:E; [discriminate|].
  intros H. injection H as <-. simpl. repeat split.
  intros b Hb. apply all_monthly_data_rows. rewrite E. exact Hb.
Qed.

Lemma monthly_row_stress (county : string)
  (df : list CollectOpenMeteo.HourlyRecord) (ym : Z * Z)
  (rest : list (string * Py.val)) :
  lookup "Monthly_Water_Stress_Index" (cells (monthly_row county df ym) ++ rest)
  = Some (col_mean (map CollectOpenMeteo.Water_Stress_Index
                      (filter (same_month ym) df))).
Proof. reflexivity. Qed.

Lemma monthly_row_impact (county : string)
  (df : list CollectOpenMeteo.HourlyRecord) (ym : Z * Z)
  (rest : list (string * Py.val)) :
  lookup "Monthly_Crop_Yield_Impact_Percent"
    (cells (monthly_row county df ym) ++ rest)
  = Some (col_mean (map CollectOpenMeteo.Crop_Yield_Impact_Percent
                      (filter (same_month ym) df))).
Proof. reflexivity. Qed.

Lemma monthly_row_no_flag (county : string)
  (df : list CollectOpenMeteo.HourlyRecord) (ym : Z * Z)
  (rest : list (string * Py.val)) :
  lookup "Monthly_Irrigation_Needed_Real"
    (cells (monthly_row county df ym) ++ rest)
  = lookup "Monthly_Irrigation_Needed_Real" rest.
Proof. reflexivity. Qed.

Lemma col_mean_numeric (vs : list Py.val) : numeric_or_null (col_mean vs) = true.
Proof. unfold col_mean. destruct (numbers vs); reflexivity. Qed.

(** The dashboard suffix never produces or hides the irrigation flag. *)
Lemma rename_flag (c : string) :
  rename weather_columns "_dashboard" c = "Monthly_Irrigation_Needed_Real"
  <-> c = "Monthly_Irrigation_Needed_Real".
Proof.
  unfold rename.
  destruct (existsb (String.eqb c) weather_columns) eqn:E; [|tauto].
  apply existsb_exists in E. destruct E as (x & Hx & Heq).
  apply String.eqb_eq in Heq. subst x. simpl in Hx.
  repeat (destruct Hx as [<- | Hx];
          [split; intros H; vm_compute in H; discriminate H|]).
  destruct Hx.
Qed.

Lemma lookup_joined_cells (name : string) (left_columns : list string)
  (suffix : string) (r : Row) :
  (forall c, rename left_columns suffix c = name <-> c = name) ->
  lookup name (joined_cells left_columns suffix r) = lookup name (cells r).
Proof.
  intros Hren. unfold joined_cells.
  induction (cells r) as [|[c v] cs IH]; simpl; [reflexivity|].
  destruct (String.eqb c name) eqn:E.
  - apply String.eqb_eq in E. apply (proj2 (Hren c)) in E. rewrite E.
    now rewrite String.eqb_refl.
  - destruct (String.eqb (rename left_columns suffix c) name) eqn:E'.
    + apply String.eqb_eq in E'. apply (proj1 (Hren c)) in E'.
      apply String.eqb_neq in E. exfalso. exact (E E').
    + exact IH.
Qed.

Lemma lookup_null_cells (name : string) (left_columns : list string)
  (suffix : string) (other : DataFrame) :
  (forall c, rename left_columns suffix c = name <-> c = name) ->
  has_column name other = true ->
  lookup name (null_cells left_columns suffix other) = Some Py.PNone.
Proof.
  intros Hren. unfold has_column, null_cells.
  induction (columns other) as [|c cs IH]; simpl; [discriminate|].
  destruct (String.eqb name c) eqn:E.
  - intros _. apply String.eqb_eq in E. subst c.
    rewrite (proj2 (Hren name) eq_refl). now rewrite String.eqb_refl.
  - simpl. intros Hcs.
    destruct (String.eqb (rename left_columns suffix c) name) eqn:E'.
    + reflexivity.
    + exact (IH Hcs).
Qed.

Lemma column_is_inv (p : Py.val -> bool) (name : string) (df : DataFrame) :
  column_is p name df = true ->
  has_column name df = true
  /\ forall r, In r (rows df) -> exists v, get name r = Some v /\ p v = true.
Proof.
  unfold column_is. rewrite andb_true_iff, forallb_forall.
  intros [Hc Hrows]. split; [exact Hc|].
  intros r Hr. specialize (Hrows r Hr).
  destruct (get name r) as [v|]; [|discriminate]. exists v. auto.
Qed.

(** Every row joined onto the weather aggregate admits the three scores
    as soon as the dashboard supplies a textual irrigation flag. *)
Lemma joined_rows_computable (weather_files : list WeatherFile)
  (w d : DataFrame) (m s r : option DataFrame) (j : DataFrame) :
  aggregate_weather_data_monthly weather_files = Some w ->
  column_is text_or_null "Monthly_Irrigation_Needed_Real" d = true ->
  join_sources w d m s r = inr j ->
  forall o, In o (rows j) -> scores_computable o.
Proof.
  intros Hw Hd Hj o Ho.
  apply aggregate_weather_inv in Hw. destruct Hw as (_ & Cw & Sw).
  apply column_is_inv in Hd. destruct Hd as (Hcol & Hcells).
  destruct (join_sources_backward _ _ _ _ _ _ _ Hj Ho)
    as (b & dc & rest & Hb & _ & Hc & Hdc).
  destruct (Sw b Hb) as (county & df & ym & _ & ->).
  rewrite Cw in Hdc. unfold scores_computable, get. rewrite Hc.
  rewrite monthly_row_stress, monthly_row_impact, monthly_row_no_flag.
  rewrite lookup_app.
  destruct Hdc as [-> | (x & Hx & ->)].
  - rewrite (lookup_null_cells _ _ _ _ rename_flag Hcol).
    eexists _, _, _. repeat split; try apply col_mean_numeric.
  - rewrite (lookup_joined_cells _ _ _ _ rename_flag).
    destruct (Hcells x Hx) as (v & Hv & Pv). unfold get in Hv. rewrite Hv.
    eexists _, _, _. repeat split; try apply col_mean_numeric. exact Pv.
Qed.

Lemma joined_columns_present (weather_files : list WeatherFile)
  (w d : DataFrame) (m s r : option DataFrame) (j : DataFrame) :
  aggregate_weather_data_monthly weather_files = Some w ->
  has_column "Monthly_Irrigation_Needed_Real" d = true ->
  join_sources w d m s r = inr j ->
  has_column "Monthly_Water_Stress_Index" j = true
  /\ has_column "Monthly_Crop_Yield_Impact_Percent" j = true
  /\ has_column "Monthly_Irrigation_Needed_Real" j = true.
Proof.
  intros Hw Hd Hj.
  apply aggregate_weather_inv in Hw. destruct Hw as (_ & Cw & _).
  repeat split.
  - apply (join_sources_columns _ _ _ _ _ _ _ Hj).
    rewrite Cw. apply has_column_app. reflexivity.
  - apply (join_sources_columns _ _ _ _ _ _ _ Hj).
    rewrite Cw. apply has_column_app. reflexivity.
  - apply (join_sources_columns _ _ _ _ _ _ _ Hj).
    rewrite Cw, existsb_app. apply orb_true_iff. right.
    apply existsb_exists. exists "Monthly_Irrigation_Needed_Real".
    split; [|reflexivity].
    unfold has_column in Hd. apply existsb_exists in Hd.
    destruct Hd as (x & Hx & Heq). apply String.eqb_eq in Heq. subst x.
    change "Monthly_Irrigation_Needed_Real"
      with (rename weather_columns "_dashboard" "Monthly_Irrigation_Needed_Real")
      at 1.
    now apply in_map.
Qed.

(** ** The master table *)

(** C7 (amended): on the monthly weather aggregate as base, with
    dashboard data that are present, not empty and carry a textual
    irrigation flag, and with every other present source having the key
    columns, the build returns a table in which each base row appears
    with its key: its cells are followed by the cells of the dashboard,
    maize, soil and rainfall sources, all null for a source without a row
    of that key, and the three composite scores are set. *)
Theorem master_join_keeps_base_rows (weather_files : list WeatherFile)
  (w d : DataFrame) (m s r : option DataFrame) (b : Row) :
  aggregate_weather_data_monthly weather_files = Some w ->
  is_empty d = false ->
  keyed d = true ->
  column_is text_or_null "Monthly_Irrigation_Needed_Real" d = true ->
  source_keyed m = true -> source_keyed s = true -> source_keyed r = true ->
  In b (rows w) ->
  exists master o dc mc sc rc v1 v2 v3,
    create_master_dataset (Some w) (Some d) m s r = inr (Some master)
    /\ In o (rows master) /\ key o = key b
    /\ cells o = with_scores v1 v2 v3 (cells b ++ dc ++ mc ++ sc ++ rc)
    /\ (unmatched (Some d) (key b) -> all_null dc)
    /\ (unmatched m (key b) -> all_null mc)
    /\ (unmatched s (key b) -> all_null sc)
    /\ (unmatched r (key b) -> all_null rc).
Proof.
  intros Hw Hd Kd Fd Km Ks Kr Hb.
  pose proof (aggregate_weather_inv _ _ Hw) as (Kw & _ & _).
  destruct (join_sources_total w d m s r Kw Kd Km Ks Kr) as [j Hj].
  pose proof (column_is_inv _ _ _ Fd) as (Hflag & _).
  destruct (joined_columns_present _ _ _ _ _ _ _ Hw Hflag Hj) as (C1 & C2 & C3).
  destruct (calculate_composite_metrics_total j C1 C2 C3
              (joined_rows_computable _ _ _ _ _ _ _ Hw Fd Hj))
    as (master & Hmaster & Hrows).
  destruct (join_sources_forward _ _ _ _ _ _ _ Hj Hb)
    as (o' & dc & mc & sc & rc & Ho' & Ko' & Co' & N1 & N2 & N3 & N4).
  destruct (Hrows o' Ho') as (o & v1 & v2 & v3 & Ho & Ko & Co).
  exists master, o, dc, mc, sc, rc, v1, v2, v3. repeat split; try assumption.
  - unfold create_master_dataset.
    assert (Ew : is_empty w = false)
      by (unfold is_empty; destruct (rows w); [destruct Hb|reflexivity]).
    rewrite Ew, Hd. simpl. rewrite Hj. simpl. rewrite Hmaster. reflexivity.
  - congruence.
  - congruence.
Qed.

Lemma master_join_keeps_base_rows_witness :
  exists master o dc mc sc rc v1 v2 v3,
    create_master_dataset (Some Scenarios.weather) (Some Scenarios.dashboard)
      Scenarios.maize Scenarios.soil None = inr (Some master)
    /\ In o (rows master) /\ key o = key Scenarios.base_row
    /\ cells o
       = with_scores v1 v2 v3 (cells Scenarios.base_row ++ dc ++ mc ++ sc ++ rc)
    /\ (unmatched (Some Scenarios.dashboard) (key Scenarios.base_row)
        -> all_null dc)
    /\ (unmatched Scenarios.maize (key Scenarios.base_row) -> all_null mc)
    /\ (unmatched Scenarios.soil (key Scenarios.base_row) -> all_null sc)
    /\ (unmatched None (key Scenarios.base_row) -> all_null rc).
Proof.
  apply (master_join_keeps_base_rows Scenarios.weather_files Scenarios.weather
           Scenarios.dashboard Scenarios.maize Scenarios.soil None
           Scenarios.base_row).
  - reflexivity.
  - reflexivity.
  - reflexivity.
  - reflexivity.
  - reflexivity.
  - reflexivity.
  - reflexivity.
  - left. reflexivity.
Defined.

(** The master table of the scenario: the base row with the nulls of the
    dashboard (no row for March), the maize cells of 2021, the nulls of
    the soil source (no soil point in Nakuru) and the scores. *)
Example master_of_scenario :
  match create_master_dataset (Some Scenarios.weather)
          (Some Scenarios.dashboard) Scenarios.maize Scenarios.soil None with
  | inr (Some master) =>
      map key (rows master) = [Scenarios.nakuru_march]
      /\ map (get "Monthly_Temperature_C_dashboard") (rows master)
         = [Some Py.PNone]
      /\ map (get "Maize_Production_Tons") (rows master)
         = [Some (Py.PNum 2100)]
      /\ map (get "Soil_Clay") (rows master) = [Some Py.PNone]
      /\ map (get "Irrigation_Priority_Score") (rows master)
         = [Some (Py.PNum 50)]
  | _ => False
  end.
Proof. vm_compute. repeat split; reflexivity. Qed.

(** C7, as stated, fails: with dashboard data that have no row the build
    returns no table at all, so the base row of the scenario is lost. *)
Lemma empty_dashboard_counterexample :
  ~ (forall b, In b (rows Scenarios.weather) ->
       exists master o,
         create_master_dataset (Some Scenarios.weather)
           (Some Scenarios.empty_dashboard) None None None
         = inr (Some master)
         /\ In o (rows master) /\ key o = key b).
Proof.
  intros Hclaim.
  destruct (Hclaim Scenarios.base_row) as (master & o & Hbuild & _).
  - left. reflexivity.
  - vm_compute in Hbuild. discriminate Hbuild.
Qed.

(** ** The water scarcity score *)

Lemma total_bounds (lo hi : Q) (qs : list Q) :
  (forall q, In q qs -> lo <= q /\ q <= hi) ->
  lo * inject_Z (Z.of_nat (List.length qs)) <= total qs
  /\ total qs <= hi * inject_Z (Z.of_nat (List.length qs)).
Proof.
  induction qs as [|q qs IH]; intros Hall.
  - simpl. change (inject_Z 0) with 0. lra.
  - destruct (Hall q (or_introl eq_refl)) as [Hlo Hhi].
    destruct IH as [IHlo IHhi]; [intros x Hx; apply Hall; now right|].
    change (List.length (q :: qs)) with (S (List.length qs)).
    rewrite Nat2Z.inj_succ. unfold Z.succ. rewrite inject_Z_plus.
    change (total (q :: qs)) with (q + total qs).
    set (n := inject_Z (Z.of_nat (List.length qs))) in *.
    change (inject_Z 1) with 1. lra.
Qed.

Lemma numbers_in (vs : list Py.val) (q : Q) :
  In q (numbers vs) -> In (Py.PNum q) vs.
Proof.
  induction vs as [|[|x|t] vs IH]; simpl; auto.
  intros [-> | Hin]; auto.
Qed.

(** The mean of a column whose values all lie in a range lies in it. *)
Lemma col_mean_bounds (lo hi : Q) (vs : list Py.val) (x : Q) :
  (forall q, In (Py.PNum q) vs -> lo <= q /\ q <= hi) ->
  col_mean vs = Py.PNum x ->
  lo <= x /\ x <= hi.
Proof.
  intros Hall. unfold col_mean.
  destruct (numbers vs) as [|q qs] eqn:E; [discriminate|].
  intros H. injection H as <-.
  assert (Hqs : forall y, In y (q :: qs) -> lo <= y /\ y <= hi).
  { intros y Hy. apply Hall, numbers_in. rewrite E. exact Hy. }
  destruct (total_bounds lo hi (q :: qs) Hqs) as [Hlo Hhi].
  assert (Hpos : 0 < inject_Z (Z.of_nat (List.length (q :: qs)))).
  { change 0 with (inject_Z 0). rewrite <- Zlt_Qlt. simpl. lia. }
  split.
  - apply Qle_shift_div_l; assumption.
  - apply Qle_shift_div_r; assumption.
Qed.

Lemma collected_files_inv
  (fromisoformat : string -> option CollectOpenMeteo.DateTime)
  (stations : list (string * Q * Q * list (option CollectOpenMeteo.Response)))
  (county : string) (df : list CollectOpenMeteo.HourlyRecord) :
  In (county, Some df) (collected_weather_files fromisoformat stations) ->
  exists lat lon responses,
    df = CollectOpenMeteo.collect_county_weather_data fromisoformat county
           lat lon responses.
Proof.
  unfold collected_weather_files. intros Hin. apply in_map_iff in Hin.
  destruct Hin as ([[[c lat] lon] responses] & Heq & _).
  destruct (CollectOpenMeteo.collect_county_weather_data fromisoformat c lat
              lon responses) as [|rec recs] eqn:E; [discriminate|].
  injection Heq as -> <-. exists lat, lon, responses. symmetry. exact E.
Qed.

(** The monthly stress index of a row aggregated from collected records
    lies between 0.73 and 0.86. *)
Lemma monthly_stress_bounds
  (fromisoformat : string -> option CollectOpenMeteo.DateTime)
  (county : string) (lat lon : Q)
  (responses : list (option CollectOpenMeteo.Response)) (ym : Z * Z) (x : Q) :
  col_mean (map CollectOpenMeteo.Water_Stress_Index
              (filter (same_month ym)
                 (CollectOpenMeteo.collect_county_weather_data fromisoformat
                    county lat lon responses))) = Py.PNum x ->
  0.73 <= x /\ x <= 0.86.
Proof.
  apply col_mean_bounds. intros q Hq.
  apply in_map_iff in Hq. destruct Hq as (rec & Hrec & Hin).
  apply filter_In in Hin. destruct Hin as [Hin _].
  destruct (CollectOpenMeteoFacts.collected_record_stress _ _ _ _ _ _ Hin)
    as [Hnull | (t & e & p & h & Hval)].
  - congruence.
  - rewrite Hval in Hrec. injection Hrec as <-.
    apply CollectOpenMeteoFacts.stress_index_clamped.
Qed.

Lemma get_with_scores_index (v1 v2 v3 : Py.val) (cs : list (string * Py.val)) :
  lookup "Monthly_Water_Stress_Index" (with_scores v1 v2 v3 cs)
  = lookup "Monthly_Water_Stress_Index" cs.
Proof.
  unfold with_scores.
  rewrite !lookup_upsert_other by discriminate. reflexivity.
Qed.

Lemma get_with_scores_score (v1 v2 v3 : Py.val) (cs : list (string * Py.val)) :
  lookup "Water_Scarcity_Score" (with_scores v1 v2 v3 cs) = Some v1.
Proof.
  unfold with_scores.
  rewrite !lookup_upsert_other by discriminate.
  apply lookup_upsert_same.
Qed.

(** C10 (amended): in a master table built on the weather aggregate of
    collected hourly records, a row whose monthly stress index is not
    null has the water scarcity score index x 100, which lies between 73
    and 86 up to the rounding of the monthly mean and of the product, for
    which an allowance of 0.000001 is made, and hence above the default
    of 50 that a row with a null index gets. *)
Theorem water_scarcity_score_range
  (fromisoformat : string -> option CollectOpenMeteo.DateTime)
  (stations : list (string * Q * Q * list (option CollectOpenMeteo.Response)))
  (w : DataFrame) (d m s r : option DataFrame) (master : DataFrame) (o : Row) :
  aggregate_weather_data_monthly (collected_weather_files fromisoformat stations)
  = Some w ->
  create_master_dataset (Some w) d m s r = inr (Some master) ->
  In o (rows master) ->
  (get "Monthly_Water_Stress_Index" o = Some Py.PNone
   /\ get "Water_Scarcity_Score" o = Some (Py.PNum 50))
  \/ (exists index,
        get "Monthly_Water_Stress_Index" o = Some (Py.PNum index)
        /\ get "Water_Scarcity_Score" o = Some (Py.PNum (index * 100))
        /\ 73 - 0.000001 <= index * 100 /\ index * 100 <= 86 + 0.000001
        /\ 50 < index * 100).
Proof.
  intros Hw Hbuild Ho.
  unfold create_master_dataset in Hbuild.
  destruct d as [d|]; [|discriminate].
  destruct (negb (is_empty w) && negb (is_empty d)); [|discriminate].
  destruct (join_sources w d m s r) as [e|j] eqn:Hj; [discriminate|].
  simpl in Hbuild.
  destruct (calculate_composite_metrics j) as [e|master'] eqn:Hm;
    [discriminate|].
  simpl in Hbuild. injection Hbuild as ->.
  apply calculate_composite_metrics_inv in Hm. destruct Hm as [_ Hm].
  destruct (Hm o Ho) as (o' & v1 & v2 & v3 & Ho' & Hv1 & _ & Hcells).
  unfold get. rewrite Hcells, get_with_scores_index, get_with_scores_score.
  destruct (water_scarcity_score_inv _ _ _ Hv1)
    as [[Hnull ->] | (x & Hx & ->)]; [left; auto|right].
  exists x. repeat split; try assumption.
  all: pose proof (aggregate_weather_inv _ _ Hw) as (_ & _ & Sw).
  all: destruct (join_sources_backward _ _ _ _ _ _ _ Hj Ho')
         as (b & dc & rest & Hb & _ & Hc & _).
  all: destruct (Sw b Hb) as (county & df & ym & Hf & ->).
  all: destruct (collected_files_inv _ _ _ _ Hf) as (lat & lon & resp & ->).
  all: unfold get in Hx; rewrite Hc, monthly_row_stress in Hx.
  all: injection Hx as Hx.
  all: destruct (monthly_stress_bounds _ _ _ _ _ _ _ Hx) as [Hlo Hhi]; lra.
Qed.

Lemma water_scarcity_score_range_witness :
  (get "Monthly_Water_Stress_Index" Scenarios.master_row = Some Py.PNone
   /\ get "Water_Scarcity_Score" Scenarios.master_row = Some (Py.PNum 50))
  \/ (exists index,
        get "Monthly_Water_Stress_Index" Scenarios.master_row
        = Some (Py.PNum index)
        /\ get "Water_Scarcity_Score" Scenarios.master_row
           = Some (Py.PNum (index * 100))
        /\ 73 - 0.000001 <= index * 100 /\ index * 100 <= 86 + 0.000001
        /\ 50 < index * 100).
Proof.
  apply (water_scarcity_score_range Scenarios.parse_any Scenarios.stations
           Scenarios.weather (Some Scenarios.dashboard) Scenarios.maize
           Scenarios.soil None Scenarios.master Scenarios.master_row).
  - reflexivity.
  - vm_compute. reflexivity.
  - left. vm_compute. reflexivity.
Defined.

(** In the scenario the three hourly indices 0.86, 0.86 and 0.73 average
    to 2.45 / 3, and the score is a hundred times that. *)
Example scenario_score :
  match get "Monthly_Water_Stress_Index" Scenarios.master_row,
        get "Water_Scarcity_Score" Scenarios.master_row with
  | Some (Py.PNum index), Some (Py.PNum score) =>
      index == 2.45 / 3 /\ score == 245 / 3
  | _, _ => False
  end.
Proof. vm_compute. split; reflexivity. Qed.

End IntegrateDatasetsFacts.

(** * Facts about the binary64 arithmetic of the score *)

Module Binary64Facts.
Import PrimFloat Binary64.
Local Open Scope float_scope.

(** C10, as stated, fails on binary64 floats: a month in which every
    hour is without rain has the hourly index 0.86 throughout, and the
    mean of its 720 or 744 values times 100 is above 86, whether the
    values are added from first to last or by halves. *)
Lemma dry_month_score_counterexample :
  ltb 86 (constant_month_score sum_left 24 3 0 70 720) = true
  /\ ltb 86 (constant_month_score (sum_pairwise 10) 24 3 0 70 720) = true
  /\ ltb 86 (constant_month_score sum_left 24 3 0 70 744) = true
  /\ ltb 86 (constant_month_score (sum_pairwise 10) 24 3 0 70 744) = true.
Proof. vm_compute. repeat split; reflexivity. Qed.

(** The hourly index of such an hour is the double of the literal 0.86,
    which is below the real number 0.86; the mean of 720 of them, added
    by halves, is the next double, and the score the double after 86. *)
#[warnings="-inexact-float"]
Example dry_month_values :
  calculate_water_stress_index 24 3 0 70 = 0x1.b851eb851eb85p-1
  /\ mean (sum_pairwise 10) (repeat 0x1.b851eb851eb85p-1 720)
     = 0x1.b851eb851eb86p-1
  /\ constant_month_score (sum_pairwise 10) 24 3 0 70 720
     = 0x1.5800000000001p+6.
Proof. vm_compute. repeat split; reflexivity. Qed.

End Binary64Facts.

(** * Facts about enhance_training_data.py *)

Module EnhanceTrainingDataFacts.
Import EnhanceTrainingData.

Lemma keep_spec (bounds : option (Q * Q)) (r : AnnualRecord) :
  keep bounds r = true
  <-> exists y lower_bound upper_bound,
        Maize_Yield_tonnes_ha r = Some y
        /\ bounds = Some (lower_bound, upper_bound)
        /\ domain_lower <= y /\ y <= domain_upper
        /\ lower_bound <= y /\ y <= upper_bound.
Proof.
  unfold keep. destruct (Maize_Yield_tonnes_ha r) as [y|].
  - destruct bounds as [[lo hi]|].
    + rewrite !andb_true_iff, !Qle_bool_iff. split.
      * intros [[[H1 H2] H3] H4]. exists y, lo, hi. auto 10.
      * intros (y' & lo' & hi' & Hy & Hb & H1 & H2 & H3 & H4).
        injection Hy as <-. injection Hb as <- <-. auto.
    + split; [discriminate|].
      intros (y' & lo' & hi' & _ & Hb & _). discriminate.
  - split; [discriminate|].
    intros (y' & lo' & hi' & Hy & _). discriminate.
Qed.

Lemma iqr_bounds_spec (annual : list AnnualRecord) (lower_bound upper_bound : Q) :
  iqr_bounds annual = Some (lower_bound, upper_bound)
  <-> exists q1 q3,
        quantile (map Maize_Yield_tonnes_ha annual) 0.25 = Some q1
        /\ quantile (map Maize_Yield_tonnes_ha annual) 0.75 = Some q3
        /\ lower_bound = q1 - 1.5 * (q3 - q1)
        /\ upper_bound = q3 + 1.5 * (q3 - q1).
Proof.
  unfold iqr_bounds.
  destruct (quantile (map Maize_Yield_tonnes_ha annual) 0.25) as [q1|].
  - destruct (quantile (map Maize_Yield_tonnes_ha annual) 0.75) as [q3|].
    + split.
      * intros H. injection H as <- <-. exists q1, q3. auto.
      * intros (a & b & Ha & Hb & -> & ->).
        injection Ha as <-. injection Hb as <-. reflexivity.
    + split; [discriminate|]. intros (a & b & _ & Hb & _). discriminate.
  - split; [discriminate|]. intros (a & b & Ha & _). discriminate.
Qed.

(** ** Insertion sort *)

Section SortFacts.

Variable A : Type.
Variable leb : A -> A -> bool.
Hypothesis leb_total : forall a b, leb a b = true \/ leb b a = true.

Lemma insert_perm (x : A) (l : list A) : Permutation (insert leb x l) (x :: l).
Proof.
  induction l as [|y l IH]; simpl; [reflexivity|].
  destruct (leb x y); [reflexivity|].
  rewrite IH. apply perm_swap.
Qed.

Lemma sort_perm (l : list A) : Permutation (sort leb l) l.
Proof.
  induction l as [|x l IH]; simpl; [reflexivity|].
  rewrite insert_perm. now apply perm_skip.
Qed.

Lemma insert_sorted (x : A) (l : list A) :
  Sorted (fun a b => leb a b = true) l ->
  Sorted (fun a b => leb a b = true) (insert leb x l).
Proof.
  induction l as [|y l IH]; intros Hs; simpl.
  - repeat constructor.
  - destruct (leb x y) eqn:E.
    + constructor; [exact Hs|]. now constructor.
    + apply Sorted_inv in Hs. destruct Hs as [Hs Hhd].
      constructor; [now apply IH|].
      assert (Hyx : leb y x = true)
        by (destruct (leb_total x y) as [H|H]; [congruence|exact H]).
      destruct l as [|z l]; simpl.
      * now constructor.
      * destruct (leb x z); constructor; [exact Hyx|].
        now inversion Hhd.
Qed.

Lemma sort_sorted (l : list A) : Sorted (fun a b => leb a b = true) (sort leb l).
Proof.
  induction l as [|x l IH]; simpl; [constructor|].
  now apply insert_sorted.
Qed.

End SortFacts.

(** ** The quartiles of the yield filter *)

Lemma Qle_bool_total (a b : Q) : Qle_bool a b = true \/ Qle_bool b a = true.
Proof.
  rewrite !Qle_bool_iff. destruct (Qlt_le_dec a b) as [H|H]; [left|right]; lra.
Qed.

Lemma sort_strongly_sorted (qs : list Q) :
  StronglySorted Qle (sort Qle_bool qs).
Proof.
  apply Sorted_StronglySorted; [intros x y z; apply Qle_trans|].
  pose proof (sort_sorted _ Qle_bool Qle_bool_total qs) as Hs.
  induction Hs as [|a l Hs IH Hhd]; constructor; [exact IH|].
  destruct Hhd as [|b l Hab]; constructor. now apply Qle_bool_iff.
Qed.

Lemma nth_sorted (s : list Q) (d : Q) :
  StronglySorted Qle s ->
  forall i j, (i <= j < List.length s)%nat -> nth i s d <= nth j s d.
Proof.
  induction 1 as [|a l Hs IH Hall]; intros i j Hij; simpl in Hij; [lia|].
  destruct i as [|i]; destruct j as [|j]; simpl; try lia.
  - lra.
  - rewrite Forall_forall in Hall. apply Hall, nth_In. lia.
  - apply IH. lia.
Qed.

(** The value that [quantile] interpolates at position [pos] of the
    sorted values. *)
Lemma interpolation_bounds (s : list Q) (first pos : Q) :
  StronglySorted Qle s ->
  0 <= pos -> pos <= inject_Z (Z.of_nat (List.length s)) - 1 ->
  let lo := Z.to_nat (Qfloor pos) in
  let frac := pos - inject_Z (Qfloor pos) in
  let a := nth lo s first in
  let b := nth (S lo) s a in
  (lo < List.length s)%nat /\ 0 <= frac /\ frac < 1 /\ a <= b
  /\ ((S lo < List.length s)%nat -> b = nth (S lo) s first).
Proof.
  intros Hs H0 Hn lo frac a b.
  assert (Hfl0 : (0 <= Qfloor pos)%Z)
    by (change 0%Z with (Qfloor 0); now apply Qfloor_resp_le).
  assert (Hfln : (Qfloor pos <= Z.of_nat (List.length s) - 1)%Z).
  { rewrite <- (Qfloor_Z (Z.of_nat (List.length s) - 1)).
    apply Qfloor_resp_le. unfold Z.sub. rewrite inject_Z_plus.
    change (inject_Z (- (1))) with (- (1)). lra. }
  assert (Hlo : (lo < List.length s)%nat) by (subst lo; lia).
  pose proof (Qfloor_le pos) as Hle. pose proof (Qlt_floor pos) as Hlt.
  rewrite inject_Z_plus in Hlt. change (inject_Z 1) with 1 in Hlt.
  assert (Hb : (S lo < List.length s)%nat -> b = nth (S lo) s first)
    by (intros Hin; subst b; now apply nth_indep).
  repeat split; try (subst frac; lra); try assumption.
  destruct (Nat.lt_ge_cases (S lo) (List.length s)) as [Hin | Hout].
  - rewrite (Hb Hin). subst a. apply nth_sorted; [exact Hs|lia].
  - subst b. rewrite nth_overflow by lia. lra.
Qed.

Lemma quantile_inv (xs : list (option Q)) (q v : Q) :
  quantile xs q = Some v ->
  exists first rest,
    sort Qle_bool (values xs) = first :: rest
    /\ let s := first :: rest in
       let pos := (count s - 1) * q in
       let lo := Z.to_nat (Qfloor pos) in
       v = nth lo s first
           + (nth (S lo) s (nth lo s first) - nth lo s first)
             * (pos - inject_Z (Qfloor pos)).
Proof.
  unfold quantile. destruct (sort Qle_bool (values xs)) as [|first rest];
    [discriminate|].
  intros H. injection H as <-. now exists first, rest.
Qed.

(** ** The yield filter *)

Lemma count_below_perm (x : Q) (l l' : list Q) :
  Permutation l l' -> count_below x l = count_below x l'.
Proof.
  unfold count_below. induction 1 as [|y l l' _ IH|y z l|l l' l'' _ IH1 _ IH2];
    simpl; try reflexivity; try congruence.
  - destruct (Py.Qltb y x); simpl; congruence.
  - destruct (Py.Qltb y x), (Py.Qltb z x); reflexivity.
Qed.

Lemma count_upto_perm (x : Q) (l l' : list Q) :
  Permutation l l' -> count_upto x l = count_upto x l'.
Proof.
  unfold count_upto. induction 1 as [|y l l' _ IH|y z l|l l' l'' _ IH1 _ IH2];
    simpl; try reflexivity; try congruence.
  - destruct (Qle_bool y x); simpl; congruence.
  - destruct (Qle_bool y x), (Qle_bool z x); reflexivity.
Qed.

Lemma count_below_sorted (s : list Q) :
  StronglySorted Qle s ->
  forall i a, nth_error s i = Some a -> (count_below a s <= i)%nat.
Proof.
  unfold count_below.
  induction 1 as [|h t Hs IH Hall]; intros i a Hi; [destruct i; discriminate|].
  rewrite Forall_forall in Hall. destruct i as [|i]; simpl in Hi |- *.
  - injection Hi as <-.
    assert (E : Py.Qltb h h = false) by (apply PyFacts.Qltb_ge; lra).
    rewrite E.
    assert (Hnone : filter (fun y => Py.Qltb y h) t = []).
    { clear -Hall. induction t as [|y t IH]; simpl; [reflexivity|].
      assert (Ey : Py.Qltb y h = false)
        by (apply PyFacts.Qltb_ge, Hall; now left).
      rewrite Ey. apply IH. intros z Hz. apply Hall. now right. }
    now rewrite Hnone.
  - specialize (IH i a Hi). destruct (Py.Qltb h a); simpl; lia.
Qed.

Lemma count_upto_sorted (s : list Q) :
  StronglySorted Qle s ->
  forall i a, nth_error s i = Some a -> (i < count_upto a s)%nat.
Proof.
  unfold count_upto.
  induction 1 as [|h t Hs IH Hall]; intros i a Hi; [destruct i; discriminate|].
  rewrite Forall_forall in Hall. destruct i as [|i]; simpl in Hi |- *.
  - injection Hi as <-.
    assert (E : Qle_bool h h = true) by (apply Qle_bool_iff; lra).
    rewrite E. simpl. lia.
  - specialize (IH i a Hi).
    assert (E : Qle_bool h a = true).
    { apply Qle_bool_iff, Hall. eapply nth_error_In. exact Hi. }
    rewrite E. simpl. lia.
Qed.

Lemma count_upto_below (a b : Q) (l : list Q) :
  a < b -> (count_upto a l <= count_below b l)%nat.
Proof.
  intros Hab. unfold count_upto, count_below.
  induction l as [|y l IH]; simpl; [lia|].
  destruct (Qle_bool y a) eqn:E.
  - apply Qle_bool_iff in E.
    assert (E' : Py.Qltb y b = true) by (apply PyFacts.Qltb_lt; lra).
    rewrite E'. simpl. lia.
  - destruct (Py.Qltb y b); simpl; lia.
Qed.

(** Two ascending arrangements of the same values agree position by
    position. *)
Lemma sorted_arrangements_agree (s s' : list Q) (i : nat) (a a' : Q) :
  StronglySorted Qle s -> StronglySorted Qle s' -> Permutation s s' ->
  nth_error s i = Some a -> nth_error s' i = Some a' -> a == a'.
Proof.
  intros Hs Hs' Hperm Ha Ha'.
  destruct (Q_dec a a') as [[Hlt | Hgt] | Heq]; [| |exact Heq]; exfalso.
  - pose proof (count_upto_sorted s Hs i a Ha).
    pose proof (count_below_sorted s' Hs' i a' Ha').
    pose proof (count_upto_below a a' s Hlt).
    rewrite (count_below_perm a' s s' Hperm) in *. lia.
  - pose proof (count_upto_sorted s' Hs' i a' Ha').
    pose proof (count_below_sorted s Hs i a Ha).
    pose proof (count_upto_below a' a s' Hgt).
    rewrite <- (count_below_perm a s s' Hperm) in *. lia.
Qed.

Lemma interpolates_unique (s s' : list Q) (q v v' : Q) :
  StronglySorted Qle s -> StronglySorted Qle s' -> Permutation s s' ->
  interpolates s q v -> interpolates s' q v' -> v == v'.
Proof.
  intros Hs Hs' Hperm (a & b & Ha & Hb & ->) (a' & b' & Ha' & Hb' & ->).
  rewrite <- (Permutation_length Hperm) in *.
  set (pos := (inject_Z (Z.of_nat (List.length s)) - 1) * q) in *.
  pose proof (sorted_arrangements_agree _ _ _ _ _ Hs Hs' Hperm Ha Ha') as Ea.
  assert (Eb : b == b').
  { destruct Hb as [Hb | [Hb ->]]; destruct Hb' as [Hb' | [Hb' ->]].
    - exact (sorted_arrangements_agree _ _ _ _ _ Hs Hs' Hperm Hb Hb').
    - apply nth_error_None in Hb'.
      assert (nth_error s (S (Z.to_nat (Qfloor pos))) <> None) by congruence.
      apply nth_error_Some in H.
      rewrite <- (Permutation_length Hperm) in Hb'. lia.
    - apply nth_error_None in Hb.
      assert (nth_error s' (S (Z.to_nat (Qfloor pos))) <> None) by congruence.
      apply nth_error_Some in H.
      rewrite <- (Permutation_length Hperm) in H. lia.
    - exact Ea. }
  now rewrite Ea, Eb.
Qed.

(** The quantile that the code computes is the quantile of the
    specification. *)
(** The values that [values] keeps are the yields that are present. *)
Lemma values_present (xs : list (option Q)) :
  map Some (values xs)
  = filter (fun y => match y with Some _ => true | None => false end) xs.
Proof.
  induction xs as [|[x|] xs IH]; simpl; [reflexivity| |exact IH].
  now rewrite IH.
Qed.

Lemma values_nonempty (xs : list (option Q)) :
  values xs <> [] <-> exists y, In (Some y) xs.
Proof.
  induction xs as [|[x|] xs IH]; simpl.
  - split; [congruence|]. intros (y & []).
  - split; [|discriminate]. intros _. exists x. now left.
  - rewrite IH. split.
    + intros (y & Hy). exists y. now right.
    + intros (y & [Hy | Hy]); [discriminate|]. now exists y.
Qed.

Lemma map_Some_inj (s t : list Q) : map Some s = map Some t -> s = t.
Proof.
  revert t. induction s as [|a s IH]; intros [|b t] H;
    try discriminate; [reflexivity|].
  simpl in H. injection H as -> H. f_equal. now apply IH.
Qed.

Lemma is_quantile_values (xs : list (option Q)) (q v : Q) :
  is_quantile xs q v
  <-> exists s,
        Permutation s (values xs) /\ StronglySorted Qle s
        /\ interpolates s q v.
Proof.
  unfold is_quantile. rewrite <- values_present. split.
  - intros (s & Hp & Hs & Hi). exists s. split; [|split; assumption].
    apply Permutation_map_inv in Hp. destruct Hp as (t & E & Hp).
    apply map_Some_inj in E. subst t. now apply Permutation_sym.
  - intros (s & Hp & Hs & Hi). exists s. split; [|split; assumption].
    now apply Permutation_map.
Qed.

Lemma quantile_is_quantile (xs : list (option Q)) (q v : Q) :
  0 <= q -> q <= 1 ->
  quantile xs q = Some v -> is_quantile xs q v.
Proof.
  intros H0 H1 Hv. apply is_quantile_values.
  apply quantile_inv in Hv. destruct Hv as (first & rest & Es & Hv).
  cbv zeta in Hv.
  exists (sort Qle_bool (values xs)).
  split; [apply sort_perm|]. split; [apply sort_strongly_sorted|].
  rewrite Es. set (s := first :: rest) in *.
  assert (Hn : 1 <= inject_Z (Z.of_nat (List.length s))).
  { change 1 with (inject_Z 1). rewrite <- Zle_Qle. subst s. simpl List.length. lia. }
  pose proof (sort_strongly_sorted (values xs)) as Hs. rewrite Es in Hs. fold s in Hs.
  unfold count in Hv.
  set (pos := (inject_Z (Z.of_nat (List.length s)) - 1) * q) in *.
  destruct (interpolation_bounds s first pos Hs) as (Hlo & _ & _ & _ & Hb);
    [subst pos; nra | subst pos; nra |].
  cbv zeta in Hlo, Hb.
  unfold interpolates. cbv zeta. fold pos.
  exists (nth (Z.to_nat (Qfloor pos)) s first),
    (nth (S (Z.to_nat (Qfloor pos))) s (nth (Z.to_nat (Qfloor pos)) s first)).
  split; [now apply nth_error_nth'|]. split; [|exact Hv].
  destruct (Nat.lt_ge_cases (S (Z.to_nat (Qfloor pos))) (List.length s))
    as [Hin | Hout].
  - left. now apply nth_error_nth'.
  - right. split; [now apply nth_error_None|]. now apply nth_overflow.
Qed.

Lemma is_quantile_unique (xs : list (option Q)) (q v v' : Q) :
  is_quantile xs q v -> is_quantile xs q v' -> v == v'.
Proof.
  intros H H'. apply is_quantile_values in H, H'.
  destruct H as (s & Hp & Hs & Hi). destruct H' as (s' & Hp' & Hs' & Hi').
  apply (interpolates_unique s s' q); try assumption.
  now rewrite Hp, Hp'.
Qed.

Lemma quantile_exists (xs : list (option Q)) (q : Q) :
  values xs <> [] -> exists v, quantile xs q = Some v.
Proof.
  intros Hne. unfold quantile.
  pose proof (sort_perm _ Qle_bool (values xs)) as Hp.
  destruct (sort Qle_bool (values xs)) as [|first rest].
  - apply Permutation_nil in Hp. congruence.
  - eexists. reflexivity.
Qed.

Lemma quantile_none (xs : list (option Q)) (q : Q) :
  values xs = [] -> quantile xs q = None.
Proof. intros E. unfold quantile. now rewrite E. Qed.

Lemma no_bounds_no_rows (annual : list AnnualRecord) :
  filter (keep None) annual = [].
Proof.
  induction annual as [|a l IH]; simpl; [reflexivity|].
  unfold keep at 1. destruct (Maize_Yield_tonnes_ha a); exact IH.
Qed.

(** C8: after the annual aggregation, with Q1 and Q3 the first and third
    quartiles of the annual yields, a row is kept exactly when its yield
    lies within the IQR bounds, from Q1 - 1.5 IQR to Q3 + 1.5 IQR, and
    within the domain band from 0.8 to 5.0; so a row with yield 0.8 that
    is within the IQR bounds is kept and a row with yield 0.79 is
    removed. The quartiles exist as soon as one row has a yield, they are
    determined by the yields, and the bounds that the filter uses are
    computed from them; without any yield no row is kept. *)
Theorem yield_filters_keep_exactly (sqrt : Q -> Q) (df : list MasterRecord)
  (r : AnnualRecord) :
  In r (annual_data sqrt df) ->
  let yields := map Maize_Yield_tonnes_ha (annual_data sqrt df) in
  ((exists y, In (Some y) yields) ->
   exists q1 q3,
     is_quantile yields 0.25 q1 /\ is_quantile yields 0.75 q3
     /\ iqr_bounds (annual_data sqrt df)
        = Some (q1 - 1.5 * (q3 - q1), q3 + 1.5 * (q3 - q1)))
  /\ ((forall y, ~ In (Some y) yields) -> cleaned_annual_data sqrt df = [])
  /\ (forall q1 q3,
        is_quantile yields 0.25 q1 -> is_quantile yields 0.75 q3 ->
        (In r (cleaned_annual_data sqrt df)
         <-> exists y,
               Maize_Yield_tonnes_ha r = Some y
               /\ q1 - 1.5 * (q3 - q1) <= y /\ y <= q3 + 1.5 * (q3 - q1)
               /\ 0.8 <= y /\ y <= 5.0)
        /\ (forall y,
              Maize_Yield_tonnes_ha r = Some y -> y == 0.8 ->
              q1 - 1.5 * (q3 - q1) <= y -> y <= q3 + 1.5 * (q3 - q1) ->
              In r (cleaned_annual_data sqrt df)))
  /\ (forall y,
        Maize_Yield_tonnes_ha r = Some y -> y == 0.79 ->
        ~ In r (cleaned_annual_data sqrt df)).
Proof.
  intros Hin yields.
  assert (Hkept : In r (cleaned_annual_data sqrt df)
                  <-> exists y lower_bound upper_bound,
                        Maize_Yield_tonnes_ha r = Some y
                        /\ iqr_bounds (annual_data sqrt df)
                           = Some (lower_bound, upper_bound)
                        /\ domain_lower <= y /\ y <= domain_upper
                        /\ lower_bound <= y /\ y <= upper_bound).
  { unfold cleaned_annual_data, clean_unrealistic_yields.
    rewrite filter_In, keep_spec. tauto. }
  unfold domain_lower, domain_upper in Hkept.
  split; [|split; [|split]].
  - intros Hne. apply values_nonempty in Hne.
    destruct (quantile_exists yields 0.25 Hne) as (q1 & E1).
    destruct (quantile_exists yields 0.75 Hne) as (q3 & E3).
    exists q1, q3.
    split; [apply quantile_is_quantile; [lra|lra|exact E1]|].
    split; [apply quantile_is_quantile; [lra|lra|exact E3]|].
    unfold iqr_bounds. fold yields. now rewrite E1, E3.
  - intros Hmissing.
    assert (Hnone : values yields = []).
    { destruct (values yields) as [|y ys] eqn:E; [reflexivity|].
      assert (Hne : values yields <> []) by (rewrite E; discriminate).
      apply values_nonempty in Hne. destruct Hne as (y' & Hy').
      now destruct (Hmissing y'). }
    unfold cleaned_annual_data, clean_unrealistic_yields.
    unfold iqr_bounds. fold yields. rewrite (quantile_none yields 0.25 Hnone).
    apply no_bounds_no_rows.
  - intros q1 q3 Hq1 Hq3.
    assert (Hiff : In r (cleaned_annual_data sqrt df)
                   <-> exists y,
                         Maize_Yield_tonnes_ha r = Some y
                         /\ q1 - 1.5 * (q3 - q1) <= y
                         /\ y <= q3 + 1.5 * (q3 - q1)
                         /\ 0.8 <= y /\ y <= 5.0).
    { assert (Hne : values yields <> []).
      { destruct (proj1 (is_quantile_values _ _ _) Hq1)
          as (s & Hp & _ & (a & _ & Ha & _)).
        intros E. rewrite E in Hp. apply Permutation_sym, Permutation_nil in Hp.
        rewrite Hp in Ha. destruct (Z.to_nat _); discriminate. }
      destruct (quantile_exists yields 0.25 Hne) as (c1 & E1).
      destruct (quantile_exists yields 0.75 Hne) as (c3 & E3).
      assert (Hc1 : q1 == c1).
      { apply (is_quantile_unique yields 0.25); [exact Hq1|].
        apply quantile_is_quantile; [lra|lra|exact E1]. }
      assert (Hc3 : q3 == c3).
      { apply (is_quantile_unique yields 0.75); [exact Hq3|].
        apply quantile_is_quantile; [lra|lra|exact E3]. }
      assert (Hb : iqr_bounds (annual_data sqrt df)
                   = Some (c1 - 1.5 * (c3 - c1), c3 + 1.5 * (c3 - c1)))
        by (unfold iqr_bounds; fold yields; now rewrite E1, E3).
      rewrite Hkept. split.
      - intros (y & lo & hi & Hy & Hlh & D1 & D2 & B1 & B2).
        rewrite Hb in Hlh. injection Hlh as <- <-.
        exists y. repeat split; try assumption; lra.
      - intros (y & Hy & B1 & B2 & D1 & D2).
        exists y, (c1 - 1.5 * (c3 - c1)), (c3 + 1.5 * (c3 - c1)).
        repeat split; try assumption; lra. }
    split; [exact Hiff|].
    intros y Hy Heq B1 B2. apply Hiff. exists y.
    repeat split; try assumption; lra.
  - intros y Hy Heq Hkeep. apply Hkept in Hkeep.
    destruct Hkeep as (y' & lo & hi & Hy' & _ & D1 & _).
    rewrite Hy in Hy'. injection Hy' as <-. lra.
Qed.

Lemma yield_filters_keep_exactly_witness :
  In Scenarios.nakuru_annual
    (cleaned_annual_data Scenarios.no_sqrt Scenarios.master_records)
  /\ ~ In Scenarios.kilifi_annual
         (cleaned_annual_data Scenarios.no_sqrt Scenarios.master_records).
Proof.
  split.
  - destruct (yield_filters_keep_exactly Scenarios.no_sqrt
                Scenarios.master_records Scenarios.nakuru_annual)
      as (Hquartiles & _ & Hkeep & _).
    + apply in_map. vm_compute. repeat (try (left; reflexivity); right).
    + destruct Hquartiles as (q1 & q3 & Hq1 & Hq3 & Hbounds);
        [apply values_nonempty; vm_compute; discriminate|].
      assert (Hscenario : exists lower_bound upper_bound,
                iqr_bounds (annual_data Scenarios.no_sqrt
                              Scenarios.master_records)
                = Some (lower_bound, upper_bound)
                /\ lower_bound <= 0.8 /\ 0.8 <= upper_bound).
      { eexists _, _. split; [vm_compute; reflexivity|].
        split; vm_compute; discriminate. }
      destruct Hscenario as (lower_bound & upper_bound & E & Hl & Hu).
      rewrite E in Hbounds. injection Hbounds as Hlower Hupper.
      destruct (Hkeep q1 q3 Hq1 Hq3) as [_ Hboundary].
      eapply Hboundary.
      * vm_compute. reflexivity.
      * vm_compute. reflexivity.
      * rewrite <- Hlower. lra.
      * rewrite <- Hupper. lra.
  - destruct (yield_filters_keep_exactly Scenarios.no_sqrt
                Scenarios.master_records Scenarios.kilifi_annual)
      as (_ & _ & _ & Hdrop).
    + apply in_map. vm_compute. repeat (try (left; reflexivity); right).
    + eapply Hdrop.
      * vm_compute. reflexivity.
      * vm_compute. reflexivity.
Defined.

(** In the scenario the quartiles of the six annual yields are 0.975 and
    2.375, which puts the IQR bounds at -1.125 and 4.475. *)
Example scenario_quartiles :
  exists q1 q3,
    is_quantile (map Maize_Yield_tonnes_ha Scenarios.annual_records) 0.25 q1
    /\ is_quantile (map Maize_Yield_tonnes_ha Scenarios.annual_records) 0.75 q3
    /\ q1 == 0.975 /\ q3 == 2.375
    /\ q1 - 1.5 * (q3 - q1) == -1.125 /\ q3 + 1.5 * (q3 - q1) == 4.475.
Proof.
  assert (H1 : exists q1,
            quantile (map Maize_Yield_tonnes_ha Scenarios.annual_records) 0.25
            = Some q1 /\ q1 == 0.975)
    by (eexists; split; vm_compute; reflexivity).
  assert (H3 : exists q3,
            quantile (map Maize_Yield_tonnes_ha Scenarios.annual_records) 0.75
            = Some q3 /\ q3 == 2.375)
    by (eexists; split; vm_compute; reflexivity).
  destruct H1 as (q1 & E1 & V1). destruct H3 as (q3 & E3 & V3).
  exists q1, q3.
  split; [apply quantile_is_quantile; [lra|lra|exact E1]|].
  split; [apply quantile_is_quantile; [lra|lra|exact E3]|].
  split; [exact V1|]. split; [exact V3|]. split; lra.
Qed.

(** In the scenario the quartiles of the six annual yields are 0.975 and
    2.375; Kilifi (0.79) falls below the domain band and Narok (4.9)
    above the upper IQR bound of 4.475, the other four rows are kept. *)
Example cleaned_scenario :
  map a_County (cleaned_annual_data Scenarios.no_sqrt Scenarios.master_records)
  = ["Bungoma"; "Kisii"; "Meru"; "Nakuru"]
  /\ match iqr_bounds Scenarios.annual_records with
     | Some (lower_bound, upper_bound) =>
         lower_bound == -1.125 /\ upper_bound == 4.475
     | None => False
     end.
Proof. vm_compute. repeat split; reflexivity. Qed.

End EnhanceTrainingDataFacts.

(** * Facts about maize_resilience_model.py *)

Module MaizeModelFacts.
Import MaizeModel.

(** Rounding to the nearest integer moves a number by at most one half. *)
Lemma round_half_even_near (x : Q) :
  x - (1 # 2) <= inject_Z (Py.round_half_even x)
  /\ inject_Z (Py.round_half_even x) <= x + (1 # 2).
Proof.
  unfold Py.round_half_even.
  pose proof (Qfloor_le x) as Hlo. pose proof (Qlt_floor x) as Hhi.
  rewrite inject_Z_plus in Hhi. change (inject_Z 1) with 1 in Hhi.
  destruct (Py.Qltb (x - inject_Z (Qfloor x)) (1 # 2)) eqn:E1.
  - apply PyFacts.Qltb_lt in E1. lra.
  - apply PyFacts.Qltb_ge in E1.
    destruct (Py.Qltb (1 # 2) (x - inject_Z (Qfloor x))) eqn:E2.
    + rewrite inject_Z_plus. change (inject_Z 1) with 1. lra.
    + apply PyFacts.Qltb_ge in E2. destruct (Z.even (Qfloor x)).
      * lra.
      * rewrite inject_Z_plus. change (inject_Z 1) with 1. lra.
Qed.

(** Rounding does not leave an interval with integer ends. *)
Lemma round_half_even_between (lo hi : Z) (x : Q) :
  inject_Z lo <= x -> x <= inject_Z hi ->
  (lo <= Py.round_half_even x <= hi)%Z.
Proof.
  intros Hlo Hhi.
  destruct (round_half_even_near x) as [Hn1 Hn2].
  assert (H1 : inject_Z lo - 1 < inject_Z (Py.round_half_even x)) by lra.
  assert (H2 : inject_Z (Py.round_half_even x) < inject_Z hi + 1) by lra.
  change 1 with (inject_Z 1) in H1, H2.
  unfold Qminus in H1. rewrite <- inject_Z_opp, <- inject_Z_plus in H1.
  rewrite <- inject_Z_plus in H2.
  rewrite <- Zlt_Qlt in H1, H2. lia.
Qed.

Lemma round1_near (x : Q) :
  x - 0.05 <= Py.round1 x /\ Py.round1 x <= x + 0.05.
Proof.
  unfold Py.round1. destruct (round_half_even_near (x * 10)) as [H1 H2].
  split.
  - apply Qle_shift_div_l; lra.
  - apply Qle_shift_div_r; lra.
Qed.

Lemma round1_between_0_100 (x : Q) :
  0 <= x -> x <= 100 -> 0 <= Py.round1 x /\ Py.round1 x <= 100.
Proof.
  intros H0 H100. unfold Py.round1.
  destruct (round_half_even_between 0 1000 (x * 10)) as [Hlo Hhi].
  - change (inject_Z 0) with 0. lra.
  - change (inject_Z 1000) with 1000. lra.
  - rewrite Zle_Qle in Hlo, Hhi.
    change (inject_Z 0) with 0 in Hlo. change (inject_Z 1000) with 1000 in Hhi.
    split.
    + apply Qle_shift_div_l; lra.
    + apply Qle_shift_div_r; lra.
Qed.

(** C1 (amended): a trained model whose estimator yields a prediction
    returns as resilience score the predicted yield divided by the
    benchmark 2.5 and multiplied by 100, clamped to [0, 100] and then
    rounded to one decimal; the score stays in [0, 100] and within 0.05
    of the clamped value. *)
Theorem resilience_score_rounded (self : MaizeResilienceModel)
  (rainfall soil_ph organic_carbon : Q) (county : option string)
  (predicted : Q) (names : list string) :
  is_trained self = true ->
  predict_yield self rainfall soil_ph organic_carbon county = inr predicted ->
  feature_names self = Some names ->
  let clamped := Py.max 0 (Py.min 100 (predicted / 2.5 * 100)) in
  exists p,
    predict_resilience_score self rainfall soil_ph organic_carbon county = inr p
    /\ resilience_score p = Py.round1 clamped
    /\ 0 <= resilience_score p /\ resilience_score p <= 100
    /\ clamped - 0.05 <= resilience_score p
    /\ resilience_score p <= clamped + 0.05.
Proof.
  intros Htrained Hyield Hnames clamped.
  unfold predict_resilience_score, zip_feature_importance.
  rewrite Htrained, Hyield, Hnames. simpl.
  eexists. split; [reflexivity|]. simpl.
  split; [reflexivity|].
  destruct (PyFacts.clamp_bounds 0 100 (predicted / 2.5 * 100)) as [H0 H100];
    [lra|].
  fold clamped in H0, H100.
  destruct (round1_between_0_100 clamped H0 H100).
  destruct (round1_near clamped). auto.
Qed.

Lemma resilience_score_rounded_witness :
  exists p,
    predict_resilience_score Scenarios.fitted_model 800 6.5 2.1 (Some "Nakuru")
    = inr p
    /\ resilience_score p
       = Py.round1 (Py.max 0 (Py.min 100 (1.234 / 2.5 * 100)))
    /\ 0 <= resilience_score p /\ resilience_score p <= 100
    /\ Py.max 0 (Py.min 100 (1.234 / 2.5 * 100)) - 0.05 <= resilience_score p
    /\ resilience_score p
       <= Py.max 0 (Py.min 100 (1.234 / 2.5 * 100)) + 0.05.
Proof.
  apply (resilience_score_rounded Scenarios.fitted_model 800 6.5 2.1
           (Some "Nakuru") 1.234
           ["Annual_Rainfall_mm"; "Soil_pH"; "Soil_Organic_Carbon";
            "County_Nakuru"]).
  - reflexivity.
  - reflexivity.
  - reflexivity.
Defined.

(** C1, as stated, fails: for a predicted yield of 1.234 t/ha the clamped
    value is 49.36, but the returned score is 49.4. *)
Lemma unrounded_score_counterexample :
  ~ (forall p,
       predict_resilience_score Scenarios.fitted_model 800 6.5 2.1
         (Some "Nakuru") = inr p ->
       resilience_score p == Py.max 0 (Py.min 100 (1.234 / 2.5 * 100))).
Proof.
  intros Hclaim.
  specialize (Hclaim _ eq_refl). vm_compute in Hclaim. discriminate Hclaim.
Qed.

Example score_of_scenario :
  match predict_resilience_score Scenarios.fitted_model 800 6.5 2.1
          (Some "Nakuru") with
  | inr p => resilience_score p == 49.4 /\ predicted_yield p == 1.23
  | inl _ => False
  end.
Proof. vm_compute. split; reflexivity. Qed.

End MaizeModelFacts.

(** * Facts about fastapi_app.py *)

Module FastApiFacts.
Import FastApi.

(** Whatever the [try] block of the single endpoint raises, the 503 of
    the model check included, leaves as a 500. *)
Lemma predict_resilience_error_status (app : App) (request : PredictionRequest)
  (processing_time : Q) (e : Py.exn) :
  predict_resilience_try app request = inl e ->
  status_code (fst (predict_resilience app request processing_time)) = 500%Z.
Proof. intros H. unfold predict_resilience. rewrite H. reflexivity. Qed.

Lemma batch_predict_error_status (app : App)
  (predictions : list PredictionRequest) (total_processing_time : Q)
  (e : Py.exn) :
  batch_predict_try app predictions = inl e ->
  status_code (fst (batch_predict app predictions total_processing_time))
  = 500%Z.
Proof. intros H. unfold batch_predict. rewrite H. reflexivity. Qed.

(** Without a trained model the check raises the 503 inside the [try]. *)
Lemma untrained_raises_503 (app : App) :
  match model app with
  | Some m => MaizeModel.is_trained m = false
  | None => True
  end ->
  require_trained_model app
  = inl (Py.HTTPException 503 "Model not trained. Please train the model first.").
Proof.
  unfold require_trained_model. destruct (model app) as [m|]; [|reflexivity].
  intros ->. reflexivity.
Qed.

(** C2: with a model that was never trained, and with no model at all,
    the single and the batch prediction endpoint both answer with status
    500 where the specification asks for 503. *)
Theorem untrained_model_answers_500 :
  status_code (fst (predict_resilience Scenarios.untrained_app
                      Scenarios.nakuru_request 0.01)) = 500%Z
  /\ status_code (fst (batch_predict Scenarios.untrained_app
                         [Scenarios.nakuru_request] 0.01)) = 500%Z
  /\ status_code (fst (predict_resilience Scenarios.no_model_app
                         Scenarios.nakuru_request 0.01)) = 500%Z
  /\ status_code (fst (batch_predict Scenarios.no_model_app
                         [Scenarios.nakuru_request] 0.01)) = 500%Z
  /\ status_code (require_trained_model Scenarios.untrained_app) = 503%Z.
Proof. repeat split; reflexivity. Qed.

(** The same holds for every application state without a trained model. *)
Lemma no_trained_model_answers_500 (app : App) (request : PredictionRequest)
  (predictions : list PredictionRequest) (t : Q) :
  match model app with
  | Some m => MaizeModel.is_trained m = false
  | None => True
  end ->
  status_code (fst (predict_resilience app request t)) = 500%Z
  /\ status_code (fst (batch_predict app predictions t)) = 500%Z.
Proof.
  intros H. apply untrained_raises_503 in H. split.
  - eapply predict_resilience_error_status.
    unfold predict_resilience_try. rewrite H. reflexivity.
  - eapply batch_predict_error_status.
    unfold batch_predict_try. rewrite H. reflexivity.
Qed.

End FastApiFacts.

(** * Further facts about collect_openmeteo_data.py *)

Module CollectOpenMeteoMore.
Import CollectOpenMeteo.

(** ** The four contributions *)

Lemma humidity_factor_nonneg (humidity : Q) : 0 <= humidity_factor humidity.
Proof. unfold humidity_factor. cmp_cases; lra. Qed.

Lemma temp_factor_mono (t1 t2 : Q) :
  t1 <= t2 -> temp_factor t1 <= temp_factor t2.
Proof.
  intros Hle. unfold temp_factor.
  destruct (Py.Qltb 25 t1) eqn:E1; destruct (Py.Qltb 25 t2) eqn:E2;
    try apply PyFacts.Qltb_lt in E1; try apply PyFacts.Qltb_ge in E1;
    try apply PyFacts.Qltb_lt in E2; try apply PyFacts.Qltb_ge in E2;
    minmax_cases; lra.
Qed.

Lemma evap_factor_mono (e1 e2 : Q) :
  e1 <= e2 -> evap_factor e1 <= evap_factor e2.
Proof.
  intros Hle. unfold evap_factor.
  destruct (Py.Qltb 5 e1) eqn:E1; destruct (Py.Qltb 5 e2) eqn:E2;
    try apply PyFacts.Qltb_lt in E1; try apply PyFacts.Qltb_ge in E1;
    try apply PyFacts.Qltb_lt in E2; try apply PyFacts.Qltb_ge in E2;
    minmax_cases; lra.
Qed.

Lemma rainfall_factor_anti (r1 r2 : Q) :
  r2 <= r1 -> rainfall_factor r1 <= rainfall_factor r2.
Proof.
  intros Hle. unfold rainfall_factor.
  destruct (Py.Qltb r1 50) eqn:E1; destruct (Py.Qltb r2 50) eqn:E2;
    try apply PyFacts.Qltb_lt in E1; try apply PyFacts.Qltb_ge in E1;
    try apply PyFacts.Qltb_lt in E2; try apply PyFacts.Qltb_ge in E2; lra.
Qed.

Lemma humidity_factor_anti (h1 h2 : Q) :
  h2 <= h1 -> humidity_factor h1 <= humidity_factor h2.
Proof.
  intros Hle. unfold humidity_factor.
  destruct (Py.Qltb h1 60) eqn:E1; destruct (Py.Qltb h2 60) eqn:E2;
    try apply PyFacts.Qltb_lt in E1; try apply PyFacts.Qltb_ge in E1;
    try apply PyFacts.Qltb_lt in E2; try apply PyFacts.Qltb_ge in E2; lra.
Qed.

Lemma clamp_mono (x y : Q) :
  x <= y -> Py.max 0.73 (Py.min 0.86 x) <= Py.max 0.73 (Py.min 0.86 y).
Proof. intros Hle. minmax_cases; lra. Qed.

(** X1: the index never falls when it gets hotter, when more water
    evaporates, when less rain falls or when the air gets drier. *)
Theorem water_stress_index_monotone (t1 t2 e1 e2 r1 r2 h1 h2 : Q) :
  t1 <= t2 -> e1 <= e2 -> r2 <= r1 -> h2 <= h1 ->
  calculate_water_stress_index t1 e1 r1 h1
  <= calculate_water_stress_index t2 e2 r2 h2.
Proof.
  intros Ht He Hr Hh.
  destruct (Qle_bool r2 0) eqn:Hdry2.
  - (* the drier record has no rain at all: it holds the maximum *)
    unfold calculate_water_stress_index at 2. rewrite Hdry2.
    apply CollectOpenMeteoFacts.stress_index_clamped.
  - apply PyFacts.Qle_bool_false in Hdry2.
    unfold calculate_water_stress_index.
    destruct (Qle_bool r1 0) eqn:Hdry1;
      [apply Qle_bool_iff in Hdry1; lra|].
    destruct (Qle_bool r2 0) eqn:Hdry2';
      [apply Qle_bool_iff in Hdry2'; lra|].
    apply clamp_mono. unfold base_stress.
    pose proof (temp_factor_mono _ _ Ht).
    pose proof (evap_factor_mono _ _ He).
    pose proof (rainfall_factor_anti _ _ Hr).
    pose proof (humidity_factor_anti _ _ Hh). lra.
Qed.

Lemma water_stress_index_monotone_witness :
  calculate_water_stress_index 20 2 80 80
  <= calculate_water_stress_index 27 6 45 55.
Proof.
  apply (water_stress_index_monotone 20 27 2 6 80 45 80 55); lra.
Defined.

(** ** The irrigation rule on top of the index *)

(** With less than 10 mm of rain the index is at its maximum. *)
Lemma little_rain_maximum (temp evap rainfall humidity : Q) :
  rainfall < 10 ->
  calculate_water_stress_index temp evap rainfall humidity = 0.86.
Proof.
  intros Hlow. unfold calculate_water_stress_index.
  destruct (Qle_bool rainfall 0) eqn:Hdry; [reflexivity|].
  apply PyFacts.Qle_bool_false in Hdry.
  pose proof (CollectOpenMeteoFacts.temp_factor_range temp).
  pose proof (CollectOpenMeteoFacts.evap_factor_range evap).
  pose proof (humidity_factor_nonneg humidity).
  assert (Hrain : 0.32 < rainfall_factor rainfall).
  { unfold rainfall_factor. cmp_cases; lra. }
  cbv zeta. unfold Py.min at 1.
  destruct (Py.Qltb _ 0.86) eqn:E.
  - apply PyFacts.Qltb_lt in E. unfold base_stress in E. lra.
  - reflexivity.
Qed.

(** X2: in an emitted record with all four inputs the irrigation columns
    depend on the precipitation alone. Below 10 mm the stress index is
    0.86 and the record asks for 4450 litres per hectare with a yield
    impact of 20; from 10 mm on it asks for none. The volumes 4300 and
    3800 of the irrigation rule are never emitted. *)
Theorem hourly_irrigation_decision (county : string) (lat lon : Q) (h : Hourly)
  (i : nat) (dt : DateTime) (temp evap precip hum : Q) :
  value_at (temperature_2m h) i = Some temp ->
  value_at (et0_fao_evapotranspiration h) i = Some evap ->
  value_at (precipitation h) i = Some precip ->
  value_at (relative_humidity_2m h) i = Some hum ->
  let r := hourly_record county lat lon h i dt in
  (precip < 10 ->
   Water_Stress_Index r = Py.PNum 0.86
   /\ Irrigation_Needed r = Py.PStr "Yes"
   /\ Irrigation_Volume_Liters_Ha r = Py.PNum 4450
   /\ Crop_Yield_Impact_Percent r = Py.PNum 20)
  /\ (10 <= precip ->
      Irrigation_Needed r = Py.PStr "No"
      /\ Irrigation_Volume_Liters_Ha r = Py.PNum 0
      /\ Crop_Yield_Impact_Percent r = Py.PNum 0).
Proof.
  intros Ht He Hp Hh r. subst r. unfold hourly_record.
  rewrite Ht, He, Hp, Hh. simpl. split.
  - intros Hlow. rewrite (little_rain_maximum temp evap precip hum Hlow).
    unfold calculate_irrigation_needs.
    apply PyFacts.Qltb_lt in Hlow. rewrite Hlow. simpl.
    repeat split; reflexivity.
  - intros Hwet. unfold calculate_irrigation_needs.
    apply PyFacts.Qltb_ge in Hwet. rewrite Hwet. simpl.
    repeat split; reflexivity.
Qed.

Lemma hourly_irrigation_decision_witness :
  Irrigation_Volume_Liters_Ha
    (hourly_record "Nakuru" (-0.3) 36.0667 Scenarios.three_hours 0
       Scenarios.noon) = Py.PNum 4450
  /\ Irrigation_Needed
       (hourly_record "Nakuru" (-0.3) 36.0667 Scenarios.three_hours 1
          Scenarios.noon) = Py.PStr "No".
Proof.
  split.
  - pose proof (hourly_irrigation_decision "Nakuru" (-0.3) 36.0667
                  Scenarios.three_hours 0 Scenarios.noon 35 8 0 50
                  eq_refl eq_refl eq_refl eq_refl) as [Hlow _].
    assert (Hrain : 0 < 10) by reflexivity.
    exact (proj1 (proj2 (proj2 (Hlow Hrain)))).
  - pose proof (hourly_irrigation_decision "Nakuru" (-0.3) 36.0667
                  Scenarios.three_hours 1 Scenarios.noon 25 4 20 70
                  eq_refl eq_refl eq_refl eq_refl) as [_ Hwet].
    assert (Hrain : 10 <= 20) by discriminate.
    exact (proj1 (Hwet Hrain)).
Defined.

(** X3: the heat-stress flag of an emitted record is 0 or 1, and it is 1
    exactly when the temperature is above 30 degrees and precipitation,
    evapotranspiration and humidity are all present: a hot hour with a
    missing stress input is not counted. *)
Theorem heat_stress_flag (county : string) (lat lon : Q) (h : Hourly) (i : nat)
  (dt : DateTime) :
  let r := hourly_record county lat lon h i dt in
  (Heat_Stress_Days r = Py.PNum 0 \/ Heat_Stress_Days r = Py.PNum 1)
  /\ (Heat_Stress_Days r = Py.PNum 1
      <-> exists temp evap precip hum,
            value_at (temperature_2m h) i = Some temp
            /\ value_at (et0_fao_evapotranspiration h) i = Some evap
            /\ value_at (precipitation h) i = Some precip
            /\ value_at (relative_humidity_2m h) i = Some hum
            /\ 30 < temp).
Proof.
  intros r. subst r. unfold hourly_record.
  destruct (value_at (temperature_2m h) i) as [t|];
    destruct (value_at (et0_fao_evapotranspiration h) i) as [e|];
    destruct (value_at (precipitation h) i) as [p|];
    destruct (value_at (relative_humidity_2m h) i) as [u|]; simpl;
    try (split; [now left|];
         split; [discriminate|];
         intros (t' & e' & p' & u' & H1 & H2 & H3 & H4 & _); discriminate).
  unfold calculate_heat_stress_days.
  destruct (Py.Qltb 30.0 t) eqn:E.
  - apply PyFacts.Qltb_lt in E. split; [now right|].
    split; [|reflexivity]. intros _. exists t, e, p, u. repeat split. lra.
  - apply PyFacts.Qltb_ge in E. split; [now left|].
    split; [discriminate|].
    intros (t' & e' & p' & u' & H1 & _ & _ & _ & Hhot).
    injection H1 as <-. lra.
Qed.

End CollectOpenMeteoMore.

(** * Further facts about integrate_all_datasets.py *)

Module IntegrateDatasetsMore.
Import IntegrateDatasets.
Import IntegrateDatasetsFacts.

(** ** The counties that [assign_county] can return *)

Ltac rectangle_bounds H :=
  repeat rewrite andb_true_iff in H; repeat rewrite Qle_bool_iff in H.

(** The rectangle of Nyeri lies within those of Embu and Nyandarua, which
    come earlier in the chain. *)
Lemma nyeri_covered (lat lon : Q) :
  Qle_bool (-0.8) lat && Qle_bool lat 0.2 && Qle_bool 36.5 lon
  && Qle_bool lon 37.5 = true ->
  Qle_bool (-0.8) lat && Qle_bool lat 0.2 && Qle_bool 37.0 lon
  && Qle_bool lon 38.0 = true
  \/ Qle_bool (-0.8) lat && Qle_bool lat 0.2 && Qle_bool 36.0 lon
     && Qle_bool lon 37.0 = true.
Proof.
  intros H. rectangle_bounds H. destruct H as [[[H1 H2] H3] H4].
  destruct (Qlt_le_dec lon 37.0) as [Hw | He].
  - right. repeat rewrite andb_true_iff. repeat rewrite Qle_bool_iff.
    repeat split; lra.
  - left. repeat rewrite andb_true_iff. repeat rewrite Qle_bool_iff.
    repeat split; lra.
Qed.

(** The rectangle of Kisii lies within those of Bomet and Homa Bay. *)
Lemma kisii_covered (lat lon : Q) :
  Qle_bool (-1.0) lat && Qle_bool lat 0.0 && Qle_bool 34.5 lon
  && Qle_bool lon 35.5 = true ->
  Qle_bool (-1.0) lat && Qle_bool lat 0.0 && Qle_bool 35.0 lon
  && Qle_bool lon 36.0 = true
  \/ Qle_bool (-1.0) lat && Qle_bool lat 0.0 && Qle_bool 34.0 lon
     && Qle_bool lon 35.0 = true.
Proof.
  intros H. rectangle_bounds H. destruct H as [[[H1 H2] H3] H4].
  destruct (Qlt_le_dec lon 35.0) as [Hw | He].
  - right. repeat rewrite andb_true_iff. repeat rewrite Qle_bool_iff.
    repeat split; lra.
  - left. repeat rewrite andb_true_iff. repeat rewrite Qle_bool_iff.
    repeat split; lra.
Qed.

Ltac in_labels :=
  vm_compute; repeat (first [left; reflexivity | right]).

(** Walks down the chain: a branch returns a label of the list, or its
    rectangle is covered by rectangles already excluded. *)
Ltac county_chain :=
  repeat (cbv match;
          lazymatch goal with
          | |- In (if ?c then _ else _) _ =>
              let E := fresh "E" in
              destruct c eqn:E;
              [ first
                  [ solve [in_labels]
                  | exfalso;
                    first [ destruct (nyeri_covered _ _ E); congruence
                          | destruct (kisii_covered _ _ E); congruence ] ]
              | ]
          end).

Lemma assign_county_labels (lat lon : Q) :
  In (assign_county lat lon) ("Unknown" :: assignable_counties).
Proof.
  unfold assign_county. county_chain. in_labels.
Qed.

Lemma sample_points_assigned :
  forall p, In p sample_points ->
    assign_county (snd (fst p)) (snd p) = fst (fst p).
Proof.
  assert (H : forallb (fun p => String.eqb (assign_county (snd (fst p)) (snd p))
                                  (fst (fst p))) sample_points = true)
    by (vm_compute; reflexivity).
  rewrite forallb_forall in H. intros p Hp. apply String.eqb_eq. auto.
Qed.

Lemma unassignable_not_labels (c : string) :
  In c unassignable_counties -> ~ In c ("Unknown" :: assignable_counties).
Proof.
  assert (H : forallb (fun c => negb (existsb (String.eqb c)
                                        ("Unknown" :: assignable_counties)))
                unassignable_counties = true) by (vm_compute; reflexivity).
  rewrite forallb_forall in H. intros Hc Hin. specialize (H c Hc).
  apply negb_true_iff in H.
  assert (Hex : existsb (String.eqb c) ("Unknown" :: assignable_counties) = true).
  { apply existsb_exists. exists c. split; [exact Hin|apply String.eqb_refl]. }
  congruence.
Qed.

(** X4: [assign_county] returns "Unknown" or one of 35 counties, each of
    which it does return at some point; the twelve other counties of its
    chain (Nyeri, Murang'a, Trans Nzoia, Elgeyo Marakwet, Laikipia,
    Vihiga, Bungoma, Busia, Siaya, Kisii, Nyamira and Nairobi) are never
    returned, their rectangles being covered by earlier ones. *)
Theorem assign_county_range :
  (forall lat lon, In (assign_county lat lon) ("Unknown" :: assignable_counties))
  /\ (forall c, In c assignable_counties ->
        exists lat lon, assign_county lat lon = c)
  /\ (forall c lat lon, In c unassignable_counties -> assign_county lat lon <> c)
  /\ List.length assignable_counties = 35%nat
  /\ List.length county_rectangles = 47%nat.
Proof.
  split; [exact assign_county_labels|]. split; [|split; [|split; reflexivity]].
  - intros c Hc. unfold assignable_counties in Hc. apply in_map_iff in Hc.
    destruct Hc as (p & <- & Hp).
    exists (snd (fst p)), (snd p). now apply sample_points_assigned.
  - intros c lat lon Hc Heq.
    apply (unassignable_not_labels c Hc). rewrite <- Heq.
    apply assign_county_labels.
Qed.

(** ** Lists without duplicates *)

Lemma map_flat_map {A B C : Type} (g : B -> C) (f : A -> list B) (l : list A) :
  map g (flat_map f l) = flat_map (fun a => map g (f a)) l.
Proof.
  induction l as [|a l IH]; simpl; [reflexivity|].
  now rewrite map_app, IH.
Qed.

Lemma NoDup_flat_map {A B : Type} (f : A -> list B) (l : list A) :
  NoDup l ->
  (forall a, In a l -> NoDup (f a)) ->
  (forall a b x, In a l -> In b l -> In x (f a) -> In x (f b) -> a = b) ->
  NoDup (flat_map f l).
Proof.
  induction l as [|a l IH]; intros Hl Hf Hdisj; simpl; [constructor|].
  inversion Hl as [|? ? Hnotin Hl']; subst.
  apply NoDup_app.
  - apply Hf. now left.
  - apply IH; [assumption| |].
    + intros b Hb. apply Hf. now right.
    + intros b c x Hb Hc. apply Hdisj; now right.
  - intros x Hxa Hxl. apply in_flat_map in Hxl. destruct Hxl as (b & Hb & Hxb).
    assert (a = b) by (apply (Hdisj a b x); [now left|now right|assumption..]).
    subst b. contradiction.
Qed.

Lemma NoDup_map_injective {A B : Type} (f : A -> B) (l : list A) (a b : A) :
  NoDup (map f l) -> In a l -> In b l -> f a = f b -> a = b.
Proof.
  induction l as [|x l IH]; intros Hnd Ha Hb Heq; [destruct Ha|].
  simpl in Hnd. inversion Hnd as [|? ? Hnotin Hnd']; subst.
  destruct Ha as [<- | Ha]; destruct Hb as [<- | Hb].
  - reflexivity.
  - exfalso. apply Hnotin. rewrite Heq. now apply in_map.
  - exfalso. apply Hnotin. rewrite <- Heq. now apply in_map.
  - now apply IH.
Qed.

Lemma NoDup_map_on {A B : Type} (f : A -> B) (l : list A) :
  NoDup l -> (forall a b, In a l -> In b l -> f a = f b -> a = b) ->
  NoDup (map f l).
Proof.
  induction l as [|x l IH]; intros Hnd Hinj; simpl; [constructor|].
  inversion Hnd as [|? ? Hnotin Hnd']; subst. constructor.
  - intros Hin. apply in_map_iff in Hin. destruct Hin as (y & Hy & Hyl).
    assert (y = x) by (apply Hinj; [now right|now left|assumption]).
    subst y. contradiction.
  - apply IH; [assumption|]. intros a b Ha Hb. apply Hinj; now right.
Qed.

(** ** The keys of the monthly weather aggregate *)

Lemma months_of_NoDup (df : list CollectOpenMeteo.HourlyRecord) :
  NoDup (months_of df).
Proof.
  induction df as [|r df IH]; simpl; constructor.
  - intros Hin. apply filter_In in Hin. destruct Hin as [_ Hne].
    simpl in Hne. rewrite !Z.eqb_refl in Hne. discriminate.
  - now apply NoDup_filter.
Qed.

Lemma months_of_complete (df : list CollectOpenMeteo.HourlyRecord)
  (rec : CollectOpenMeteo.HourlyRecord) :
  In rec df ->
  In (CollectOpenMeteo.Year rec, CollectOpenMeteo.Month rec) (months_of df).
Proof.
  induction df as [|r df IH]; [intros []|].
  intros [-> | Hin]; simpl; [now left|].
  specialize (IH Hin).
  destruct (Z.eqb (CollectOpenMeteo.Year rec) (CollectOpenMeteo.Year r)
            && Z.eqb (CollectOpenMeteo.Month rec) (CollectOpenMeteo.Month r))
    eqn:E.
  - apply andb_true_iff in E. destruct E as [Ey Em].
    apply Z.eqb_eq in Ey, Em. left. now rewrite Ey, Em.
  - right. apply filter_In. split; [assumption|]. simpl. now rewrite E.
Qed.

Lemma all_monthly_data_flat (weather_files : list WeatherFile) :
  List.concat (all_monthly_data weather_files)
  = flat_map (fun file => match snd file with
                          | Some df => monthly_agg (fst file) df
                          | None => []
                          end) weather_files.
Proof.
  induction weather_files as [|[county [df|]] files IH]; simpl;
    [reflexivity|now rewrite IH|exact IH].
Qed.

Lemma monthly_agg_keys (county : string)
  (df : list CollectOpenMeteo.HourlyRecord) :
  map key (monthly_agg county df)
  = map (fun ym => {| k_county := county; k_year := fst ym; k_month := snd ym |})
      (months_of df).
Proof. unfold monthly_agg. rewrite map_map. reflexivity. Qed.

(** X5: when the weather files belong to different counties, no two rows
    of the monthly aggregate share their (county, year, month) key, and
    every hourly record of every readable file is covered by the row of
    its county and month. *)
Theorem monthly_aggregate_keys (weather_files : list WeatherFile)
  (w : DataFrame) :
  NoDup (map fst weather_files) ->
  aggregate_weather_data_monthly weather_files = Some w ->
  NoDup (map key (rows w))
  /\ forall county df rec,
       In (county, Some df) weather_files -> In rec df ->
       has_key w {| k_county := county;
                    k_year := CollectOpenMeteo.Year rec;
                    k_month := CollectOpenMeteo.Month rec |}.
Proof.
  intros Hfiles Hw.
  assert (Hrows : rows w = List.concat (all_monthly_data weather_files)).
  { unfold aggregate_weather_data_monthly in Hw.
    destruct (all_monthly_data weather_files) as [|f fs]; [discriminate|].
    now injection Hw as <-. }
  unfold has_key. rewrite Hrows, all_monthly_data_flat. split.
  - rewrite map_flat_map. apply NoDup_flat_map.
    + exact (NoDup_map_inv _ _ Hfiles).
    + intros [county [df|]] _; simpl; [|constructor].
      rewrite monthly_agg_keys. apply NoDup_map_on; [apply months_of_NoDup|].
      intros [y m] [y' m'] _ _ Heq. simpl in Heq. now injection Heq as -> ->.
    + intros [c1 o1] [c2 o2] k H1 H2 Hk1 Hk2. simpl in Hk1, Hk2.
      apply (NoDup_map_injective fst weather_files); try assumption. simpl.
      destruct o1 as [d1|]; [|destruct Hk1]. destruct o2 as [d2|]; [|destruct Hk2].
      rewrite monthly_agg_keys in Hk1, Hk2.
      apply in_map_iff in Hk1, Hk2.
      destruct Hk1 as (ym1 & <- & _). destruct Hk2 as (ym2 & Heq & _).
      now injection Heq.
  - intros county df rec Hf Hrec.
    exists (monthly_row county df
              (CollectOpenMeteo.Year rec, CollectOpenMeteo.Month rec)).
    split; [|reflexivity].
    apply in_flat_map. exists (county, Some df). split; [exact Hf|]. simpl.
    unfold monthly_agg. apply in_map. now apply months_of_complete.
Qed.

Lemma monthly_aggregate_keys_witness :
  NoDup (map key (rows Scenarios.weather))
  /\ forall county df rec,
       In (county, Some df) Scenarios.weather_files -> In rec df ->
       has_key Scenarios.weather
         {| k_county := county;
            k_year := CollectOpenMeteo.Year rec;
            k_month := CollectOpenMeteo.Month rec |}.
Proof.
  apply (monthly_aggregate_keys Scenarios.weather_files Scenarios.weather).
  - vm_compute. repeat constructor. intros [].
  - reflexivity.
Defined.

(** ** Annual maize figures spread over the months *)

Lemma months_NoDup : NoDup months.
Proof.
  unfold months.
  repeat (constructor; [simpl; intros H; repeat destruct H as [H|H]; try discriminate; exact H|]).
  constructor.
Qed.

Lemma soil_years_NoDup : NoDup soil_years.
Proof.
  unfold soil_years.
  repeat (constructor; [simpl; intros H; repeat destruct H as [H|H]; try discriminate; exact H|]).
  constructor.
Qed.

(** X6: every annual maize row becomes twelve monthly rows, one per month
    1..12, each carrying the annual area, production and yield unchanged;
    nothing else is produced, and the monthly (county, year, month) keys
    are distinct when the (county, year) pairs of the file are. *)
Theorem maize_broadcast (maize_data : list MaizeRow) (df : DataFrame) :
  integrate_maize_data (Some maize_data) = Some df ->
  List.length (rows df) = (12 * List.length maize_data)%nat
  /\ (forall row month, In row maize_data -> In month months ->
        exists r, In r (rows df)
          /\ key r = {| k_county := mz_County row; k_year := mz_Year row;
                        k_month := month |}
          /\ get "Maize_Area_Ha" r = Some (Area_Ha row)
          /\ get "Maize_Production_Tons" r = Some (Production_Tons row)
          /\ get "Maize_Yield_tonnes_ha" r = Some (Yield_tonnes_ha row))
  /\ (forall r, In r (rows df) ->
        exists row, In row maize_data
          /\ k_county (key r) = mz_County row /\ k_year (key r) = mz_Year row
          /\ In (k_month (key r)) months
          /\ get "Maize_Yield_tonnes_ha" r = Some (Yield_tonnes_ha row))
  /\ (NoDup (map (fun row => (mz_County row, mz_Year row)) maize_data) ->
      keys_unique (Some df)).
Proof.
  intros Hdf. simpl in Hdf. injection Hdf as <-. cbn [rows keys_unique].
  unfold monthly_maize. repeat split.
  - rewrite (flat_map_constant_length (c := 12%nat)); [lia|].
    intros row _. now rewrite length_map.
  - intros row month Hrow Hmonth. eexists. split.
    + apply in_flat_map. exists row. split; [exact Hrow|].
      apply in_map. exact Hmonth.
    + repeat split.
  - intros r Hr. apply in_flat_map in Hr. destruct Hr as (row & Hrow & Hr).
    apply in_map_iff in Hr. destruct Hr as (month & <- & Hmonth).
    exists row. repeat split; assumption.
  - intros Hnd. rewrite map_flat_map. apply NoDup_flat_map.
    + exact (NoDup_map_inv _ _ Hnd).
    + intros row _. rewrite map_map.
      apply NoDup_map_on; [exact months_NoDup|].
      intros a b _ _ Heq. simpl in Heq. now injection Heq.
    + intros a b k Ha Hb Hka Hkb.
      apply (NoDup_map_injective _ maize_data a b Hnd Ha Hb).
      rewrite map_map in Hka, Hkb.
      apply in_map_iff in Hka, Hkb.
      destruct Hka as (ma & <- & _). destruct Hkb as (mb & Heq & _).
      simpl in Heq. injection Heq as Hc Hy _. now rewrite Hc, Hy.
Qed.

Lemma maize_broadcast_witness :
  exists df, Scenarios.maize = Some df /\ List.length (rows df) = 12%nat.
Proof.
  unfold Scenarios.maize.
  match goal with
  | |- exists df, integrate_maize_data (Some ?d) = _ /\ _ =>
      eexists; split;
      [reflexivity | exact (proj1 (maize_broadcast d _ eq_refl))]
  end.
Defined.

(** ** Soil means spread over years and months *)

Lemma counties_of_NoDup (pts : list (string * SoilPoint)) :
  NoDup (counties_of pts).
Proof.
  induction pts as [|[c p] pts IH]; simpl; constructor.
  - intros Hin. apply filter_In in Hin. destruct Hin as [_ Hne].
    rewrite String.eqb_refl in Hne. discriminate.
  - now apply NoDup_filter.
Qed.

Lemma counties_of_complete (pts : list (string * SoilPoint)) (c : string)
  (p : SoilPoint) :
  In (c, p) pts -> In c (counties_of pts).
Proof.
  induction pts as [|[c' p'] pts IH]; [intros []|].
  intros [Heq | Hin]; simpl.
  - injection Heq as -> _. now left.
  - destruct (String.eqb c c') eqn:E.
    + apply String.eqb_eq in E. now left.
    + right. apply filter_In. split; [now apply IH|]. now rewrite E.
Qed.

Lemma labelled_assignable (soil_data : list SoilPoint) (c : string) :
  In c (counties_of (labelled_soil_points soil_data)) ->
  In c assignable_counties.
Proof.
  intros Hc. apply counties_of_incl in Hc. destruct Hc as (p & Hp).
  apply labelled_soil_points_spec in Hp.
  destruct Hp as (_ & _ & Hlabel & Hknown).
  destruct (assign_county_labels (sp_Latitude p) (sp_Longitude p)) as [H|H].
  - congruence.
  - now rewrite Hlabel.
Qed.

Lemma monthly_soil_inv (pts : list (string * SoilPoint)) (r : Row) :
  In r (monthly_soil pts) ->
  In (k_county (key r)) (counties_of pts)
  /\ In (k_year (key r)) soil_years /\ In (k_month (key r)) months
  /\ cells r = county_soil_cells pts (k_county (key r)).
Proof.
  unfold monthly_soil. intros Hr.
  apply in_flat_map in Hr. destruct Hr as (county & Hcounty & Hr).
  apply in_flat_map in Hr. destruct Hr as (year & Hyear & Hr).
  apply in_map_iff in Hr. destruct Hr as (month & <- & Hmonth).
  repeat split; assumption.
Qed.

Lemma monthly_soil_keys (pts : list (string * SoilPoint)) :
  NoDup (map key (monthly_soil pts)).
Proof.
  unfold monthly_soil. rewrite map_flat_map. apply NoDup_flat_map.
  - apply counties_of_NoDup.
  - intros county _. rewrite map_flat_map. apply NoDup_flat_map.
    + exact soil_years_NoDup.
    + intros year _. rewrite map_map.
      apply NoDup_map_on; [exact months_NoDup|].
      intros a b _ _ Heq. simpl in Heq. now injection Heq.
    + intros a b k _ _ Hka Hkb. rewrite map_map in Hka, Hkb.
      apply in_map_iff in Hka, Hkb.
      destruct Hka as (ma & <- & _). destruct Hkb as (mb & Heq & _).
      simpl in Heq. now injection Heq.
  - intros a b k _ _ Hka Hkb. rewrite map_flat_map in Hka, Hkb.
    apply in_flat_map in Hka, Hkb.
    destruct Hka as (ya & _ & Hka). destruct Hkb as (yb & _ & Hkb).
    rewrite map_map in Hka, Hkb. apply in_map_iff in Hka, Hkb.
    destruct Hka as (ma & <- & _). destruct Hkb as (mb & Heq & _).
    simpl in Heq. now injection Heq.
Qed.

(** X7: the soil table holds, for every county that labels a Kenyan
    point, exactly one row per year 2019..2023 and month 1..12, all sixty
    with the same cells; its keys are distinct, its counties are among
    the 35 that the rectangle chain can return, so the 12 shadowed
    counties never get a soil row. *)
Theorem soil_broadcast (soil_data : list SoilPoint) (df : DataFrame) :
  aggregate_soil_data_by_county (Some soil_data) = Some df ->
  keys_unique (Some df)
  /\ List.length (rows df)
     = (List.length (counties_of (labelled_soil_points soil_data)) * 60)%nat
  /\ (forall r, In r (rows df) ->
        In (k_county (key r)) assignable_counties
        /\ ~ In (k_county (key r)) unassignable_counties
        /\ In (k_year (key r)) soil_years /\ In (k_month (key r)) months
        /\ exists p, In p soil_data /\ Country p = "KE"
             /\ assign_county (sp_Latitude p) (sp_Longitude p)
                = k_county (key r))
  /\ (forall r1 r2, In r1 (rows df) -> In r2 (rows df) ->
        k_county (key r1) = k_county (key r2) -> cells r1 = cells r2)
  /\ (forall p year month,
        In p soil_data -> Country p = "KE" ->
        assign_county (sp_Latitude p) (sp_Longitude p) <> "Unknown" ->
        In year soil_years -> In month months ->
        has_key df {| k_county := assign_county (sp_Latitude p) (sp_Longitude p);
                      k_year := year; k_month := month |}).
Proof.
  intros Hdf. simpl in Hdf. injection Hdf as <-.
  unfold has_key. cbn [rows keys_unique].
  split; [apply monthly_soil_keys|]. split; [|split; [|split]].
  - unfold monthly_soil. apply flat_map_constant_length.
    intros county _.
    rewrite (flat_map_constant_length (c := 12%nat)); [reflexivity|].
    intros year _. now rewrite length_map.
  - intros r Hr. apply monthly_soil_inv in Hr.
    destruct Hr as (Hc & Hy & Hm & _).
    pose proof (labelled_assignable _ _ Hc) as Ha.
    split; [exact Ha|]. split; [|split; [exact Hy|split; [exact Hm|]]].
    + intros Hun. apply unassignable_not_labels in Hun. apply Hun. now right.
    + apply counties_of_incl in Hc. destruct Hc as (p & Hp).
      apply labelled_soil_points_spec in Hp.
      destruct Hp as (Hin & Hke & Hlabel & _).
      exists p. repeat split; [assumption..|now symmetry].
  - intros r1 r2 H1 H2 Heq.
    apply monthly_soil_inv in H1, H2.
    destruct H1 as (_ & _ & _ & ->). destruct H2 as (_ & _ & _ & ->).
    now rewrite Heq.
  - intros p year month Hp Hke Hknown Hy Hm. eexists. split.
    + unfold monthly_soil. apply in_flat_map.
      exists (assign_county (sp_Latitude p) (sp_Longitude p)). split.
      * apply (counties_of_complete _ _ p).
        apply labelled_soil_points_spec. repeat split; assumption.
      * apply in_flat_map. exists year. split; [exact Hy|].
        apply in_map. exact Hm.
    + reflexivity.
Qed.

Lemma soil_broadcast_witness :
  exists df, Scenarios.soil = Some df /\ keys_unique (Some df).
Proof.
  unfold Scenarios.soil. eexists. split; [reflexivity|].
  exact (proj1 (soil_broadcast Scenarios.soil_points _ eq_refl)).
Defined.

(** ** Row counts of the joins *)

Lemma matches_unique (other : DataFrame) (l : Row) :
  NoDup (map key (rows other)) -> (List.length (matches other l) <= 1)%nat.
Proof.
  unfold matches. induction (rows other) as [|r rs IH]; intros Hnd; simpl;
    [lia|].
  inversion Hnd as [|? ? Hnotin Hnd']; subst.
  destruct (key_eqb (key r) (key l)) eqn:E; [|auto].
  apply key_eqb_eq in E. simpl.
  destruct (filter (fun r0 => key_eqb (key r0) (key l)) rs) as [|x xs] eqn:F;
    [simpl; lia|].
  exfalso. apply Hnotin.
  assert (Hx : In x (filter (fun r0 => key_eqb (key r0) (key l)) rs))
    by (rewrite F; now left).
  apply filter_In in Hx. destruct Hx as [Hx Hk]. apply key_eqb_eq in Hk.
  rewrite E, <- Hk. now apply in_map.
Qed.

Lemma join_row_keys (self other : DataFrame) (suffix : string) (l : Row) :
  map key (join_row self other suffix l)
  = repeat (key l) (Nat.max 1 (List.length (matches other l))).
Proof.
  unfold join_row. destruct (matches other l) as [|m ms]; [reflexivity|].
  change (Nat.max 1 (List.length (m :: ms))) with (S (List.length ms)).
  rewrite map_map. simpl. f_equal.
  induction ms as [|x xs IH]; simpl; [reflexivity|]. now rewrite IH.
Qed.

Lemma join_left_keys (self other j : DataFrame) (suffix : string) :
  join_left self other suffix = inr j ->
  (List.length (rows self) <= List.length (rows j))%nat
  /\ (NoDup (map key (rows other)) -> map key (rows j) = map key (rows self)).
Proof.
  intros Hj. apply join_left_inv in Hj. destruct Hj as (_ & _ & _ & _ & ->).
  split.
  - induction (rows self) as [|l ls IH]; simpl; [lia|].
    rewrite length_app, <- (length_map key (join_row self other suffix l)),
      join_row_keys, repeat_length. lia.
  - intros Hnd. induction (rows self) as [|l ls IH]; simpl; [reflexivity|].
    rewrite map_app, IH, join_row_keys. f_equal.
    pose proof (matches_unique other l Hnd).
    destruct (List.length (matches other l)) as [|[|n]]; simpl;
      [reflexivity..|lia].
Qed.

Lemma join_optional_keys (master_data j : DataFrame) (source : option DataFrame)
  (suffix : string) :
  join_optional master_data source suffix = inr j ->
  (List.length (rows master_data) <= List.length (rows j))%nat
  /\ (keys_unique source -> map key (rows j) = map key (rows master_data)).
Proof.
  destruct source as [other|]; simpl.
  - apply join_left_keys.
  - intros H. injection H as <-. split; [lia|reflexivity].
Qed.

Lemma mapM_keys {A B K : Type} (f : A -> Py.result B) (g : B -> K) (h : A -> K)
  (xs : list A) (ys : list B) :
  (forall x y, f x = inr y -> g y = h x) ->
  Py.mapM f xs = inr ys -> map g ys = map h xs.
Proof.
  intros Hf. revert ys. induction xs as [|x xs IH]; intros ys H; simpl in H.
  - injection H as <-. reflexivity.
  - unfold Py.bind in H. destruct (f x) as [e|y] eqn:E; [discriminate|].
    destruct (Py.mapM f xs) as [e|ys'] eqn:E'; [discriminate|].
    injection H as <-. simpl. now rewrite (Hf _ _ E), (IH _ eq_refl).
Qed.

Lemma with_column_keys (name needs : string)
  (expr : DataFrame -> Row -> Py.result Py.val) (df df' : DataFrame) :
  with_column name needs expr df = inr df' ->
  map key (rows df') = map key (rows df).
Proof.
  unfold with_column. destruct (has_column needs df); [|discriminate].
  unfold Py.bind.
  destruct (Py.mapM _ (rows df)) as [e|rows'] eqn:E; [discriminate|].
  intros H. injection H as <-. simpl.
  apply (mapM_keys _ key key _ _) in E; [exact E|].
  intros x y Hy. unfold Py.bind in Hy.
  destruct (expr df x); [discriminate|]. now injection Hy as <-.
Qed.

Lemma calculate_composite_metrics_keys (df master : DataFrame) :
  calculate_composite_metrics df = inr master ->
  map key (rows master) = map key (rows df).
Proof.
  unfold calculate_composite_metrics, Py.bind.
  destruct (with_column "Water_Scarcity_Score" _ _ df) as [e|d1] eqn:E1;
    [discriminate|].
  destruct (with_column "Agricultural_Risk_Index" _ _ d1) as [e|d2] eqn:E2;
    [discriminate|].
  intros E3.
  now rewrite (with_column_keys _ _ _ _ _ E3), (with_column_keys _ _ _ _ _ E2),
    (with_column_keys _ _ _ _ _ E1).
Qed.

Lemma join_sources_keys (w d : DataFrame) (m s r : option DataFrame)
  (j : DataFrame) :
  join_sources w d m s r = inr j ->
  (List.length (rows w) <= List.length (rows j))%nat
  /\ (keys_unique (Some d) -> keys_unique m -> keys_unique s ->
      keys_unique r -> map key (rows j) = map key (rows w)).
Proof.
  unfold join_sources, Py.bind.
  destruct (join_left w d "_dashboard") as [e|j1] eqn:E1; [discriminate|].
  destruct (join_optional j1 m "_maize") as [e|j2] eqn:E2; [discriminate|].
  destruct (join_optional j2 s "_soil") as [e|j3] eqn:E3; [discriminate|].
  intros E4.
  apply join_left_keys in E1. apply join_optional_keys in E2, E3, E4.
  destruct E1 as [L1 K1], E2 as [L2 K2], E3 as [L3 K3], E4 as [L4 K4].
  split; [lia|]. intros Hd Hm Hs Hr.
  now rewrite (K4 Hr), (K3 Hs), (K2 Hm), (K1 Hd).
Qed.

(** X8: the master table never has fewer rows than the monthly weather
    table it starts from, and it is not empty. When every joined source
    has at most one row per (county, year, month), the master table has
    exactly the keys of the weather table, one row each. *)
Theorem master_row_count (w d : DataFrame) (m s r : option DataFrame)
  (master : DataFrame) :
  create_master_dataset (Some w) (Some d) m s r = inr (Some master) ->
  (0 < List.length (rows w) <= List.length (rows master))%nat
  /\ (keys_unique (Some d) -> keys_unique m -> keys_unique s ->
      keys_unique r ->
      Permutation (map key (rows master)) (map key (rows w))
      /\ List.length (rows master) = List.length (rows w)
      /\ (keys_unique (Some w) -> keys_unique (Some master))).
Proof.
  unfold create_master_dataset, is_empty.
  destruct (rows w) as [|b bs] eqn:Ew; [discriminate|].
  destruct (rows d) as [|x xs] eqn:Ed; [discriminate|].
  simpl negb. simpl andb. cbv iota. unfold Py.bind.
  destruct (join_sources w d m s r) as [e|j] eqn:Ej; [discriminate|].
  destruct (calculate_composite_metrics j) as [e|o] eqn:Eo; [discriminate|].
  intros H. injection H as <-.
  apply join_sources_keys in Ej. apply calculate_composite_metrics_keys in Eo.
  destruct Ej as [Hlen Hkeys]. rewrite Ew in Hlen, Hkeys.
  assert (Hsame : List.length (rows o) = List.length (rows j))
    by (rewrite <- (length_map key (rows o)), Eo; apply length_map).
  split; [simpl in Hlen |- *; lia|].
  intros Hd Hm Hs Hr. specialize (Hkeys Hd Hm Hs Hr).
  assert (Hall : map key (rows o) = map key (b :: bs)) by congruence.
  split; [now rewrite Hall|]. split.
  - rewrite <- (length_map key (rows o)), Hall. apply length_map.
  - simpl. intros Hw. rewrite Ew in Hw. now rewrite Hall.
Qed.

Lemma master_row_count_witness :
  (0 < List.length (rows Scenarios.weather)
   <= List.length (rows Scenarios.master))%nat.
Proof.
  exact (proj1 (master_row_count Scenarios.weather Scenarios.dashboard
                  Scenarios.maize Scenarios.soil None Scenarios.master
                  eq_refl)).
Defined.

(** ** The inner joins of the dashboard files *)

Lemma join_inner_inv (self other : DataFrame) (suffix : string) (j : DataFrame) :
  join_inner self other suffix = inr j ->
  keyed self = true /\ keyed other = true /\ keyed j = true
  /\ rows j = flat_map (inner_row self other suffix) (rows self).
Proof.
  unfold join_inner.
  destruct (keyed self); [|discriminate]. destruct (keyed other); [|discriminate].
  intros H. injection H as <-. repeat split.
Qed.

Lemma inner_row_keys (self other : DataFrame) (suffix : string) (l : Row) :
  map key (inner_row self other suffix l)
  = repeat (key l) (List.length (matches other l)).
Proof.
  unfold inner_row. rewrite map_map. simpl.
  induction (matches other l) as [|x xs IH]; simpl; [reflexivity|].
  now rewrite IH.
Qed.

Lemma has_key_matches (other : DataFrame) (l : Row) :
  has_key other (key l) <-> matches other l <> [].
Proof.
  unfold has_key, matches. split.
  - intros (r & Hr & Hk) Hempty.
    assert (Hin : In r (filter (fun r0 => key_eqb (key r0) (key l)) (rows other)))
      by (apply filter_In; split; [exact Hr|now apply key_eqb_eq]).
    rewrite Hempty in Hin. destruct Hin.
  - destruct (filter _ (rows other)) as [|r rs] eqn:F; [congruence|].
    intros _. exists r.
    assert (Hin : In r (filter (fun r0 => key_eqb (key r0) (key l)) (rows other)))
      by (rewrite F; now left).
    apply filter_In in Hin. destruct Hin as [Hin Hk].
    split; [exact Hin|now apply key_eqb_eq].
Qed.

Lemma join_inner_has_key (self other : DataFrame) (suffix : string)
  (j : DataFrame) (k : Key) :
  join_inner self other suffix = inr j ->
  has_key j k <-> has_key self k /\ has_key other k.
Proof.
  intros Hj. apply join_inner_inv in Hj. destruct Hj as (_ & _ & _ & Hrows).
  unfold has_key at 1. rewrite Hrows. split.
  - intros (o & Ho & Hk). apply in_flat_map in Ho.
    destruct Ho as (l & Hl & Ho). unfold inner_row in Ho.
    apply in_map_iff in Ho. destruct Ho as (x & <- & Hx).
    simpl in Hk. subst k. split.
    + exists l. now split.
    + apply has_key_matches. intros Hempty. rewrite Hempty in Hx. destruct Hx.
  - intros [(l & Hl & Hk) Hother]. subst k.
    apply has_key_matches in Hother.
    destruct (matches other l) as [|x xs] eqn:M; [congruence|].
    eexists. split.
    + apply in_flat_map. exists l. split; [exact Hl|].
      unfold inner_row. rewrite M. now left.
    + reflexivity.
Qed.

Lemma join_inner_unique (self other : DataFrame) (suffix : string)
  (j : DataFrame) :
  join_inner self other suffix = inr j ->
  NoDup (map key (rows self)) -> NoDup (map key (rows other)) ->
  NoDup (map key (rows j))
  /\ (List.length (rows j) <= List.length (rows self))%nat.
Proof.
  intros Hj Hself Hother. apply join_inner_inv in Hj.
  destruct Hj as (_ & _ & _ & ->). split.
  - rewrite map_flat_map. apply NoDup_flat_map.
    + exact (NoDup_map_inv _ _ Hself).
    + intros l _. rewrite inner_row_keys.
      pose proof (matches_unique other l Hother).
      destruct (List.length (matches other l)) as [|[|n]]; simpl;
        [constructor|repeat constructor; intros []|lia].
    + intros a b k Ha Hb Hka Hkb. rewrite inner_row_keys in Hka, Hkb.
      apply repeat_spec in Hka, Hkb.
      apply (NoDup_map_injective key (rows self) a b Hself Ha Hb). congruence.
  - clear Hself. induction (rows self) as [|l ls IH]; simpl; [lia|].
    rewrite length_app, <- (length_map key (inner_row self other suffix l)),
      inner_row_keys, repeat_length.
    pose proof (matches_unique other l Hother). lia.
Qed.

(** X9: the merged dashboard table holds a (county, year, month) exactly
    when all three dashboard files hold it; a month missing from one file
    is dropped. When no file repeats a key, neither does the merged table,
    and it has at most as many rows as the temperature file. *)
Theorem dashboard_merge_keys
  (temperature_data irrigation_data water_stress_data merged : DataFrame) :
  merge_water_scarcity_dashboard_data temperature_data irrigation_data
    water_stress_data = inr merged ->
  (forall k, has_key merged k <->
             has_key temperature_data k /\ has_key irrigation_data k
             /\ has_key water_stress_data k)
  /\ (keys_unique (Some temperature_data) -> keys_unique (Some irrigation_data) ->
      keys_unique (Some water_stress_data) ->
      keys_unique (Some merged)
      /\ (List.length (rows merged) <= List.length (rows temperature_data))%nat).
Proof.
  unfold merge_water_scarcity_dashboard_data, Py.bind.
  destruct (join_inner temperature_data irrigation_data "_irrigation")
    as [e|m1] eqn:E1; [discriminate|].
  intros E2. split.
  - intros k. rewrite (join_inner_has_key _ _ _ _ k E2),
      (join_inner_has_key _ _ _ _ k E1). tauto.
  - simpl. intros Ht Hi Hs.
    destruct (join_inner_unique _ _ _ _ E1 Ht Hi) as [U1 L1].
    destruct (join_inner_unique _ _ _ _ E2 U1 Hs) as [U2 L2].
    split; [exact U2|lia].
Qed.

Lemma dashboard_merge_keys_witness :
  exists merged,
    merge_water_scarcity_dashboard_data Scenarios.temperature_data
      Scenarios.irrigation_data Scenarios.water_stress_data = inr merged
    /\ forall k, has_key merged k <->
         has_key Scenarios.temperature_data k
         /\ has_key Scenarios.irrigation_data k
         /\ has_key Scenarios.water_stress_data k.
Proof.
  eexists. split; [reflexivity|].
  exact (proj1 (dashboard_merge_keys Scenarios.temperature_data
                  Scenarios.irrigation_data Scenarios.water_stress_data
                  _ eq_refl)).
Defined.

(** ** The three composite scores of a master row *)

Lemma agricultural_risk_index_inv (df : DataFrame) (r : Row) (v : Py.val) :
  agricultural_risk_index df r = inr v ->
  (get "Monthly_Crop_Yield_Impact_Percent" r = Some Py.PNone /\ v = Py.PNum 25)
  \/ (exists x, get "Monthly_Crop_Yield_Impact_Percent" r = Some (Py.PNum x)
                /\ v = Py.PNum x).
Proof.
  unfold agricultural_risk_index, Py.bind.
  destruct (col _ df r) as [e|c] eqn:E; [discriminate|].
  apply col_inr in E. destruct E as [_ E].
  destruct c as [|x|s]; intros H; try discriminate; injection H as <-.
  - now left.
  - right. now exists x.
Qed.

Lemma irrigation_priority_score_inv (df : DataFrame) (r : Row) (v : Py.val) :
  irrigation_priority_score df r = inr v ->
  (get "Monthly_Irrigation_Needed_Real" r = Some Py.PNone /\ v = Py.PNum 50)
  \/ (exists s, get "Monthly_Irrigation_Needed_Real" r = Some (Py.PStr s)
                /\ v = Py.PNum (if String.eqb s "Yes" then 75 else 25)).
Proof.
  unfold irrigation_priority_score, Py.bind.
  destruct (col _ df r) as [e|c] eqn:E; [discriminate|].
  apply col_inr in E. destruct E as [_ E].
  destruct c as [|x|s]; intros H; try discriminate; injection H as <-.
  - now left.
  - right. now exists s.
Qed.

Lemma composite_scores_inv (df master : DataFrame) :
  calculate_composite_metrics df = inr master ->
  forall o, In o (rows master) ->
    exists j v1 v2 v3,
      In j (rows df) /\ key o = key j
      /\ cells o = with_scores v1 v2 v3 (cells j)
      /\ ((get "Monthly_Crop_Yield_Impact_Percent" j = Some Py.PNone
           /\ v2 = Py.PNum 25)
          \/ (exists x,
                get "Monthly_Crop_Yield_Impact_Percent" j = Some (Py.PNum x)
                /\ v2 = Py.PNum x))
      /\ ((get "Monthly_Irrigation_Needed_Real" j = Some Py.PNone
           /\ v3 = Py.PNum 50)
          \/ (exists s,
                get "Monthly_Irrigation_Needed_Real" j = Some (Py.PStr s)
                /\ v3 = Py.PNum (if String.eqb s "Yes" then 75 else 25))).
Proof.
  unfold calculate_composite_metrics, Py.bind.
  destruct (with_column "Water_Scarcity_Score" _ _ df) as [e|df1] eqn:E1;
    [discriminate|].
  destruct (with_column "Agricultural_Risk_Index" _ _ df1) as [e|df2] eqn:E2;
    [discriminate|].
  intros E3.
  apply with_column_inv in E1. destruct E1 as (_ & _ & _ & B1).
  apply with_column_inv in E2. destruct E2 as (_ & _ & _ & B2).
  apply with_column_inv in E3. destruct E3 as (_ & _ & _ & B3).
  intros o Ho.
  destruct (B3 o Ho) as (r2 & v3 & Hr2 & Hv3 & ->).
  destruct (B2 r2 Hr2) as (r1 & v2 & Hr1 & Hv2 & ->).
  destruct (B1 r1 Hr1) as (j & v1 & Hj & _ & ->).
  exists j, v1, v2, v3.
  apply agricultural_risk_index_inv in Hv2.
  apply irrigation_priority_score_inv in Hv3.
  rewrite get_set_cell_other in Hv2 by discriminate.
  rewrite !get_set_cell_other in Hv3 by discriminate.
  repeat split; assumption.
Qed.

Lemma get_with_scores_other (name : string) (v1 v2 v3 : Py.val)
  (cs : list (string * Py.val)) :
  name <> "Water_Scarcity_Score" -> name <> "Agricultural_Risk_Index" ->
  name <> "Irrigation_Priority_Score" ->
  lookup name (with_scores v1 v2 v3 cs) = lookup name cs.
Proof.
  intros H1 H2 H3. unfold with_scores.
  rewrite !lookup_upsert_other by congruence. reflexivity.
Qed.

Lemma get_with_scores_risk (v1 v2 v3 : Py.val) (cs : list (string * Py.val)) :
  lookup "Agricultural_Risk_Index" (with_scores v1 v2 v3 cs) = Some v2.
Proof.
  unfold with_scores. rewrite lookup_upsert_other by discriminate.
  apply lookup_upsert_same.
Qed.

Lemma get_with_scores_priority (v1 v2 v3 : Py.val)
  (cs : list (string * Py.val)) :
  lookup "Irrigation_Priority_Score" (with_scores v1 v2 v3 cs) = Some v3.
Proof. unfold with_scores. apply lookup_upsert_same. Qed.

Lemma create_master_dataset_inv (w d m s r : option DataFrame)
  (master : DataFrame) :
  create_master_dataset w d m s r = inr (Some master) ->
  exists w' d' j,
    w = Some w' /\ d = Some d' /\ rows w' <> [] /\ rows d' <> []
    /\ join_sources w' d' m s r = inr j
    /\ calculate_composite_metrics j = inr master.
Proof.
  unfold create_master_dataset, is_empty, Py.bind.
  destruct w as [w'|]; [|discriminate]. destruct d as [d'|]; [|discriminate].
  destruct (rows w') as [|b bs] eqn:Ew; [discriminate|].
  destruct (rows d') as [|x xs] eqn:Ed; [discriminate|].
  simpl negb. simpl andb. cbv iota.
  destruct (join_sources w' d' m s r) as [e|j] eqn:Ej; [discriminate|].
  destruct (calculate_composite_metrics j) as [e|o] eqn:Eo; [discriminate|].
  intros H. injection H as <-. exists w', d', j.
  rewrite Ew, Ed. repeat split; try assumption; discriminate.
Qed.

(** X10: in every row of a master table the irrigation priority score is
    25, 50 or 75: 75 exactly when the row's real irrigation flag is the
    string Yes, 50 exactly when the flag is null (no dashboard row for the
    month), and 25 for any other text. *)
Theorem irrigation_priority_score_values (w d m s r : option DataFrame)
  (master : DataFrame) (o : Row) :
  create_master_dataset w d m s r = inr (Some master) ->
  In o (rows master) ->
  exists q,
    get "Irrigation_Priority_Score" o = Some (Py.PNum q)
    /\ (q = 25 \/ q = 50 \/ q = 75)
    /\ (q = 75 <-> get "Monthly_Irrigation_Needed_Real" o = Some (Py.PStr "Yes"))
    /\ (q = 50 <-> get "Monthly_Irrigation_Needed_Real" o = Some Py.PNone).
Proof.
  intros Hbuild Ho.
  destruct (create_master_dataset_inv _ _ _ _ _ _ Hbuild)
    as (w' & d' & j & _ & _ & _ & _ & _ & Hcalc).
  destruct (composite_scores_inv _ _ Hcalc o Ho)
    as (b & v1 & v2 & v3 & _ & _ & Hcells & _ & Hflag).
  unfold get in *. rewrite Hcells, get_with_scores_priority.
  rewrite get_with_scores_other by discriminate.
  destruct Hflag as [[Hnull ->] | (t & Htext & ->)].
  - exists 50. rewrite Hnull.
    repeat split; auto; try discriminate.
  - rewrite Htext. destruct (String.eqb t "Yes") eqn:E.
    + apply String.eqb_eq in E. subst t. exists 75.
      repeat split; auto; discriminate.
    + apply String.eqb_neq in E. exists 25.
      repeat split; auto; try discriminate.
      intros H. injection H as ->. now elim E.
Qed.

Lemma irrigation_priority_score_values_witness :
  exists q,
    get "Irrigation_Priority_Score" Scenarios.master_row = Some (Py.PNum q)
    /\ (q = 25 \/ q = 50 \/ q = 75).
Proof.
  destruct (irrigation_priority_score_values (Some Scenarios.weather)
              (Some Scenarios.dashboard) Scenarios.maize Scenarios.soil None
              Scenarios.master Scenarios.master_row eq_refl)
    as (q & Hq & Hvalues & _).
  - vm_compute. now left.
  - exists q. split; assumption.
Defined.


(** ** Values of the monthly weather aggregate of collected records *)

Lemma collected_record_inv
  (fromisoformat : string -> option CollectOpenMeteo.DateTime)
  (county : string) (lat lon : Q)
  (responses : list (option CollectOpenMeteo.Response))
  (rec : CollectOpenMeteo.HourlyRecord) :
  In rec (CollectOpenMeteo.collect_county_weather_data fromisoformat county
            lat lon responses) ->
  exists h i dt, rec = CollectOpenMeteo.hourly_record county lat lon h i dt.
Proof.
  unfold CollectOpenMeteo.collect_county_weather_data. intros Hin.
  apply in_flat_map in Hin. destruct Hin as ([response_data|] & _ & Hin);
    [|destruct Hin].
  unfold CollectOpenMeteo.process_weather_response in Hin.
  destruct (CollectOpenMeteo.hourly response_data) as [h|]; [|destruct Hin].
  destruct (CollectOpenMeteo.daily response_data); [|destruct Hin].
  apply CollectOpenMeteoFacts.process_hours_records in Hin.
  destruct Hin as (i & dt & ->). now exists h, i, dt.
Qed.

(** The three irrigation columns of an emitted record take one of two
    shapes, and the heat-stress flag is 0 or 1. *)
Lemma hourly_record_columns (county : string) (lat lon : Q)
  (h : CollectOpenMeteo.Hourly) (i : nat) (dt : CollectOpenMeteo.DateTime) :
  let rec := CollectOpenMeteo.hourly_record county lat lon h i dt in
  ((CollectOpenMeteo.Irrigation_Volume_Liters_Ha rec = Py.PNum 4450
    /\ CollectOpenMeteo.Crop_Yield_Impact_Percent rec = Py.PNum 20)
   \/ (CollectOpenMeteo.Irrigation_Volume_Liters_Ha rec = Py.PNum 0
       /\ CollectOpenMeteo.Crop_Yield_Impact_Percent rec = Py.PNum 0))
  /\ (CollectOpenMeteo.Heat_Stress_Days rec = Py.PNum 0
      \/ CollectOpenMeteo.Heat_Stress_Days rec = Py.PNum 1).
Proof.
  intros rec. subst rec. unfold CollectOpenMeteo.hourly_record.
  destruct (CollectOpenMeteo.value_at (CollectOpenMeteo.temperature_2m h) i)
    as [t|];
    destruct (CollectOpenMeteo.value_at
                (CollectOpenMeteo.et0_fao_evapotranspiration h) i) as [e|];
    destruct (CollectOpenMeteo.value_at (CollectOpenMeteo.precipitation h) i)
      as [p|];
    destruct (CollectOpenMeteo.value_at
                (CollectOpenMeteo.relative_humidity_2m h) i) as [u|];
    simpl; try (split; [right; split; reflexivity|left; reflexivity]).
  split.
  - destruct (Qlt_le_dec p 10) as [Hlow | Hwet].
    + rewrite (CollectOpenMeteoMore.little_rain_maximum t e p u Hlow).
      unfold CollectOpenMeteo.calculate_irrigation_needs.
      apply PyFacts.Qltb_lt in Hlow. rewrite Hlow. simpl. now left.
    + unfold CollectOpenMeteo.calculate_irrigation_needs.
      apply PyFacts.Qltb_ge in Hwet. rewrite Hwet. simpl. now right.
  - unfold CollectOpenMeteo.calculate_heat_stress_days.
    destruct (Py.Qltb 30.0 t); [now right|now left].
Qed.

Lemma months_of_sound (df : list CollectOpenMeteo.HourlyRecord) (ym : Z * Z) :
  In ym (months_of df) ->
  exists rec, In rec df /\ same_month ym rec = true.
Proof.
  induction df as [|r df IH]; [intros []|]. simpl.
  intros [<- | Hin].
  - exists r. split; [now left|]. unfold same_month. simpl.
    now rewrite !Z.eqb_refl.
  - apply filter_In in Hin. destruct Hin as [Hin _].
    destruct (IH Hin) as (rec & Hrec & Hsame).
    exists rec. split; [now right|exact Hsame].
Qed.

Lemma aggregate_weather_groups (weather_files : list WeatherFile)
  (w : DataFrame) (b : Row) :
  aggregate_weather_data_monthly weather_files = Some w ->
  In b (rows w) ->
  exists county df ym,
    In (county, Some df) weather_files /\ In ym (months_of df)
    /\ b = monthly_row county df ym.
Proof.
  intros Hw Hb.
  assert (Hrows : rows w = List.concat (all_monthly_data weather_files)).
  { unfold aggregate_weather_data_monthly in Hw.
    destruct (all_monthly_data weather_files) as [|f fs]; [discriminate|].
    now injection Hw as <-. }
  rewrite Hrows, all_monthly_data_flat in Hb. apply in_flat_map in Hb.
  destruct Hb as ([county [df|]] & Hfile & Hb); simpl in Hb; [|destruct Hb].
  unfold monthly_agg in Hb. apply in_map_iff in Hb.
  destruct Hb as (ym & <- & Hym). now exists county, df, ym.
Qed.

Lemma col_mean_value (vs : list Py.val) :
  vs <> [] -> (forall v, In v vs -> exists q, v = Py.PNum q) ->
  exists x, col_mean vs = Py.PNum x.
Proof.
  intros Hne Hall. unfold col_mean.
  destruct vs as [|v vs]; [congruence|].
  destruct (Hall v (or_introl eq_refl)) as (q & ->). simpl. eexists. reflexivity.
Qed.

(** X11: in a master table built on the weather aggregate of collected
    hourly records, the monthly yield impact of a row is never null, so
    the agricultural risk index is that monthly mean, between 0 and 20,
    and the default of 25 is never used. *)
Theorem agricultural_risk_index_range
  (fromisoformat : string -> option CollectOpenMeteo.DateTime)
  (stations : list (string * Q * Q * list (option CollectOpenMeteo.Response)))
  (w : DataFrame) (d m s r : option DataFrame) (master : DataFrame) (o : Row) :
  aggregate_weather_data_monthly (collected_weather_files fromisoformat stations)
  = Some w ->
  create_master_dataset (Some w) d m s r = inr (Some master) ->
  In o (rows master) ->
  exists x,
    get "Monthly_Crop_Yield_Impact_Percent" o = Some (Py.PNum x)
    /\ get "Agricultural_Risk_Index" o = Some (Py.PNum x)
    /\ 0 <= x /\ x <= 20.
Proof.
  intros Hw Hbuild Ho.
  destruct (create_master_dataset_inv _ _ _ _ _ _ Hbuild)
    as (w' & d' & j & Ew & -> & _ & _ & Hj & Hcalc).
  injection Ew as <-.
  destruct (composite_scores_inv _ _ Hcalc o Ho)
    as (o' & v1 & v2 & v3 & Ho' & _ & Hcells & Hrisk & _).
  destruct (join_sources_backward _ _ _ _ _ _ _ Hj Ho')
    as (b & dc & rest & Hb & _ & Hc & _).
  destruct (aggregate_weather_groups _ _ _ Hw Hb)
    as (county & df & ym & Hf & Hym & ->).
  destruct (collected_files_inv _ _ _ _ Hf) as (lat & lon & resp & ->).
  set (g := filter (same_month ym)
              (CollectOpenMeteo.collect_county_weather_data fromisoformat
                 county lat lon resp)) in *.
  assert (Hrec : forall v,
            In v (map CollectOpenMeteo.Crop_Yield_Impact_Percent g) ->
            v = Py.PNum 0 \/ v = Py.PNum 20).
  { intros v Hv. apply in_map_iff in Hv. destruct Hv as (rec & <- & Hin).
    apply filter_In in Hin. destruct Hin as [Hin _].
    apply collected_record_inv in Hin. destruct Hin as (h & i & dt & ->).
    destruct (hourly_record_columns county lat lon h i dt)
      as [[[_ ->] | [_ ->]] _]; auto. }
  assert (Hmean : exists x,
            col_mean (map CollectOpenMeteo.Crop_Yield_Impact_Percent g)
            = Py.PNum x).
  { apply col_mean_value.
    - destruct (months_of_sound _ _ Hym) as (rec & Hin & Hsame).
      assert (Hg : In rec g) by (apply filter_In; now split).
      destruct g; [destruct Hg|discriminate].
    - intros v Hv. destruct (Hrec v Hv) as [-> | ->]; eexists; reflexivity. }
  destruct Hmean as (x & Hx).
  assert (Himpact : get "Monthly_Crop_Yield_Impact_Percent" o'
                    = Some (Py.PNum x)).
  { unfold get. rewrite Hc, monthly_row_impact. fold g. now rewrite Hx. }
  exists x. unfold get in *.
  rewrite Hcells, get_with_scores_risk.
  rewrite get_with_scores_other by discriminate.
  split; [exact Himpact|]. split.
  - destruct Hrisk as [[Hnull _] | (y & Hy & ->)]; [congruence|].
    congruence.
  - apply (col_mean_bounds 0 20 _ x) in Hx; [exact Hx|].
    intros q Hq. destruct (Hrec _ Hq) as [E | E]; injection E as ->; lra.
Qed.

Lemma agricultural_risk_index_range_witness :
  exists x,
    get "Agricultural_Risk_Index" Scenarios.master_row = Some (Py.PNum x)
    /\ 0 <= x /\ x <= 20.
Proof.
  destruct (agricultural_risk_index_range Scenarios.parse_any Scenarios.stations
              Scenarios.weather (Some Scenarios.dashboard) Scenarios.maize
              Scenarios.soil None Scenarios.master Scenarios.master_row
              eq_refl eq_refl)
    as (x & _ & Hx & Hlo & Hhi).
  - vm_compute. now left.
  - exists x. repeat split; assumption.
Defined.


(** ** Months without a dashboard row *)

Lemma join_row_unmatched (self other : DataFrame) (suffix : string)
  (l o : Row) :
  (forall r, In r (rows other) -> key r <> key l) ->
  In o (join_row self other suffix l) ->
  key o = key l
  /\ cells o = cells l ++ null_cells (columns self) suffix other.
Proof.
  intros Hnone. unfold join_row.
  destruct (matches other l) as [|r0 ms] eqn:E.
  - intros [<- | []]. split; reflexivity.
  - exfalso.
    assert (Hin : In r0 (matches other l)) by (rewrite E; now left).
    unfold matches in Hin. apply filter_In in Hin. destruct Hin as [Hin Hk].
    apply key_eqb_eq in Hk. exact (Hnone r0 Hin Hk).
Qed.

Lemma join_sources_unmatched (w d : DataFrame) (m s r : option DataFrame)
  (j : DataFrame) (o : Row) :
  join_sources w d m s r = inr j ->
  In o (rows j) ->
  unmatched (Some d) (key o) ->
  exists b rest,
    In b (rows w) /\ key o = key b
    /\ cells o = cells b ++ null_cells (columns w) "_dashboard" d ++ rest.
Proof.
  unfold join_sources, Py.bind. intros Hj Ho Hnone.
  destruct (join_left w d "_dashboard") as [e|j1] eqn:E1; [discriminate|].
  destruct (join_optional j1 m "_maize") as [e|j2] eqn:E2; [discriminate|].
  destruct (join_optional j2 s "_soil") as [e|j3] eqn:E3; [discriminate|].
  apply join_left_inv in E1. destruct E1 as (_ & _ & _ & _ & R1).
  pose proof (join_optional_inv _ _ _ _ E2) as (_ & _ & _ & B2).
  pose proof (join_optional_inv _ _ _ _ E3) as (_ & _ & _ & B3).
  pose proof (join_optional_inv _ _ _ _ Hj) as (_ & _ & _ & B4).
  destruct (B4 o Ho) as (o3 & rc & H3 & K4 & C4).
  destruct (B3 o3 H3) as (o2 & sc & H2 & K3 & C3).
  destruct (B2 o2 H2) as (o1 & mc & H1 & K2 & C2).
  rewrite R1 in H1. apply in_flat_map in H1. destruct H1 as (b & Hb & H1).
  assert (Hkey : key o1 = key b)
    by (apply join_row_backward in H1; tauto).
  assert (Kb : key o = key b) by congruence.
  apply join_row_unmatched in H1.
  - destruct H1 as [_ C1]. exists b, (mc ++ sc ++ rc).
    repeat split; [exact Hb|exact Kb|].
    rewrite C4, C3, C2, C1, <- !app_assoc. reflexivity.
  - simpl in Hnone. intros x Hx. rewrite <- Kb. now apply Hnone.
Qed.

(** X12: a month of the weather aggregate for which the dashboard table
    has no row keeps its place in the master table with a null irrigation
    flag, and therefore gets the neutral irrigation priority score 50. *)
Theorem month_without_dashboard_row (weather_files : list WeatherFile)
  (w d : DataFrame) (m s r : option DataFrame) (master : DataFrame) (o : Row) :
  aggregate_weather_data_monthly weather_files = Some w ->
  has_column "Monthly_Irrigation_Needed_Real" d = true ->
  create_master_dataset (Some w) (Some d) m s r = inr (Some master) ->
  In o (rows master) ->
  unmatched (Some d) (key o) ->
  get "Monthly_Irrigation_Needed_Real" o = Some Py.PNone
  /\ get "Irrigation_Priority_Score" o = Some (Py.PNum 50).
Proof.
  intros Hw Hflag Hbuild Ho Hnone.
  destruct (create_master_dataset_inv _ _ _ _ _ _ Hbuild)
    as (w' & d' & j & Ew & Ed & _ & _ & Hj & Hcalc).
  injection Ew as <-. injection Ed as <-.
  destruct (composite_scores_inv _ _ Hcalc o Ho)
    as (o' & v1 & v2 & v3 & Ho' & Ko & Hcells & _ & Hscore).
  rewrite Ko in Hnone.
  destruct (join_sources_unmatched _ _ _ _ _ _ _ Hj Ho' Hnone)
    as (b & rest & Hb & _ & Hc).
  destruct (aggregate_weather_inv _ _ Hw) as (_ & Hcols & Hrows).
  destruct (Hrows b Hb) as (county & df & ym & _ & ->).
  assert (Hnull : get "Monthly_Irrigation_Needed_Real" o' = Some Py.PNone).
  { unfold get. rewrite Hc, monthly_row_no_flag, lookup_app, Hcols.
    rewrite (lookup_null_cells _ _ _ _ rename_flag Hflag). reflexivity. }
  unfold get in *. rewrite Hcells, get_with_scores_priority.
  rewrite get_with_scores_other by discriminate.
  split; [exact Hnull|].
  destruct Hscore as [[_ ->] | (t & Ht & _)]; [reflexivity|congruence].
Qed.

Lemma month_without_dashboard_row_witness :
  get "Irrigation_Priority_Score" Scenarios.master_row = Some (Py.PNum 50).
Proof.
  refine (proj2 (month_without_dashboard_row Scenarios.weather_files
                   Scenarios.weather Scenarios.dashboard Scenarios.maize
                   Scenarios.soil None Scenarios.master Scenarios.master_row
                   eq_refl eq_refl eq_refl _ _)).
  - vm_compute. now left.
  - vm_compute. intros x [<- | []]. discriminate.
Defined.

End IntegrateDatasetsMore.

(** * Further facts about enhance_training_data.py *)

Module EnhanceTrainingDataMore.
Import EnhanceTrainingData EnhanceTrainingDataFacts.



(** ** The groups of the annual aggregation *)

Lemma group_key_eqb_eq (a b : string * Z) : key_eqb a b = true <-> a = b.
Proof.
  unfold key_eqb. rewrite andb_true_iff, String.eqb_eq, Z.eqb_eq.
  destruct a, b; simpl. split; [intros [-> ->]; reflexivity|].
  intros H. now injection H.
Qed.

Lemma key_leb_total (a b : string * Z) :
  key_leb a b = true \/ key_leb b a = true.
Proof.
  unfold key_leb. rewrite (String.eqb_sym (fst b) (fst a)).
  destruct (String.eqb (fst a) (fst b)).
  - rewrite !Z.leb_le. lia.
  - apply String.leb_total.
Qed.

Lemma distinct_NoDup (l : list (string * Z)) : NoDup (distinct l).
Proof.
  induction l as [|k l IH]; simpl; constructor.
  - intros Hin. apply filter_In in Hin. destruct Hin as [_ Hne].
    assert (E : key_eqb k k = true) by now apply group_key_eqb_eq.
    rewrite E in Hne. discriminate.
  - now apply NoDup_filter.
Qed.

Lemma distinct_In (l : list (string * Z)) (k : string * Z) :
  In k (distinct l) <-> In k l.
Proof.
  induction l as [|x l IH]; simpl; [tauto|]. split.
  - intros [-> | Hin]; [now left|].
    apply filter_In in Hin. right. now apply IH.
  - intros [-> | Hin]; [now left|].
    destruct (key_eqb k x) eqn:E.
    + apply group_key_eqb_eq in E. now left.
    + right. apply filter_In. split; [now apply IH|]. now rewrite E.
Qed.

(** X13: the annual table has exactly one row per (county, year) pair of
    the monthly table, and its rows are in ascending order of county and
    then year. *)
Theorem annual_data_keys (sqrt : Q -> Q) (df : list MasterRecord) :
  let keys := map (fun a => (a_County a, a_Year a)) (annual_data sqrt df) in
  NoDup keys
  /\ Sorted (fun a b => key_leb a b = true) keys
  /\ forall k, In k keys <-> exists r, In r df /\ (County r, Year r) = k.
Proof.
  intros keys.
  assert (Hkeys : keys = group_keys df).
  { subst keys. unfold annual_data. rewrite map_map. simpl.
    induction (group_keys df) as [|[c y] l IH]; simpl; [reflexivity|].
    now rewrite IH. }
  rewrite Hkeys. unfold group_keys. split; [|split].
  - apply (Permutation_NoDup (l := distinct (map (fun r => (County r, Year r)) df))).
    + symmetry. apply sort_perm.
    + apply distinct_NoDup.
  - apply sort_sorted. exact key_leb_total.
  - intros k. split.
    + intros Hin. apply (Permutation_in _ (sort_perm _ key_leb _)) in Hin.
      apply (proj1 (distinct_In _ _)) in Hin. apply in_map_iff in Hin.
      destruct Hin as (r & Hk & Hr). now exists r.
    + intros (r & Hr & Hk).
      apply (Permutation_in _ (Permutation_sym (sort_perm _ key_leb _))).
      apply (proj2 (distinct_In _ _)). apply in_map_iff. now exists r.
Qed.

(** ** The growing-season feature *)

(** X14: the nested selection that fills the growing-season column has
    only two reachable outcomes: 2 for an annual rainfall above 600 mm
    and 0 otherwise. The values 1 and 3 of the inner selections are never
    produced, so every row of the annual table holds 0 or 2. *)
Theorem growing_season_months_values (sqrt : Q -> Q) (df : list MasterRecord) :
  (forall annual_rainfall,
     (600 < annual_rainfall -> growing_season_months annual_rainfall = 2)
     /\ (annual_rainfall <= 600 -> growing_season_months annual_rainfall = 0))
  /\ forall a, In a (cleaned_annual_data sqrt df) \/ In a (annual_data sqrt df) ->
       (Growing_Season_Months a = 2 /\ 600 < Annual_Rainfall_mm a)
       \/ (Growing_Season_Months a = 0 /\ Annual_Rainfall_mm a <= 600).
Proof.
  assert (Hfun : forall annual_rainfall,
            (600 < annual_rainfall -> growing_season_months annual_rainfall = 2)
            /\ (annual_rainfall <= 600
                -> growing_season_months annual_rainfall = 0)).
  { intros x. unfold growing_season_months. split; intros Hx.
    - assert (H6 : Py.Qltb 600 x = true) by now apply PyFacts.Qltb_lt.
      assert (H4 : Py.Qltb 400 x = true) by (apply PyFacts.Qltb_lt; lra).
      assert (H2 : Py.Qltb 200 x = true) by (apply PyFacts.Qltb_lt; lra).
      now rewrite H6, H4, H2.
    - assert (H6 : Py.Qltb 600 x = false) by now apply PyFacts.Qltb_ge.
      now rewrite H6. }
  split; [exact Hfun|].
  intros a Ha.
  assert (Hin : In a (annual_data sqrt df)).
  { destruct Ha as [Ha | Ha]; [|exact Ha].
    unfold cleaned_annual_data, clean_unrealistic_yields in Ha.
    now apply filter_In in Ha. }
  unfold annual_data in Hin. apply in_map_iff in Hin.
  destruct Hin as (k & <- & _). simpl.
  match goal with
  | |- context [growing_season_months ?x] =>
      destruct (Hfun x) as [Hhigh Hlow]; destruct (Qlt_le_dec 600 x) as [H|H]
  end.
  - left. split; [now apply Hhigh|exact H].
  - right. split; [now apply Hlow|exact H].
Qed.


(** ** The quartiles of the yield filter *)

(** [quantile] does not decrease when the requested fraction grows. *)
Lemma quantile_monotone (xs : list (option Q)) (q q' v v' : Q) :
  0 <= q -> q <= q' -> q' <= 1 ->
  quantile xs q = Some v -> quantile xs q' = Some v' -> v <= v'.
Proof.
  intros H0 Hqq H1 Hv Hv'.
  apply quantile_inv in Hv. destruct Hv as (first & rest & Es & Hv).
  apply quantile_inv in Hv'. destruct Hv' as (first' & rest' & Es' & Hv').
  rewrite Es in Es'. injection Es' as <- <-. cbv zeta in Hv, Hv'.
  pose proof (sort_strongly_sorted (values xs)) as Hs. rewrite Es in Hs.
  set (s := first :: rest) in *.
  assert (Hn : 1 <= count s).
  { unfold count. change 1 with (inject_Z 1). rewrite <- Zle_Qle.
    subst s. simpl List.length. lia. }
  set (pos := (count s - 1) * q) in *.
  set (pos' := (count s - 1) * q') in *.
  assert (Hp0 : 0 <= pos) by (subst pos; nra).
  assert (Hpp : pos <= pos') by (subst pos pos'; nra).
  assert (Hpn : pos' <= count s - 1) by (subst pos'; nra).
  destruct (interpolation_bounds s first pos Hs Hp0 ltac:(unfold count in *; lra))
    as (Hlo & Hf0 & Hf1 & Hab & Hb).
  destruct (interpolation_bounds s first pos' Hs ltac:(lra)
              ltac:(unfold count in *; lra))
    as (Hlo' & Hf0' & Hf1' & Hab' & Hb').
  cbv zeta in Hlo, Hf0, Hf1, Hab, Hb, Hlo', Hf0', Hf1', Hab', Hb'.
  pose proof (Qfloor_resp_le _ _ Hpp) as Hfl.
  assert (Hfl0 : (0 <= Qfloor pos)%Z)
    by (change 0%Z with (Qfloor 0); now apply Qfloor_resp_le).
  set (a := nth (Z.to_nat (Qfloor pos)) s first) in *.
  set (b := nth (S (Z.to_nat (Qfloor pos))) s a) in *.
  set (a' := nth (Z.to_nat (Qfloor pos')) s first) in *.
  set (b' := nth (S (Z.to_nat (Qfloor pos'))) s a') in *.
  set (frac := pos - inject_Z (Qfloor pos)) in *.
  set (frac' := pos' - inject_Z (Qfloor pos')) in *.
  rewrite Hv, Hv'.
  destruct (Z.eq_dec (Qfloor pos) (Qfloor pos')) as [Heq | Hne].
  - assert (Ea : a' = a) by (subst a a'; now rewrite Heq).
    assert (Eb : b' = b) by (subst b b'; now rewrite Ea, Heq).
    assert (Hfrac : frac <= frac') by (subst frac frac'; rewrite Heq; lra).
    rewrite Ea, Eb. nra.
  - assert (Hstep : (S (Z.to_nat (Qfloor pos)) <= Z.to_nat (Qfloor pos'))%nat)
      by lia.
    assert (Hba : b <= a').
    { rewrite Hb by lia. subst a'. apply nth_sorted; [exact Hs|lia]. }
    nra.
Qed.

(** X15: the bounds of the interquartile filter are in order: the lower
    bound lies at or below the first quartile, the first quartile at or
    below the third, the third at or below the upper bound. So the
    filter's acceptance interval is never empty, and a row whose yield
    lies between the quartiles and within the domain band from 0.8 to 5.0
    is always kept. *)
Theorem iqr_bounds_ordered (annual : list AnnualRecord)
  (lower_bound upper_bound : Q) :
  iqr_bounds annual = Some (lower_bound, upper_bound) ->
  exists q1 q3,
    quantile (map Maize_Yield_tonnes_ha annual) 0.25 = Some q1
    /\ quantile (map Maize_Yield_tonnes_ha annual) 0.75 = Some q3
    /\ lower_bound <= q1 /\ q1 <= q3 /\ q3 <= upper_bound
    /\ forall r y,
         In r annual -> Maize_Yield_tonnes_ha r = Some y ->
         q1 <= y -> y <= q3 -> 0.8 <= y -> y <= 5.0 ->
         In r (clean_unrealistic_yields annual).
Proof.
  intros Hb.
  pose proof (proj1 (EnhanceTrainingDataFacts.iqr_bounds_spec _ _ _) Hb)
    as (q1 & q3 & E1 & E3 & Hlo & Hhi).
  assert (Hq : q1 <= q3).
  { apply (quantile_monotone _ 0.25 0.75 q1 q3) in E1; try assumption; lra. }
  assert (Hlow : lower_bound <= q1) by (rewrite Hlo; lra).
  assert (Hupp : q3 <= upper_bound) by (rewrite Hhi; lra).
  exists q1, q3.
  split; [exact E1|]. split; [exact E3|]. split; [exact Hlow|].
  split; [exact Hq|]. split; [exact Hupp|].
  intros r y Hr Hy H1 H3 Hd1 Hd2.
  unfold clean_unrealistic_yields. apply filter_In. split; [exact Hr|].
  apply EnhanceTrainingDataFacts.keep_spec.
  exists y, lower_bound, upper_bound. unfold domain_lower, domain_upper.
  repeat split; try assumption; lra.
Qed.

Lemma iqr_bounds_ordered_witness :
  exists lower_bound upper_bound,
    iqr_bounds Scenarios.annual_records = Some (lower_bound, upper_bound)
    /\ lower_bound <= upper_bound.
Proof.
  destruct (iqr_bounds Scenarios.annual_records) as [[lo hi]|] eqn:E;
    [|vm_compute in E; discriminate].
  exists lo, hi. split; [reflexivity|].
  destruct (iqr_bounds_ordered Scenarios.annual_records lo hi E)
    as (q1 & q3 & _ & _ & H1 & H2 & H3 & _).
  lra.
Defined.

End EnhanceTrainingDataMore.

(** * Further facts about fastapi_app.py *)

Module FastApiMore.
Import FastApi.

(** ** The single-prediction handler *)

Lemma require_trained_model_inv (app : App) (m : MaizeModel.MaizeResilienceModel) :
  require_trained_model app = inr m <->
  model app = Some m /\ MaizeModel.is_trained m = true.
Proof.
  unfold require_trained_model. destruct (model app) as [m'|].
  - destruct (MaizeModel.is_trained m') eqn:E; split.
    + intros H. injection H as <-. now split.
    + intros [H _]. now injection H as <-.
    + discriminate.
    + intros [H Ht]. injection H as <-. congruence.
  - split; [discriminate|]. intros [H _]. discriminate.
Qed.

Lemma model_score_range (m : MaizeModel.MaizeResilienceModel)
  (rainfall soil_ph organic_carbon : Q) (county : option string)
  (p : MaizeModel.Prediction) :
  MaizeModel.predict_resilience_score m rainfall soil_ph organic_carbon county
  = inr p ->
  0 <= MaizeModel.resilience_score p /\ MaizeModel.resilience_score p <= 100.
Proof.
  unfold MaizeModel.predict_resilience_score, Py.bind.
  destruct (negb (MaizeModel.is_trained m)); [discriminate|].
  destruct (MaizeModel.predict_yield m _ _ _ _) as [e|y]; [discriminate|].
  destruct (MaizeModel.zip_feature_importance m) as [e|fi]; [discriminate|].
  intros H. injection H as <-. simpl.
  apply MaizeModelFacts.round1_between_0_100; minmax_cases; lra.
Qed.

Lemma risk_level_of_spec (score : Q) :
  (risk_level_of score = "Low" <-> 70 < score)
  /\ (risk_level_of score = "Medium" <-> 50 < score /\ score <= 70)
  /\ (risk_level_of score = "High" <-> score <= 50).
Proof.
  unfold risk_level_of.
  destruct (Py.Qltb 70 score) eqn:E7;
    [apply PyFacts.Qltb_lt in E7 | apply PyFacts.Qltb_ge in E7];
    (destruct (Py.Qltb 50 score) eqn:E5;
     [apply PyFacts.Qltb_lt in E5 | apply PyFacts.Qltb_ge in E5]);
    repeat split; intros; try discriminate; try reflexivity; try lra;
    try tauto.
Qed.

(** X16: a response of POST /api/predict that is not an error comes from
    a trained model, echoes the request, carries a resilience score
    between 0 and 100, and its risk level follows the score: Low above
    70, Medium above 50 up to 70, High up to 50. The first of its four
    recommendations is the maintenance advice exactly for a Low risk. *)
Theorem predict_resilience_response (app : App) (request : PredictionRequest)
  (processing_time : Q) (response : PredictionResponse) :
  fst (predict_resilience app request processing_time) = inr response ->
  let p := prediction response in
  (exists m, model app = Some m /\ MaizeModel.is_trained m = true)
  /\ input_parameters response = request
  /\ 0 <= resilience_score p /\ resilience_score p <= 100
  /\ (risk_level p = "Low" <-> 70 < resilience_score p)
  /\ (risk_level p = "Medium"
      <-> 50 < resilience_score p /\ resilience_score p <= 70)
  /\ (risk_level p = "High" <-> resilience_score p <= 50)
  /\ List.length (recommendations p) = 4%nat
  /\ (hd "" (recommendations p) = "Maintain current soil management practices"
      <-> risk_level p = "Low").
Proof.
  unfold predict_resilience.
  destruct (predict_resilience_try app request) as [e|[result resp]] eqn:E;
    [discriminate|].
  simpl. intros H. injection H as <-.
  unfold predict_resilience_try, Py.bind in E.
  destruct (require_trained_model app) as [e|m] eqn:Em; [discriminate|].
  destruct (MaizeModel.predict_resilience_score m _ _ _ _) as [e|p] eqn:Ep;
    [discriminate|].
  injection E as <- <-. simpl.
  apply require_trained_model_inv in Em.
  destruct (model_score_range _ _ _ _ _ _ Ep) as [Hlo Hhi].
  destruct (risk_level_of_spec (MaizeModel.resilience_score p))
    as (Hlow & Hmed & Hhigh).
  split; [now exists m|]. split; [reflexivity|].
  split; [exact Hlo|]. split; [exact Hhi|].
  split; [exact Hlow|]. split; [exact Hmed|]. split; [exact Hhigh|].
  split; [reflexivity|].
  rewrite Hlow. unfold first_recommendation.
  destruct (Py.Qltb 70 (MaizeModel.resilience_score p)) eqn:E7.
  - apply PyFacts.Qltb_lt in E7. tauto.
  - apply PyFacts.Qltb_ge in E7. split; [discriminate|lra].
Qed.

Lemma predict_resilience_response_witness :
  exists response,
    fst (predict_resilience Scenarios.trained_app Scenarios.nakuru_request 0.01)
    = inr response
    /\ 0 <= resilience_score (prediction response)
    /\ resilience_score (prediction response) <= 100.
Proof.
  eexists. split; [reflexivity|].
  match goal with
  | |- context [prediction ?r] =>
      destruct (predict_resilience_response Scenarios.trained_app
                  Scenarios.nakuru_request 0.01 r eq_refl)
        as (_ & _ & Hlo & Hhi & _)
  end.
  split; [exact Hlo|exact Hhi].
Defined.

(** X17: whatever happens in POST /api/predict, the handler answers 200
    or 500 and, when a metrics collector exists, records exactly one
    metric with the measured time and the rainfall of the request, marked
    successful exactly for a 200 answer and with score 0 otherwise. It
    queues one storage task for a 200 answer and none for a 500. *)
Theorem predict_resilience_bookkeeping (app : App) (request : PredictionRequest)
  (processing_time : Q) :
  let response := fst (predict_resilience app request processing_time) in
  let app' := snd (predict_resilience app request processing_time) in
  (status_code response = 200%Z \/ status_code response = 500%Z)
  /\ match metrics_collector app with
     | Some recorded =>
         exists m,
           metrics_collector app' = Some (recorded ++ [m])
           /\ m_processing_time m = processing_time
           /\ m_rainfall m = rainfall request
           /\ (m_success m = true <-> status_code response = 200%Z)
           /\ (status_code response = 500%Z -> m_resilience_score m = 0.0)
     | None => metrics_collector app' = None
     end
  /\ (status_code response = 200%Z ->
      exists task, background_tasks app' = background_tasks app ++ [task])
  /\ (status_code response = 500%Z ->
      background_tasks app' = background_tasks app).
Proof.
  unfold predict_resilience.
  destruct (predict_resilience_try app request) as [e|[result resp]];
    cbv zeta; simpl fst; simpl snd; unfold add_task, record_prediction;
    destruct (metrics_collector app) as [recorded|] eqn:Em; simpl;
    rewrite ?Em.
  - split; [now right|]. split.
    + eexists. split; [reflexivity|]. simpl.
      repeat split; try reflexivity; discriminate.
    + split; [discriminate|reflexivity].
  - split; [now right|]. split; [reflexivity|].
    split; [discriminate|reflexivity].
  - split; [now left|]. split.
    + eexists. split; [reflexivity|]. simpl.
      repeat split; try reflexivity; discriminate.
    + split; [|discriminate]. intros _. eexists. reflexivity.
  - split; [now left|]. split; [reflexivity|].
    split; [|discriminate]. intros _. eexists. reflexivity.
Qed.


(** ** The batch handler *)

Lemma batch_item_shape (m : MaizeModel.MaizeResilienceModel)
  (pred_request : PredictionRequest) :
  let r := batch_item m pred_request in
  input r = pred_request
  /\ ((is_success r = true /\ status r = "success" /\ error r = None
       /\ exists p, batch_prediction r = Some p
            /\ 0 <= resilience_score p /\ resilience_score p <= 100)
      \/ (is_success r = false /\ status r = "error"
          /\ batch_prediction r = None /\ exists msg, error r = Some msg)).
Proof.
  unfold batch_item.
  destruct (MaizeModel.predict_resilience_score m _ _ _ _) as [e|p] eqn:Ep;
    simpl; split; try reflexivity.
  - right. repeat split. now exists (exn_message e).
  - left. repeat split. eexists. split; [reflexivity|]. simpl.
    exact (model_score_range _ _ _ _ _ _ Ep).
Qed.

(** The metric that [record_batch] records for a successful result. *)
Lemma record_batch_metrics (app : App) (results all : list BatchPredictionResult)
  (t : Q) :
  (forall r, In r results -> is_success r = true -> batch_prediction r <> None) ->
  let app' :=
    fold_left (fun app r =>
      if is_success r then
        match batch_prediction r with
        | Some p =>
            record_prediction app
              {| m_rainfall := rainfall (input r); m_soil_ph := soil_ph (input r);
                 m_organic_carbon := organic_carbon (input r);
                 m_resilience_score := resilience_score p;
                 m_processing_time :=
                   t / inject_Z (Z.of_nat (List.length all));
                 m_success := true |}
        | None => app
        end
      else app) results app in
  model app' = model app
  /\ background_tasks app' = background_tasks app
  /\ match metrics_collector app with
     | Some recorded =>
         exists ms,
           metrics_collector app' = Some (recorded ++ ms)
           /\ List.length ms = List.length (filter is_success results)
           /\ Forall (fun m => m_success m = true
                               /\ m_processing_time m
                                  = t / inject_Z (Z.of_nat (List.length all)))
                ms
     | None => metrics_collector app' = None
     end.
Proof.
  revert app. induction results as [|r results IH]; intros app Hsome; simpl.
  - split; [reflexivity|]. split; [reflexivity|].
    destruct (metrics_collector app) as [recorded|]; [|reflexivity].
    exists []. rewrite app_nil_r. repeat split. constructor.
  - assert (Hrest : forall r0, In r0 results -> is_success r0 = true ->
                      batch_prediction r0 <> None)
      by (intros r0 Hr0; apply Hsome; now right).
    destruct (is_success r) eqn:Es.
    + destruct (batch_prediction r) as [p|] eqn:Ep;
        [|exfalso; exact (Hsome r (or_introl eq_refl) Es Ep)].
      match goal with
      | |- context [fold_left _ results ?a] => specialize (IH a Hrest)
      end.
      cbv zeta in IH. destruct IH as (Hm & Hb & Hc).
      unfold record_prediction in *.
      destruct (metrics_collector app) as [recorded|] eqn:Em; simpl in *.
      * split; [exact Hm|]. split; [exact Hb|].
        destruct Hc as (ms & Hc & Hlen & Hall).
        eexists (_ :: ms). rewrite <- app_assoc in Hc. split; [exact Hc|].
        split; [simpl; now rewrite Hlen|].
        constructor; [split; reflexivity|exact Hall].
      * rewrite Em in Hc. auto.
    + apply (IH app Hrest).
Qed.

(** X18: with a trained model POST /api/predict/batch answers 200 even
    when every item fails. The results keep the order of the requests,
    one each; every result is a success with a prediction whose score
    lies between 0 and 100, or an error with a message and no prediction;
    the two counts add up to the total. Only the successes are recorded
    as metrics, so failed items never reach the metrics collector, and
    one storage task is queued exactly when some item succeeded. *)
Theorem batch_predict_counts (app : App) (m : MaizeModel.MaizeResilienceModel)
  (predictions : list PredictionRequest) (total_processing_time : Q) :
  model app = Some m -> MaizeModel.is_trained m = true ->
  let app' := snd (batch_predict app predictions total_processing_time) in
  exists response,
    fst (batch_predict app predictions total_processing_time) = inr response
    /\ map input (results response) = predictions
    /\ total_processed response = Z.of_nat (List.length predictions)
    /\ (successful_count response + failed_count response
        = total_processed response)%Z
    /\ (forall r, In r (results response) ->
          (status r = "success" /\ error r = None
           /\ exists p, batch_prediction r = Some p
                /\ 0 <= resilience_score p /\ resilience_score p <= 100)
          \/ (status r = "error" /\ batch_prediction r = None
              /\ exists msg, error r = Some msg))
    /\ model app' = model app
    /\ match metrics_collector app with
       | Some recorded =>
           exists ms,
             metrics_collector app' = Some (recorded ++ ms)
             /\ Z.of_nat (List.length ms) = successful_count response
             /\ Forall (fun x => m_success x = true) ms
       | None => metrics_collector app' = None
       end
    /\ ((successful_count response = 0)%Z ->
        background_tasks app' = background_tasks app)
    /\ ((0 < successful_count response)%Z ->
        exists task, background_tasks app' = background_tasks app ++ [task]).
Proof.
  intros Hm Ht app'. subst app'. unfold batch_predict, batch_predict_try.
  rewrite (proj2 (require_trained_model_inv app m) (conj Hm Ht)).
  unfold Py.bind, Py.ok. cbv zeta. simpl fst. simpl snd.
  set (results := map (batch_item m) predictions).
  assert (Hshape : forall r, In r results ->
            (is_success r = true /\ status r = "success" /\ error r = None
             /\ exists p, batch_prediction r = Some p
                  /\ 0 <= resilience_score p /\ resilience_score p <= 100)
            \/ (is_success r = false /\ status r = "error"
                /\ batch_prediction r = None
                /\ exists msg, error r = Some msg)).
  { intros r Hr. subst results. apply in_map_iff in Hr.
    destruct Hr as (q & <- & _). exact (proj2 (batch_item_shape m q)). }
  assert (Hsome : forall r, In r results -> is_success r = true ->
                    batch_prediction r <> None).
  { intros r Hr Hs.
    destruct (Hshape r Hr) as [(_ & _ & _ & p & Hp & _) | (Hf & _)];
      congruence. }
  pose proof (record_batch_metrics app results results total_processing_time
                Hsome) as Hrec.
  cbv zeta in Hrec. fold (record_batch app results total_processing_time) in Hrec.
  destruct Hrec as (Rm & Rb & Rc).
  eexists. split; [reflexivity|]. simpl.
  split.
  { subst results. rewrite map_map.
    clear. induction predictions as [|q qs IH]; simpl; [reflexivity|].
    rewrite IH. f_equal. exact (proj1 (batch_item_shape m q)). }
  split; [subst results; now rewrite length_map|].
  split.
  { rewrite <- Nat2Z.inj_add. f_equal.
    clear. induction results as [|r rs IH]; simpl; [reflexivity|].
    destruct (is_success r); simpl; lia. }
  split.
  { intros r Hr. destruct (Hshape r Hr) as [(_ & H) | (_ & H)];
      [left|right]; exact H. }
  assert (Htasks : forall a : App,
            model (match filter is_success results with
                   | [] => a
                   | _ :: _ =>
                       add_task a
                         (store_batch_predictions (filter is_success results)
                            (total_processing_time
                             / inject_Z (Z.of_nat (List.length results))))
                   end) = model a
            /\ metrics_collector
                 (match filter is_success results with
                  | [] => a
                  | _ :: _ =>
                      add_task a
                        (store_batch_predictions (filter is_success results)
                           (total_processing_time
                            / inject_Z (Z.of_nat (List.length results))))
                  end) = metrics_collector a).
  { intros a. destruct (filter is_success results); split; reflexivity. }
  destruct (Htasks (record_batch app results total_processing_time))
    as [Tm Tc].
  split; [now rewrite Tm|]. split.
  { rewrite Tc. destruct (metrics_collector app) as [recorded|]; [|exact Rc].
    destruct Rc as (ms & Hc & Hlen & Hall). exists ms.
    split; [exact Hc|]. split; [now rewrite Hlen|].
    eapply Forall_impl; [|exact Hall]. now intros x [Hx _]. }
  split.
  - intros Hzero. destruct (filter is_success results); [exact Rb|].
    simpl in Hzero. lia.
  - intros Hpos. destruct (filter is_success results) as [|x xs] eqn:F;
      [simpl in Hpos; lia|].
    eexists. unfold add_task. simpl. now rewrite Rb.
Qed.

Lemma batch_predict_counts_witness :
  exists response,
    fst (batch_predict Scenarios.trained_app
           [Scenarios.nakuru_request; Scenarios.nakuru_request] 0.02)
    = inr response
    /\ total_processed response = 2%Z.
Proof.
  destruct (batch_predict_counts Scenarios.trained_app Scenarios.fitted_model
              [Scenarios.nakuru_request; Scenarios.nakuru_request] 0.02
              eq_refl eq_refl)
    as (response & Hr & _ & Htotal & _).
  exists response. split; [exact Hr|exact Htotal].
Defined.

End FastApiMore.

(** * Further facts about maize_resilience_model.py *)

Module MaizeModelMore.
Import MaizeModelInternals.

Lemma growing_season_months_cases (annual_rainfall : Q) :
  (600 < annual_rainfall
   /\ EnhanceTrainingData.growing_season_months annual_rainfall = 2)
  \/ (annual_rainfall <= 600
      /\ EnhanceTrainingData.growing_season_months annual_rainfall = 0).
Proof.
  unfold EnhanceTrainingData.growing_season_months.
  destruct (Qlt_le_dec 600 annual_rainfall) as [Hx | Hx]; [left|right];
    (split; [exact Hx|]).
  - assert (H6 : Py.Qltb 600 annual_rainfall = true)
      by now apply PyFacts.Qltb_lt.
    assert (H4 : Py.Qltb 400 annual_rainfall = true)
      by (apply PyFacts.Qltb_lt; lra).
    assert (H2 : Py.Qltb 200 annual_rainfall = true)
      by (apply PyFacts.Qltb_lt; lra).
    now rewrite H6, H4, H2.
  - assert (H6 : Py.Qltb 600 annual_rainfall = false)
      by now apply PyFacts.Qltb_ge.
    now rewrite H6.
Qed.

(** X19: the enhanced model is always asked with Growing_Season_Months
    set to 3, a value that no row of the training table holds: the
    eleventh numerical feature of a prediction is 3 whatever the request
    and the county statistics are, while every row of the annual table
    that survives the yield filters holds 0 or 2. *)
Theorem growing_season_feature_never_trained (sqrt : Q -> Q)
  (df : list EnhanceTrainingData.MasterRecord)
  (county_data : option (list (string * CountyStats)))
  (rainfall soil_ph organic_carbon : Q) (county : option string) :
  let x := X_numerical "enhanced_county_specific" county_data rainfall soil_ph
             organic_carbon county in
  List.length x = 14%nat
  /\ nth 10 x None = Some 3
  /\ forall a, In a (EnhanceTrainingData.cleaned_annual_data sqrt df) ->
       ~ Some (EnhanceTrainingData.Growing_Season_Months a) = nth 10 x None.
Proof.
  intros x. subst x. unfold X_numerical. simpl String.eqb. cbv iota.
  split; [reflexivity|]. split; [reflexivity|].
  intros a Ha. simpl nth.
  unfold EnhanceTrainingData.cleaned_annual_data,
    EnhanceTrainingData.clean_unrealistic_yields in Ha.
  apply filter_In in Ha. destruct Ha as [Ha _].
  unfold EnhanceTrainingData.annual_data in Ha. apply in_map_iff in Ha.
  destruct Ha as (k & <- & _). simpl.
  match goal with
  | |- context [EnhanceTrainingData.growing_season_months ?r] =>
      destruct (growing_season_months_cases r) as [[_ ->] | [_ ->]]
  end; discriminate.
Qed.


Lemma nansum_nanmean (xs : list (option Q)) :
  match EnhanceTrainingData.nanmean xs with
  | Some avg =>
      (1 <= List.length (EnhanceTrainingData.values xs))%nat
      /\ EnhanceTrainingData.nansum xs
         == inject_Z (Z.of_nat (List.length (EnhanceTrainingData.values xs)))
            * avg
  | None =>
      EnhanceTrainingData.values xs = [] /\ EnhanceTrainingData.nansum xs == 0
  end.
Proof.
  unfold EnhanceTrainingData.nanmean, EnhanceTrainingData.nansum.
  destruct (EnhanceTrainingData.values xs) as [|q qs] eqn:E.
  - split; reflexivity.
  - split; [simpl; lia|]. unfold EnhanceTrainingData.count.
    rewrite Qmult_div_r; [reflexivity|].
    intros H. assert (Hpos : 0 < inject_Z (Z.of_nat (List.length (q :: qs)))).
    { change 0 with (inject_Z 0). rewrite <- Zlt_Qlt. simpl. lia. }
    lra.
Qed.

(** X20: in the annual training table the annual rainfall and the
    average rainfall are two different features: a group with a
    precipitation value has an average, and with values in two or more
    months and a positive annual rainfall the average is below the
    annual rainfall; a group without any value has no average and the
    annual rainfall 0. A prediction for a county without loaded
    statistics, however, feeds the request's annual rainfall as both
    Annual_Rainfall_mm and Avg_Rainfall_mm. *)
Theorem annual_rainfall_exceeds_monthly_mean (sqrt : Q -> Q)
  (df : list EnhanceTrainingData.MasterRecord)
  (a : EnhanceTrainingData.AnnualRecord) :
  In a (EnhanceTrainingData.annual_data sqrt df) ->
  let months :=
    EnhanceTrainingData.values
      (map EnhanceTrainingData.Monthly_Precipitation_mm
         (filter (EnhanceTrainingData.in_group
                    (EnhanceTrainingData.a_County a,
                     EnhanceTrainingData.a_Year a)) df)) in
  match EnhanceTrainingData.Avg_Rainfall_mm a with
  | Some avg =>
      (1 <= List.length months)%nat
      /\ ((2 <= List.length months)%nat ->
          0 < EnhanceTrainingData.Annual_Rainfall_mm a ->
          avg < EnhanceTrainingData.Annual_Rainfall_mm a)
  | None => months = [] /\ EnhanceTrainingData.Annual_Rainfall_mm a == 0
  end
  /\ forall county_data rainfall soil_ph organic_carbon county,
       match county_data, county with
       | Some index, Some name => loc index name = None
       | _, _ => True
       end ->
       let x := X_numerical "enhanced_county_specific" county_data rainfall
                  soil_ph organic_carbon county in
       nth 0 x None = Some rainfall /\ nth 1 x None = Some rainfall.
Proof.
  intros Ha months. split.
  - unfold EnhanceTrainingData.annual_data in Ha. apply in_map_iff in Ha.
    destruct Ha as (k & <- & _). subst months. simpl.
    destruct k as [c y]. simpl.
    pose proof (nansum_nanmean
                  (map EnhanceTrainingData.Monthly_Precipitation_mm
                     (filter (EnhanceTrainingData.in_group (c, y)) df)))
      as Hmean.
    destruct (EnhanceTrainingData.nanmean _) as [avg|]; [|exact Hmean].
    destruct Hmean as [Hone Hsum]. split; [exact Hone|].
    intros Htwo Hpos.
    assert (Hn : 2 <= inject_Z (Z.of_nat (List.length
                   (EnhanceTrainingData.values
                      (map EnhanceTrainingData.Monthly_Precipitation_mm
                         (filter (EnhanceTrainingData.in_group (c, y)) df)))))).
    { change 2 with (inject_Z 2). rewrite <- Zle_Qle. lia. }
    rewrite Hsum in Hpos |- *. nra.
  - intros county_data rainfall soil_ph organic_carbon county Hunknown x.
    subst x. unfold X_numerical, county_features. simpl String.eqb. cbv iota.
    destruct county_data as [index|]; [|split; reflexivity].
    destruct county as [name|]; [|split; reflexivity].
    rewrite Hunknown. split; reflexivity.
Qed.

(** In the scenario Nakuru has two months with a precipitation value in
    2021, and its average rainfall is below its annual rainfall. *)
Lemma annual_rainfall_exceeds_monthly_mean_witness :
  exists avg,
    EnhanceTrainingData.Avg_Rainfall_mm Scenarios.nakuru_annual = Some avg
    /\ avg < EnhanceTrainingData.Annual_Rainfall_mm Scenarios.nakuru_annual.
Proof.
  assert (E : exists avg,
            EnhanceTrainingData.Avg_Rainfall_mm Scenarios.nakuru_annual
            = Some avg)
    by (eexists; vm_compute; reflexivity).
  destruct E as (avg & E). exists avg. split; [exact E|].
  pose proof (annual_rainfall_exceeds_monthly_mean Scenarios.no_sqrt
                Scenarios.master_records Scenarios.nakuru_annual
                ltac:(apply in_map; vm_compute;
                      repeat (try (left; reflexivity); right)))
    as H.
  cbv zeta in H. destruct H as [H _]. rewrite E in H. apply (proj2 H).
  - vm_compute. lia.
  - vm_compute. reflexivity.
Defined.

(** ** Saving and loading *)

Section PersistenceFacts.

Variables Estimator Scaler Encoder : Type.
Variable transform : Encoder -> option string -> Py.result (list Q).
Variable transform_first_category : Encoder -> Py.result (list Q).
Variable scale : Scaler -> list (option Q) -> Py.result (list Q).
Variable predict : Estimator -> list Q -> Py.result Q.
Variable has_feature_importances : Estimator -> bool.

Let State := ModelState Estimator Scaler Encoder.

(** X21: a model can be saved exactly when it is trained, and loading
    the saved file into any model object gives back the estimator, the
    scaler, the encoder, the feature names, the trained flag and the
    model type, hence the same predictions; the county statistics are not
    part of the file and stay those of the loading object. *)
Theorem save_load_round_trip (self other : State) :
  (s_is_trained self = false ->
   save_model self
   = inl (Py.ValueError "Model must be trained before saving"))
  /\ (s_is_trained self = true ->
      exists model_data,
        save_model self = inr model_data
        /\ let loaded := load_model has_feature_importances other model_data in
           s_model loaded = s_model self
           /\ s_scaler loaded = s_scaler self
           /\ s_encoder loaded = s_encoder self
           /\ s_feature_names loaded = s_feature_names self
           /\ s_is_trained loaded = true
           /\ s_model_type loaded = s_model_type self
           /\ s_county_data loaded = s_county_data other
           /\ (s_county_data other = s_county_data self ->
               forall rainfall soil_ph organic_carbon county,
                 predict_yield transform transform_first_category scale
                   predict loaded rainfall soil_ph organic_carbon county
                 = predict_yield transform transform_first_category scale
                     predict self rainfall soil_ph organic_carbon county)).
Proof.
  unfold save_model. split; intros Ht; rewrite Ht; simpl; [reflexivity|].
  eexists. split; [reflexivity|]. simpl.
  repeat split; try assumption.
  intros Hdata rainfall soil_ph organic_carbon county.
  unfold predict_yield, encode_county. simpl. now rewrite Hdata.
Qed.

(** X22: a model file without an encoder (the legacy format that
    [load_model] accepts) loads as a legacy model whose predictions always
    raise, because the county encoding needs the encoder. An application
    whose model runs on such a file answers 500 to every request of
    POST /api/predict, and its batch endpoint never returns a successful
    item. *)
Theorem legacy_file_never_predicts (other : State)
  (model_data : ModelData Estimator Scaler Encoder)
  (m : MaizeModel.MaizeResilienceModel) (app : FastApi.App)
  (request : FastApi.PredictionRequest)
  (predictions : list FastApi.PredictionRequest) (t : Q) :
  d_encoder model_data = None ->
  (forall rainfall soil_ph organic_carbon county,
     MaizeModel.predict_yield m rainfall soil_ph organic_carbon county
     = predict_yield transform transform_first_category scale predict
         (load_model has_feature_importances other model_data)
         rainfall soil_ph organic_carbon county) ->
  FastApi.model app = Some m ->
  let loaded := load_model has_feature_importances other model_data in
  s_encoder loaded = None
  /\ s_model_type loaded = "legacy"
  /\ FastApi.status_code (fst (FastApi.predict_resilience app request t))
     = 500%Z
  /\ match fst (FastApi.batch_predict app predictions t) with
     | inr response =>
         FastApi.successful_count response = 0%Z
         /\ forall r, In r (FastApi.results response) ->
              FastApi.status r = "error"
     | inl _ =>
         FastApi.status_code (fst (FastApi.batch_predict app predictions t))
         = 500%Z
     end.
Proof.
  intros Hlegacy Hm Happ loaded.
  assert (Henc : s_encoder loaded = None)
    by (subst loaded; simpl; now rewrite Hlegacy).
  assert (Hraise : forall rainfall soil_ph organic_carbon county,
            exists e,
              MaizeModel.predict_resilience_score m rainfall soil_ph
                organic_carbon county = inl e).
  { intros rainfall soil_ph organic_carbon county.
    unfold MaizeModel.predict_resilience_score.
    destruct (negb (MaizeModel.is_trained m)); [eexists; reflexivity|].
    rewrite Hm. unfold predict_yield, encode_county. fold loaded.
    rewrite Henc. simpl. eexists. reflexivity. }
  split; [exact Henc|]. split; [subst loaded; simpl; now rewrite Hlegacy|].
  split.
  - apply FastApiFacts.predict_resilience_error_status with
      (e := match FastApi.predict_resilience_try app request with
            | inl e => e
            | inr _ => Py.OtherException ""
            end).
    unfold FastApi.predict_resilience_try, Py.bind.
    destruct (FastApi.require_trained_model app) as [e|m'] eqn:Em;
      [reflexivity|].
    assert (m' = m).
    { unfold FastApi.require_trained_model in Em. rewrite Happ in Em.
      destruct (MaizeModel.is_trained m); [now injection Em|discriminate]. }
    subst m'.
    destruct (Hraise (FastApi.rainfall request) (FastApi.soil_ph request)
                (FastApi.organic_carbon request) (FastApi.county request))
      as (e & ->).
    reflexivity.
  - unfold FastApi.batch_predict, FastApi.batch_predict_try, Py.bind.
    destruct (FastApi.require_trained_model app) as [e|m'] eqn:Em;
      [reflexivity|].
    assert (m' = m).
    { unfold FastApi.require_trained_model in Em. rewrite Happ in Em.
      destruct (MaizeModel.is_trained m); [now injection Em|discriminate]. }
    subst m'. cbv zeta. simpl fst. simpl FastApi.successful_count.
    simpl FastApi.results.
    assert (Hall : forall r, In r (map (FastApi.batch_item m) predictions) ->
              FastApi.is_success r = false /\ FastApi.status r = "error").
    { intros r Hr. apply in_map_iff in Hr. destruct Hr as (q & <- & _).
      unfold FastApi.batch_item.
      destruct (Hraise (FastApi.rainfall q) (FastApi.soil_ph q)
                  (FastApi.organic_carbon q) (FastApi.county q)) as (e & ->).
      split; reflexivity. }
    split; [|intros r Hr; apply (Hall r Hr)].
    induction (map (FastApi.batch_item m) predictions) as [|r rs IH];
      [reflexivity|].
    simpl. destruct (Hall r (or_introl eq_refl)) as [-> _].
    apply IH. intros r0 Hr0. apply Hall. now right.
Qed.

End PersistenceFacts.

(** A legacy file of a trained estimator, loaded into a fresh model. *)
Lemma legacy_file_never_predicts_witness :
  let model_data :=
    {| d_model := Some tt; d_scaler := tt; d_encoder := @None (option unit);
       d_feature_names := Some ["Annual_Rainfall_mm"];
       d_is_trained := Some true; d_model_type := None |} in
  let fresh :=
    {| s_model := Some tt; s_scaler := tt; s_encoder := Some tt;
       s_feature_names := None; s_is_trained := false;
       s_model_type := "county_specific_random_forest";
       s_county_data := None |} in
  let loaded := load_model (fun _ => true) fresh model_data in
  let m :=
    {| MaizeModel.is_trained := s_is_trained loaded;
       MaizeModel.algorithm := "RandomForestRegressor";
       MaizeModel.feature_names := s_feature_names loaded;
       MaizeModel.feature_importances_ := [1];
       MaizeModel.predict_yield :=
         predict_yield (fun _ _ => Py.ok [1]) (fun _ => Py.ok [1])
           (fun _ _ => Py.ok [0]) (fun _ _ => Py.ok 2) loaded |} in
  let app :=
    {| FastApi.model := Some m; FastApi.metrics_collector := Some [];
       FastApi.background_tasks := [] |} in
  MaizeModel.is_trained m = true
  /\ FastApi.status_code
       (fst (FastApi.predict_resilience app Scenarios.nakuru_request 0.01))
     = 500%Z.
Proof.
  intros model_data fresh loaded m app. split; [reflexivity|].
  refine (proj1 (proj2 (proj2
    (legacy_file_never_predicts unit unit unit (fun _ _ => Py.ok [1])
       (fun _ => Py.ok [1]) (fun _ _ => Py.ok [0]) (fun _ _ => Py.ok 2)
       (fun _ => true) fresh model_data m app Scenarios.nakuru_request [] 0.01
       eq_refl _ eq_refl)))).
  intros. reflexivity.
Defined.

End MaizeModelMore.

(** * Facts about monitoring.py *)

Module MonitoringMore.
Import Monitoring.

(** ** Replaying the recorded predictions *)

Lemma replay_snoc (self : MetricsCollector)
  (calls : list FastApi.PredictionMetric) (m : FastApi.PredictionMetric) :
  replay self (calls ++ [m])
  = record_prediction (replay self calls) (FastApi.m_rainfall m)
      (FastApi.m_soil_ph m) (FastApi.m_organic_carbon m)
      (FastApi.m_resilience_score m) (FastApi.m_processing_time m)
      (FastApi.m_success m) "/api/predict".
Proof. unfold replay. now rewrite fold_left_app. Qed.

(** X23: the prediction metrics of a collector that recorded a sequence
    of predictions: the total is the number of calls, successes and
    failures add up to it, the total time is the times added one after
    the other in the order of the calls, starting from 0.0, the average
    is the quotient of that total by the number of calls once there is a
    call, every recorded time lies between the minimum and the maximum,
    and the error rate is a percentage between 0 and 100. *)
Theorem replayed_prediction_metrics (max_history_size : nat)
  (calls : list FastApi.PredictionMetric) :
  let c := replay (new_collector max_history_size) calls in
  let p := prediction_metrics c in
  total_requests p = Z.of_nat (List.length calls)
  /\ successful_requests p
     = Z.of_nat (List.length (filter FastApi.m_success calls))
  /\ (successful_requests p + failed_requests p = total_requests p)%Z
  /\ total_processing_time p = fold_left Qplus (times calls) 0.0
  /\ (calls <> [] ->
      average_processing_time p
      = total_processing_time p / inject_Z (total_requests p))
  /\ (forall t, In t (times calls) ->
        t <= max_processing_time p
        /\ exists lo, min_processing_time p = Some lo /\ lo <= t)
  /\ (calls = [] -> min_processing_time p = None)
  /\ 0 <= error_rate c /\ error_rate c <= 100.
Proof.
  intros c p. subst p c.
  assert (Hmain :
    let p := prediction_metrics (replay (new_collector max_history_size) calls) in
    total_requests p = Z.of_nat (List.length calls)
    /\ successful_requests p
       = Z.of_nat (List.length (filter FastApi.m_success calls))
    /\ (successful_requests p + failed_requests p = total_requests p)%Z
    /\ total_processing_time p = fold_left Qplus (times calls) 0.0
    /\ (calls <> [] ->
        average_processing_time p
        = total_processing_time p / inject_Z (total_requests p))
    /\ (forall t, In t (times calls) ->
          t <= max_processing_time p
          /\ exists lo, min_processing_time p = Some lo /\ lo <= t)
    /\ (calls = [] -> min_processing_time p = None)
    /\ (0 <= failed_requests p)%Z).
  { induction calls as [|m calls IH] using rev_ind.
    - simpl. repeat split; try reflexivity; try (intros t []); lia.
    - cbv zeta in IH |- *. rewrite replay_snoc.
      set (c := replay (new_collector max_history_size) calls) in *.
      destruct IH as (Ht & Hs & Hsf & Hsum & Havg & Hrange & _ & Hf).
      unfold record_prediction, update. cbn [prediction_metrics total_requests
        successful_requests failed_requests total_processing_time
        average_processing_time min_processing_time max_processing_time].
      rewrite Ht. unfold times in *. rewrite !length_app, !map_app, filter_app.
      simpl List.length. simpl map.
      split; [lia|]. split.
      { destruct (FastApi.m_success m); simpl; rewrite Hs, ?length_app;
          simpl; lia. }
      split; [destruct (FastApi.m_success m); lia|].
      split; [rewrite fold_left_app, <- Hsum; reflexivity|].
      split; [intros _; reflexivity|].
      split.
      { intros t Ht'. apply in_app_or in Ht'.
        destruct (Py.Qltb (max_processing_time (prediction_metrics c))
                    (FastApi.m_processing_time m)) eqn:Emax;
          [apply PyFacts.Qltb_lt in Emax | apply PyFacts.Qltb_ge in Emax].
        - destruct Ht' as [Hold | [<- | []]].
          + destruct (Hrange t Hold) as (Hmax & lo & Hlo & Hle).
            split; [lra|]. rewrite Hlo.
            destruct (Py.Qltb (FastApi.m_processing_time m) lo) eqn:Emin;
              [apply PyFacts.Qltb_lt in Emin | apply PyFacts.Qltb_ge in Emin];
              eexists; (split; [reflexivity|lra]).
          + split; [lra|].
            destruct (min_processing_time (prediction_metrics c)) as [lo|];
              [|eexists; split; [reflexivity|lra]].
            destruct (Py.Qltb (FastApi.m_processing_time m) lo) eqn:Emin;
              [apply PyFacts.Qltb_lt in Emin | apply PyFacts.Qltb_ge in Emin];
              eexists; (split; [reflexivity|lra]).
        - destruct Ht' as [Hold | [<- | []]].
          + destruct (Hrange t Hold) as (Hmax & lo & Hlo & Hle).
            split; [lra|]. rewrite Hlo.
            destruct (Py.Qltb (FastApi.m_processing_time m) lo) eqn:Emin;
              [apply PyFacts.Qltb_lt in Emin | apply PyFacts.Qltb_ge in Emin];
              eexists; (split; [reflexivity|lra]).
          + split; [lra|].
            destruct (min_processing_time (prediction_metrics c)) as [lo|];
              [|eexists; split; [reflexivity|lra]].
            destruct (Py.Qltb (FastApi.m_processing_time m) lo) eqn:Emin;
              [apply PyFacts.Qltb_lt in Emin | apply PyFacts.Qltb_ge in Emin];
              eexists; (split; [reflexivity|lra]). }
      split.
      { intros Hnil. destruct calls; discriminate. }
      destruct (FastApi.m_success m); lia. }
  cbv zeta in Hmain.
  destruct Hmain as (Ht & Hs & Hsf & Hsum & Havg & Hrange & Hnil & Hf).
  repeat (split; [assumption|]).
  unfold error_rate.
  set (p := prediction_metrics (replay (new_collector max_history_size) calls))
    in *.
  assert (Hfail : (failed_requests p <= total_requests p)%Z) by lia.
  destruct (Z.ltb (total_requests p) 1) eqn:E.
  - apply Z.ltb_lt in E.
    assert (failed_requests p = 0%Z) by lia.
    rewrite H. split; [|]; vm_compute; discriminate.
  - apply Z.ltb_ge in E.
    assert (Hpos : 0 < inject_Z (total_requests p)).
    { change 0 with (inject_Z 0). rewrite <- Zlt_Qlt. lia. }
    assert (Hf0 : 0 <= inject_Z (failed_requests p)).
    { change 0 with (inject_Z 0). rewrite <- Zle_Qle. lia. }
    assert (Hft : inject_Z (failed_requests p) <= inject_Z (total_requests p)).
    { rewrite <- Zle_Qle. lia. }
    assert (Hq : 0 <= inject_Z (failed_requests p) / inject_Z (total_requests p)
                 /\ inject_Z (failed_requests p) / inject_Z (total_requests p)
                    <= 1).
    { split.
      - apply Qle_shift_div_l; [exact Hpos|lra].
      - apply Qle_shift_div_r; [exact Hpos|lra]. }
    lra.
Qed.


Lemma increment_counted (key : string) (n : nat) :
  increment key (counted key n) = counted key (S n).
Proof.
  destruct n as [|n]; simpl; [reflexivity|].
  rewrite String.eqb_refl. unfold counted. do 2 f_equal. lia.
Qed.

(** X24: the counters of a collector that recorded a sequence of
    predictions have one key each: every prediction is counted under the
    county Unknown, whatever county was asked for, and under the endpoint
    /api/predict, also when the batch handler recorded it; the error
    counter of that endpoint is the number of failed calls. *)
Theorem replayed_counters (max_history_size : nat)
  (calls : list FastApi.PredictionMetric) :
  let c := replay (new_collector max_history_size) calls in
  county_distribution (feature_metrics c)
  = counted "Unknown" (List.length calls)
  /\ endpoint_usage c = counted "/api/predict" (List.length calls)
  /\ error_counts c
     = counted "/api/predict"
         (List.length (filter (fun m => negb (FastApi.m_success m)) calls)).
Proof.
  induction calls as [|m calls IH] using rev_ind; [repeat split|].
  cbv zeta in IH |- *. rewrite replay_snoc.
  destruct IH as (Hc & He & Hr).
  unfold record_prediction, update_features.
  cbn [feature_metrics county_distribution endpoint_usage error_counts].
  rewrite Hc, He, Hr, !increment_counted, filter_app, !length_app.
  simpl List.length. rewrite !Nat.add_1_r.
  repeat split.
  destruct (FastApi.m_success m); simpl;
    [now rewrite Nat.add_0_r|now rewrite Nat.add_1_r].
Qed.

(** ** The window of response times *)

Lemma deque_append_window (maxlen : nat) (l : list Q) (x : Q) :
  deque_append maxlen (skipn (List.length l - maxlen) l) x
  = skipn (List.length (l ++ [x]) - maxlen) (l ++ [x]).
Proof.
  unfold deque_append.
  rewrite !length_app, length_skipn. simpl List.length.
  destruct (Nat.le_gt_cases maxlen (List.length l)) as [Hfull | Hroom].
  - replace (List.length l - (List.length l - maxlen) + 1 - maxlen)%nat
      with 1%nat by lia.
    replace (List.length l + 1 - maxlen)%nat
      with (1 + (List.length l - maxlen))%nat by lia.
    rewrite <- skipn_skipn. f_equal.
    rewrite skipn_app.
    replace (List.length l - maxlen - List.length l)%nat with 0%nat by lia.
    reflexivity.
  - replace (List.length l - maxlen)%nat with 0%nat by lia.
    replace (List.length l - 0 + 1 - maxlen)%nat with 0%nat by lia.
    replace (List.length l + 1 - maxlen)%nat with 0%nat by lia.
    reflexivity.
Qed.

(** X25: the response times that a collector keeps are the most recent
    ones, in the order of the calls and at most [max_history_size] of
    them; older times are forgotten, though they still count in the
    total and the average. *)
Theorem response_times_window (max_history_size : nat)
  (calls : list FastApi.PredictionMetric) :
  let c := replay (new_collector max_history_size) calls in
  response_times c
  = skipn (List.length calls - max_history_size) (times calls)
  /\ List.length (response_times c)
     = Nat.min (List.length calls) max_history_size
  /\ Monitoring.max_history_size c = max_history_size.
Proof.
  cbv zeta.
  assert (Hmain :
    response_times (replay (new_collector max_history_size) calls)
    = skipn (List.length calls - max_history_size) (times calls)
    /\ Monitoring.max_history_size
         (replay (new_collector max_history_size) calls)
       = max_history_size).
  { induction calls as [|m calls IH] using rev_ind; [split; reflexivity|].
    rewrite replay_snoc. destruct IH as [IH Hmax].
    unfold record_prediction.
    cbn [response_times Monitoring.max_history_size].
    rewrite IH, Hmax. split; [|reflexivity].
    unfold times. rewrite map_app. simpl map.
    rewrite <- (length_map FastApi.m_processing_time calls).
    rewrite deque_append_window.
    now rewrite !length_app, !length_map. }
  destruct Hmain as [Hw Hmax]. split; [exact Hw|]. split; [|exact Hmax].
  rewrite Hw, length_skipn. unfold times. rewrite length_map. lia.
Qed.


(** ** The response-time percentiles *)

Lemma percentile_index_bounds (n : nat) (q : Q) :
  (1 <= n)%nat -> 1 # 2 <= q -> q < 1 ->
  (n / 2 <= percentile_index n q < n)%nat.
Proof.
  intros Hn Hlo Hhi. unfold percentile_index.
  assert (Hpos : 0 < inject_Z (Z.of_nat n)).
  { change 0 with (inject_Z 0). rewrite <- Zlt_Qlt. lia. }
  set (x := inject_Z (Z.of_nat n) * q).
  assert (Hhalf : (Z.of_nat (n / 2) <= Qfloor x)%Z).
  { rewrite <- (Qfloor_Z (Z.of_nat (n / 2))). apply Qfloor_resp_le.
    assert (H2 : inject_Z (Z.of_nat (n / 2)) * 2 <= inject_Z (Z.of_nat n)).
    { change 2 with (inject_Z 2). rewrite <- inject_Z_mult, <- Zle_Qle.
      pose proof (Nat.Div0.mul_div_le n 2). lia. }
    subst x. nra. }
  assert (Hbelow : (Qfloor x < Z.of_nat n)%Z).
  { rewrite Zlt_Qlt. pose proof (Qfloor_le x). subst x. nra. }
  lia.
Qed.

Lemma percentile_index_mono (n : nat) (q q' : Q) :
  0 <= q -> q <= q' ->
  (percentile_index n q <= percentile_index n q')%nat.
Proof.
  intros H0 Hqq. unfold percentile_index.
  assert (Hn : 0 <= inject_Z (Z.of_nat n)).
  { change 0 with (inject_Z 0). rewrite <- Zle_Qle. lia. }
  apply Z2Nat.inj_le.
  - change 0%Z with (Qfloor 0). apply Qfloor_resp_le. nra.
  - change 0%Z with (Qfloor 0). apply Qfloor_resp_le. nra.
  - apply Qfloor_resp_le. nra.
Qed.

(** X26: the percentile look-ups of get_metrics never run past the end
    of the sorted times. The three percentiles are 0 when no time is
    kept; otherwise each is one of the kept response times and they are
    in order, p50 <= p95 <= p99. *)
Theorem percentiles_ordered (self : MetricsCollector) :
  exists p50 p95 p99,
    percentiles self = Some (p50, p95, p99)
    /\ p50 <= p95 /\ p95 <= p99
    /\ match response_times self with
       | [] => p50 = 0.0 /\ p95 = 0.0 /\ p99 = 0.0
       | _ :: _ =>
           In p50 (response_times self) /\ In p95 (response_times self)
           /\ In p99 (response_times self)
       end.
Proof.
  unfold percentiles.
  pose proof (EnhanceTrainingDataFacts.sort_perm _ Qle_bool (response_times self))
    as Hperm.
  pose proof (EnhanceTrainingDataFacts.sort_strongly_sorted (response_times self))
    as Hsorted.
  destruct (EnhanceTrainingData.sort Qle_bool (response_times self))
    as [|t ts] eqn:Es.
  - apply Permutation_nil in Hperm. rewrite Hperm.
    exists 0.0, 0.0, 0.0. repeat split; lra.
  - set (s := t :: ts) in *. set (n := List.length s).
    assert (Hn : (1 <= n)%nat) by (subst n s; simpl; lia).
    destruct (percentile_index_bounds n 0.95 Hn) as [H95lo H95hi];
      [lra | lra |].
    destruct (percentile_index_bounds n 0.99 Hn) as [H99lo H99hi];
      [lra | lra |].
    assert (Hmono : (percentile_index n 0.95 <= percentile_index n 0.99)%nat)
      by (apply percentile_index_mono; lra).
    assert (H50 : (n / 2 < n)%nat) by lia.
    rewrite (nth_error_nth' s 0 H50), (nth_error_nth' s 0 H95hi),
      (nth_error_nth' s 0 H99hi).
    eexists _, _, _. split; [reflexivity|].
    split; [apply EnhanceTrainingDataFacts.nth_sorted; [exact Hsorted|lia]|].
    split; [apply EnhanceTrainingDataFacts.nth_sorted; [exact Hsorted|lia]|].
    destruct (response_times self) as [|r rs] eqn:Er.
    + apply Permutation_sym, Permutation_nil in Hperm. discriminate.
    + repeat split; apply (Permutation_in _ Hperm), nth_In; assumption.
Qed.

End MonitoringMore.

(** * Facts about app.py *)

Module FlaskAppMore.
Import FlaskApp.

(** X27: the Flask endpoint POST /api/predict never answers 200. It
    answers 400, 500 or 503; on a payload that passes the presence and
    range checks it answers 503 when the model is untrained and 500 when
    it is trained, because the call of the model lacks the county
    argument. A missing field or a value out of range answers 400
    whether or not the model is trained. *)
Theorem flask_predict_never_succeeds (is_trained : bool) (data : Payload) :
  (predict_resilience is_trained data = 400%Z
   \/ predict_resilience is_trained data = 500%Z
   \/ predict_resilience is_trained data = 503%Z)
  /\ (valid data ->
      predict_resilience is_trained data
      = if is_trained then 500%Z else 503%Z)
  /\ (predict_resilience is_trained data = 503%Z
      <-> valid data /\ is_trained = false)
  /\ (is_missing (p_rainfall data) || is_missing (p_soil_ph data)
      || is_missing (p_organic_carbon data) = true ->
      predict_resilience is_trained data = 400%Z).
Proof.
  assert (Hvalid : valid data ->
            predict_resilience is_trained data
            = if is_trained then 500%Z else 503%Z).
  { intros (r & p & o & Hr & Hp & Ho & R0 & R1 & P0 & P1 & O0 & O1).
    unfold predict_resilience, predict_resilience_try.
    rewrite Hr, Hp, Ho. simpl.
    rewrite (proj2 (PyFacts.Qltb_ge r 0) R0),
      (proj2 (PyFacts.Qltb_ge 3000 r) R1),
      (proj2 (PyFacts.Qltb_ge p 4.0) P0),
      (proj2 (PyFacts.Qltb_ge 10.0 p) P1),
      (proj2 (PyFacts.Qltb_ge o 0.1) O0),
      (proj2 (PyFacts.Qltb_ge 10.0 o) O1).
    simpl. now destruct is_trained. }
  assert (Hcases :
            (predict_resilience is_trained data = 400%Z
             \/ predict_resilience is_trained data = 500%Z)
            \/ valid data).
  { unfold predict_resilience, predict_resilience_try, valid.
    destruct (p_rainfall data) as [|[e1|r]]; simpl; auto;
      try (destruct e1; auto; fail).
    all: destruct (p_soil_ph data) as [|[e2|p]]; simpl; auto;
      try (destruct e2; auto; fail).
    all: destruct (p_organic_carbon data) as [|[e3|o]]; simpl; auto;
      try (destruct e1; auto; fail); try (destruct e2; auto; fail);
      try (destruct e3; auto; fail).
    destruct (Py.Qltb r 0) eqn:R0; simpl; auto.
    destruct (Py.Qltb 3000 r) eqn:R1; simpl; auto.
    destruct (Py.Qltb p 4.0) eqn:P0; simpl; auto.
    destruct (Py.Qltb 10.0 p) eqn:P1; simpl; auto.
    destruct (Py.Qltb o 0.1) eqn:O0; simpl; auto.
    destruct (Py.Qltb 10.0 o) eqn:O1; simpl; auto.
    right. exists r, p, o.
    apply PyFacts.Qltb_ge in R0, R1, P0, P1, O0, O1.
    repeat split; assumption. }
  split; [|split; [exact Hvalid|split]].
  - destruct Hcases as [[H|H]|H]; auto.
    rewrite (Hvalid H). destruct is_trained; auto.
  - split.
    + intros H503. destruct Hcases as [[H|H]|H]; try congruence.
      split; [exact H|]. rewrite (Hvalid H) in H503.
      destruct is_trained; [discriminate|reflexivity].
    + intros [Hv ->]. now rewrite (Hvalid Hv).
  - intros Hmiss. unfold predict_resilience, predict_resilience_try.
    now rewrite Hmiss.
Qed.

End FlaskAppMore.
